(** * TickTick MCP server: the tool-call handler of [src/index.js]

    The server is one class, [TickTickMCPServer].  Its [CallToolRequestSchema]
    handler checks the credentials, dispatches on the tool name and runs one
    of 112 tool methods; every method builds requests for
    [makeTickTickRequest] and formats the JSON answer as text.

    The development follows the source top-down:
    - [Js]: the JavaScript values the handler receives (parsed JSON) and the
      operations of the language the methods use on them;
    - [Prog]: the effects of a tool call (reading the clock, [fetch],
      rendering a template) as a free monad, and its interpreter [run];
    - the tool methods, the dispatch table and the handler [callTool];
    - the properties of the handler.

    Value model.  Numbers are integers or NaN: the counts, priorities, status
    codes and minute values of the schemas.  Fractions and infinities are
    outside the model, and integers print in plain decimal, as JavaScript
    prints them below 1e21.  A string is a sequence of code units below 256
    (ASCII and Latin-1).  Objects keep their properties in enumeration
    order. *)

From Stdlib Require Import ZArith List String Ascii Bool Lia DecimalString.
Import ListNotations.
Open Scope list_scope.
Open Scope string_scope.

Set Implicit Arguments.
Set Warnings "-register-all".

(** ** Values and errors *)

Inductive Val : Type :=
| VUndef
| VNull
| VBool (b : bool)
| VNum (n : Z)
| VNaN
| VStr (s : string)
| VArr (items : list Val)
| VObj (fields : list (string * Val)).

(** Errors the engine raises by itself.  Their message text belongs to the
    engine, see [engine_message]. *)
Inductive Fault : Type :=
| NullishDestructure            (* function ({a}) called with undefined/null *)
| NullishRead (prop : string)   (* undefined.prop, null.prop *)
| NotCallable (prop : string)   (* x.prop(...) where x.prop is no function *)
| NoPrimitive                   (* an object that converts to no primitive *)
| InvalidTime                   (* toISOString() of an Invalid Date *)
| JsonSyntax.                   (* response.json() of a body that is no JSON *)

(** [ErrorCode] of the MCP SDK, the three members the source uses. *)
Inductive ErrorCode : Type := InvalidRequest | MethodNotFound | InternalError.

Definition code_number (c : ErrorCode) : Z :=
  match c with
  | InvalidRequest => -32600
  | MethodNotFound => -32601
  | InternalError => -32603
  end.

Inductive JsErr : Type :=
| UserError (m : string)                 (* new Error(m) *)
| McpError (c : ErrorCode) (m : string)  (* new McpError(c, m) *)
| EngineError (f : Fault)
| FetchError (m : string).               (* fetch(...) rejected *)

Inductive Result (A : Type) : Type :=
| Ok (a : A)
| Err (e : JsErr).
Arguments Ok {A} a.
Arguments Err {A} e.

Definition rbind {A B} (r : Result A) (k : A -> Result B) : Result B :=
  match r with
  | Ok a => k a
  | Err e => Err e
  end.

Notation "'let?' x ':=' r 'in' k" := (rbind r (fun x => k))
  (at level 10, x name, r at level 100, k at level 200).

Definition is_ok {A} (r : Result A) : bool :=
  match r with Ok _ => true | Err _ => false end.

(** ** The parts of the runtime that are not transcribed

    Date parsing beyond the ISO format and locale formatting depend on the
    engine and its locale settings; Unicode case mapping and the wording of
    engine errors are fixed by the engine.  The model takes them from a
    record. *)
Record Runtime : Type := {
  engine_message : Fault -> string;
  Date_parse : string -> option Z;        (* None: NaN *)
  getFullYear : Z -> Z;                   (* year in the local time zone *)
  toLocaleDateString : Z -> string;
  toLocaleTimeString : Z -> string;
  toLocaleString : Z -> string;
  toLowerCase : string -> string;
  StringToNumber : string -> option Z     (* ToNumber of a string; None: NaN *)
}.

(** ** JavaScript operations on values *)
Module Js.

Definition dec (z : Z) : string := NilZero.string_of_int (Z.to_int z).

Definition truthy (v : Val) : bool :=
  match v with
  | VUndef | VNull | VNaN => false
  | VBool b => b
  | VNum n => negb (n =? 0)%Z
  | VStr s => negb (s =? "")
  | VArr _ | VObj _ => true
  end.

(** [a || b] and the default of a destructured parameter, [{x = d}]. *)
Definition or_ (a b : Val) : Val := if truthy a then a else b.

Definition dflt (v d : Val) : Val :=
  match v with VUndef => d | _ => v end.

Definition is_undefined (v : Val) : bool :=
  match v with VUndef => true | _ => false end.

Fixpoint lookup (k : string) (l : list (string * Val)) : Val :=
  match l with
  | [] => VUndef
  | (k', v) :: r => if k' =? k then v else lookup k r
  end.

Definition has_key (k : string) (l : list (string * Val)) : bool :=
  existsb (fun p => fst p =? k) l.

(** [o.k = v]: an existing property keeps its place. *)
Fixpoint set_prop (k : string) (v : Val) (l : list (string * Val))
  : list (string * Val) :=
  match l with
  | [] => [(k, v)]
  | (k', v') :: r => if k' =? k then (k, v) :: r else (k', v') :: set_prop k v r
  end.

Definition len (s : string) : Z := Z.of_nat (String.length s).

(** [v.k] for a data property [k].  The names read in the source ([title],
    [tags], [status], [length], ...) are no members of a prototype except
    [length], so a primitive or an array has them undefined. *)
Definition get (v : Val) (k : string) : Result Val :=
  match v with
  | VUndef | VNull => Err (EngineError (NullishRead k))
  | VObj l => Ok (lookup k l)
  | VArr l => Ok (if k =? "length" then VNum (Z.of_nat (List.length l)) else VUndef)
  | VStr s => Ok (if k =? "length" then VNum (len s) else VUndef)
  | VBool _ | VNum _ | VNaN => Ok VUndef
  end.

(** [v?.k] *)
Definition get_opt (v : Val) (k : string) : Result Val :=
  match v with
  | VUndef | VNull => Ok VUndef
  | _ => get v k
  end.

(** Binding of a destructured parameter list [({a, b})]: the argument must
    not be undefined or null, each name is then read from it. *)
Definition destructure (args : Val) : Result unit :=
  match args with
  | VUndef | VNull => Err (EngineError NullishDestructure)
  | _ => Ok tt
  end.

Definition field (args : Val) (k : string) : Val :=
  match get args k with Ok v => v | Err _ => VUndef end.

(** ToString.  A parsed JSON object converts through
    [Object.prototype.toString] unless an own property [toString] hides it:
    that property is no function, and the conversion fails. *)
Fixpoint to_str (v : Val) : Result string :=
  match v with
  | VUndef => Ok "undefined"
  | VNull => Ok "null"
  | VBool true => Ok "true"
  | VBool false => Ok "false"
  | VNum n => Ok (dec n)
  | VNaN => Ok "NaN"
  | VStr s => Ok s
  | VObj l => if has_key "toString" l then Err (EngineError NoPrimitive)
              else Ok "[object Object]"
  | VArr l =>
      (fix go (l : list Val) : Result string :=
         match l with
         | [] => Ok ""
         | x :: r =>
             let? sx := match x with
                        | VUndef | VNull => Ok ""
                        | _ => to_str x
                        end in
             match r with
             | [] => Ok sx
             | _ => let? sr := go r in Ok (sx ++ "," ++ sr)
             end
         end) l
  end.

(** [Array.prototype.join] on the items of an array. *)
Fixpoint join_items (sep : string) (l : list Val) : Result string :=
  match l with
  | [] => Ok ""
  | x :: r =>
      let? sx := match x with
                 | VUndef | VNull => Ok ""
                 | _ => to_str x
                 end in
      match r with
      | [] => Ok sx
      | _ => let? sr := join_items sep r in Ok (sx ++ sep ++ sr)
      end
  end.

(** [v.join(sep)] *)
Definition join (v : Val) (sep : string) : Result string :=
  match v with
  | VArr l => join_items sep l
  | VUndef | VNull => Err (EngineError (NullishRead "join"))
  | _ => Err (EngineError (NotCallable "join"))
  end.

(** [v.toString()] *)
Definition toString (v : Val) : Result string :=
  match v with
  | VUndef | VNull => Err (EngineError (NullishRead "toString"))
  | VObj l => if has_key "toString" l then Err (EngineError (NotCallable "toString"))
              else Ok "[object Object]"
  | _ => to_str v
  end.

(** The receiver of an array method [m]. *)
Definition array_of (v : Val) (m : string) : Result (list Val) :=
  match v with
  | VArr l => Ok l
  | VUndef | VNull => Err (EngineError (NullishRead m))
  | _ => Err (EngineError (NotCallable m))
  end.

Fixpoint filterR (f : Val -> Result bool) (l : list Val) : Result (list Val) :=
  match l with
  | [] => Ok []
  | x :: r =>
      let? b := f x in
      let? r' := filterR f r in
      Ok (if b then x :: r' else r')
  end.

Fixpoint mapR {B} (f : Val -> Result B) (l : list Val) : Result (list B) :=
  match l with
  | [] => Ok []
  | x :: r =>
      let? y := f x in
      let? r' := mapR f r in
      Ok (y :: r')
  end.

(** [l.some(f)] stops at the first hit. *)
Fixpoint someR (f : Val -> Result bool) (l : list Val) : Result bool :=
  match l with
  | [] => Ok false
  | x :: r => let? b := f x in if b then Ok true else someR f r
  end.

(** [v.filter(f)], [v.map(f)] *)
Definition filter (v : Val) (f : Val -> Result bool) : Result Val :=
  let? l := array_of v "filter" in
  let? l' := filterR f l in Ok (VArr l').

Definition map_ {B} (v : Val) (f : Val -> Result B) : Result (list B) :=
  let? l := array_of v "map" in mapR f l.

(** [s.includes(t)] on strings *)
Fixpoint str_includes (s t : string) : bool :=
  (prefix t s ||
   match s with
   | EmptyString => false
   | String _ r => str_includes r t
   end)%bool.

(** [s.substring(0, n)] *)
Fixpoint substring_0 (n : nat) (s : string) : string :=
  match n, s with
  | S n, String c r => String c (substring_0 n r)
  | _, _ => EmptyString
  end.

(** The own enumerable properties [{...v}] copies. *)
Fixpoint indexed (i : nat) (l : list Val) : list (string * Val) :=
  match l with
  | [] => []
  | x :: r => (dec (Z.of_nat i), x) :: indexed (S i) r
  end.

Definition spread (v : Val) : list (string * Val) :=
  match v with
  | VObj l => l
  | VArr l => indexed 0 l
  | VStr s => indexed 0 (map (fun c => VStr (String c EmptyString))
                             (list_ascii_of_string s))
  | _ => []
  end.

(** [a === b].  Arrays and objects compare by identity; two values that
    reach the handler from different places are never the same object. *)
Definition strict_eq (a b : Val) : bool :=
  match a, b with
  | VUndef, VUndef => true
  | VNull, VNull => true
  | VBool x, VBool y => Bool.eqb x y
  | VNum x, VNum y => (x =? y)%Z
  | VStr x, VStr y => x =? y
  | _, _ => false
  end.

(** *** Numbers and dates *)
Section WithRuntime.
Variable R : Runtime.

(** ToNumber; [None] is NaN. *)
Definition to_number (v : Val) : Result (option Z) :=
  match v with
  | VUndef | VNaN => Ok None
  | VNull => Ok (Some 0%Z)
  | VBool b => Ok (Some (if b then 1 else 0)%Z)
  | VNum n => Ok (Some n)
  | VStr s => Ok (StringToNumber R s)
  | VArr _ | VObj _ => let? s := to_str v in Ok (StringToNumber R s)
  end.

(** [a * n] for a numeric literal [n] *)
Definition times (a : Val) (n : Z) : Result (option Z) :=
  let? x := to_number a in Ok (option_map (fun x => x * n)%Z x).

Definition of_number (n : option Z) : Val :=
  match n with Some n => VNum n | None => VNaN end.

(** A [Date] is its time value; [None] is the Invalid Date. *)
Definition TimeClip (t : option Z) : option Z :=
  match t with
  | Some n => if (Z.abs n <=? 8640000000000000)%Z then Some n else None
  | None => None
  end.

(** [new Date(v)] *)
Definition new_Date (v : Val) : Result (option Z) :=
  match v with
  | VStr s => Ok (TimeClip (Date_parse R s))
  | VArr _ | VObj _ => let? s := to_str v in Ok (TimeClip (Date_parse R s))
  | _ => let? n := to_number v in Ok (TimeClip n)
  end.

(** [d.toLocaleDateString()] and its siblings *)
Definition locale_date (d : option Z) : string :=
  match d with Some t => toLocaleDateString R t | None => "Invalid Date" end.
Definition locale_time (d : option Z) : string :=
  match d with Some t => toLocaleTimeString R t | None => "Invalid Date" end.
Definition locale_string (d : option Z) : string :=
  match d with Some t => toLocaleString R t | None => "Invalid Date" end.

(** [v.toLowerCase()] *)
Definition lower (v : Val) : Result string :=
  match v with
  | VStr s => Ok (toLowerCase R s)
  | VUndef | VNull => Err (EngineError (NullishRead "toLowerCase"))
  | _ => Err (EngineError (NotCallable "toLowerCase"))
  end.

End WithRuntime.

Fixpoint zeros (n : nat) : string :=
  match n with O => "" | S n => "0" ++ zeros n end.

(** decimal digits of a natural number, padded with zeros to [width] *)
Definition pad (width : nat) (n : Z) : string :=
  let d := dec n in zeros (width - String.length d) ++ d.

(** Civil date of a day number (days since 1970-01-01). *)
Definition civil (days : Z) : Z * Z * Z :=
  let z := (days + 719468)%Z in
  let era := (z / 146097)%Z in
  let doe := (z - era * 146097)%Z in
  let yoe := ((doe - doe / 1460 + doe / 36524 - doe / 146096) / 365)%Z in
  let doy := (doe - (365 * yoe + yoe / 4 - yoe / 100))%Z in
  let mp := ((5 * doy + 2) / 153)%Z in
  let d := (doy - (153 * mp + 2) / 5 + 1)%Z in
  let m := (if mp <? 10 then mp + 3 else mp - 9)%Z in
  let y := (yoe + era * 400 + (if m <=? 2 then 1 else 0))%Z in
  (y, m, d).

Definition iso_year (y : Z) : string :=
  if ((0 <=? y) && (y <=? 9999))%Z%bool then pad 4 y
  else if (y <? 0)%Z then "-" ++ pad 6 (- y)
  else "+" ++ pad 6 y.

Definition iso_of_time (t : Z) : string :=
  let '(y, m, d) := civil (t / 86400000) in
  let ms := (t mod 86400000)%Z in
  iso_year y ++ "-" ++ pad 2 m ++ "-" ++ pad 2 d ++ "T" ++
  pad 2 (ms / 3600000) ++ ":" ++ pad 2 (ms / 60000 mod 60) ++ ":" ++
  pad 2 (ms / 1000 mod 60) ++ "." ++ pad 3 (ms mod 1000) ++ "Z".

(** [d.toISOString()] *)
Definition toISOString (d : option Z) : Result string :=
  match d with
  | Some t => Ok (iso_of_time t)
  | None => Err (EngineError InvalidTime)
  end.

(** [s.split('T')[0]] *)
Fixpoint split_T_0 (s : string) : string :=
  match s with
  | EmptyString => EmptyString
  | String c r => if (c =? "T")%char then EmptyString else String c (split_T_0 r)
  end.

(** [new Date(t).toISOString().split('T')[0]] for a time value [t] *)
Definition iso_day (d : option Z) : Result string :=
  let? s := toISOString d in Ok (split_T_0 s).

(** *** Percent encoding *)

Definition hex_upper (n : N) : ascii :=
  if (n <? 10)%N then ascii_of_N (48 + n) else ascii_of_N (55 + n).

Definition hex_lower (n : N) : ascii :=
  if (n <? 10)%N then ascii_of_N (48 + n) else ascii_of_N (87 + n).

Definition percent (b : N) : string :=
  String "%" (String (hex_upper (b / 16)) (String (hex_upper (b mod 16)) "")).

(** UTF-8 bytes of a code unit below 256 *)
Definition utf8 (n : N) : list N :=
  if (n <? 128)%N then [n] else [192 + n / 64; 128 + n mod 64]%N.

Definition alnum (n : N) : bool :=
  ((48 <=? n) && (n <=? 57) || (65 <=? n) && (n <=? 90) ||
   (97 <=? n) && (n <=? 122))%N%bool.

Definition member (n : N) (s : string) : bool :=
  existsb (fun c => (N_of_ascii c =? n)%N) (list_ascii_of_string s).

Fixpoint encode (keep : N -> bool) (plus : bool) (s : string) : string :=
  match s with
  | EmptyString => EmptyString
  | String c r =>
      let n := N_of_ascii c in
      (if keep n then String c EmptyString
       else if (plus && (n =? 32)%N)%bool then "+"
       else concat "" (map percent (utf8 n))) ++ encode keep plus r
  end.

Definition encodeURIComponent : string -> string :=
  encode (fun n => alnum n || member n "-_.!~*'()")%bool false.

(** serializer of [application/x-www-form-urlencoded] *)
Definition form_encode : string -> string :=
  encode (fun n => alnum n || member n "*-._")%bool true.

(** *** URLSearchParams: the list of its name/value pairs *)
Definition Params : Type := list (string * string).

(** [params.append(name, value)] *)
Definition append (p : Params) (name : string) (value : Val) : Result Params :=
  let? s := to_str value in Ok (p ++ [(name, s)])%list.

(** [new URLSearchParams({k1: v1, ...})] *)
Fixpoint params_of (l : list (string * Val)) : Result Params :=
  match l with
  | [] => Ok []
  | (k, v) :: r =>
      let? s := to_str v in
      let? p := params_of r in Ok ((k, s) :: p)
  end.

(** [params.toString()] *)
Definition params_str (p : Params) : string :=
  concat "&" (map (fun kv => form_encode (fst kv) ++ "=" ++ form_encode (snd kv)) p).

(** *** JSON.stringify *)

Definition dq : string := String (ascii_of_N 34) EmptyString.
Definition nl : string := String (ascii_of_N 10) EmptyString.

Definition escape (c : ascii) : string :=
  let n := N_of_ascii c in
  if (n =? 34)%N then "\" ++ dq
  else if (n =? 92)%N then "\\"
  else if (n =? 8)%N then "\b"
  else if (n =? 12)%N then "\f"
  else if (n =? 10)%N then "\n"
  else if (n =? 13)%N then "\r"
  else if (n =? 9)%N then "\t"
  else if (n <? 32)%N then
    "\u00" ++ String (hex_lower (n / 16)) (String (hex_lower (n mod 16)) "")
  else String c EmptyString.

Definition quote (s : string) : string :=
  dq ++ concat "" (map escape (list_ascii_of_string s)) ++ dq.

(** [JSON.stringify(v)]; [None] is undefined.  A property whose value is
    undefined is left out, an undefined array item prints as null. *)
Fixpoint stringify (v : Val) : option string :=
  match v with
  | VUndef => None
  | VNull | VNaN => Some "null"
  | VBool true => Some "true"
  | VBool false => Some "false"
  | VNum n => Some (dec n)
  | VStr s => Some (quote s)
  | VArr l =>
      Some ("[" ++ concat "," (map (fun x => match stringify x with
                                             | Some s => s
                                             | None => "null"
                                             end) l) ++ "]")
  | VObj l =>
      Some ("{" ++ concat ","
              (flat_map (fun kv => match stringify (snd kv) with
                                   | Some s => [quote (fst kv) ++ ":" ++ s]
                                   | None => []
                                   end) l) ++ "}")
  end.

(** SameValueZero, the equality of [Array.prototype.includes] *)
Definition same_value_zero (a b : Val) : bool :=
  match a, b with
  | VNaN, VNaN => true
  | _, _ => strict_eq a b
  end.

(** [v.includes(x)] *)
Definition includes (v x : Val) : Result bool :=
  match v with
  | VArr l => Ok (existsb (same_value_zero x) l)
  | VStr s => let? t := to_str x in Ok (str_includes s t)
  | VUndef | VNull => Err (EngineError (NullishRead "includes"))
  | _ => Err (EngineError (NotCallable "includes"))
  end.

(** [v.push(x)]: the array with [x] at its end *)
Definition push (v x : Val) : Result Val :=
  match v with
  | VArr l => Ok (VArr (l ++ [x])%list)
  | VUndef | VNull => Err (EngineError (NullishRead "push"))
  | _ => Err (EngineError (NotCallable "push"))
  end.

(** [v.substring(0, n)] *)
Definition substring (v : Val) (n : nat) : Result string :=
  match v with
  | VStr s => Ok (substring_0 n s)
  | VUndef | VNull => Err (EngineError (NullishRead "substring"))
  | _ => Err (EngineError (NotCallable "substring"))
  end.

(** [a < b] and [a > b] on two dates *)
Definition date_lt (a b : option Z) : bool :=
  match a, b with
  | Some x, Some y => (x <? y)%Z
  | _, _ => false
  end.

End Js.

(** ** Effects of a tool call *)

(** What [fetch(url, config)] is given. *)
Record Request : Type := {
  url : string;
  method : string;
  headers : list (string * string);
  body : option string
}.

(** What [fetch] answers: the promise rejects (no connection), or resolves
    to a response.  [json] is [JSON.parse] of the body [text], [None] when
    the body is no JSON; the parser is not transcribed. *)
Record HttpResponse : Type := {
  status : Z;
  statusText : string;
  text : string;
  json : option Val
}.

Inductive Outcome : Type :=
| Rejected (reason : string)
| Responded (r : HttpResponse).

(** [response.ok] *)
Definition ok (r : HttpResponse) : bool :=
  ((200 <=? status r) && (status r <=? 299))%Z.

(** A tool call reads the clock ([new Date()], [Date.now()]), awaits
    [fetch], and fills a text template.  The templates of the first tools
    (projects, tasks, search, tags of a task) are transcribed; the others
    are the effect [Render], named by their tool and given the values they
    read. *)
Inductive Prog (A : Type) : Type :=
| Ret (a : A)
| Throw (e : JsErr)
| Now (k : Z -> Prog A)
| Fetch (q : Request) (k : Outcome -> Prog A)
| Render (tool : string) (inputs : list Val) (k : Result string -> Prog A).
Arguments Ret {A} a.
Arguments Throw {A} e.
Arguments Now {A} k.
Arguments Fetch {A} q k.
Arguments Render {A} tool inputs k.

Definition lift {A} (r : Result A) : Prog A :=
  match r with
  | Ok a => Ret a
  | Err e => Throw e
  end.

Fixpoint bind {A B} (p : Prog A) (f : A -> Prog B) : Prog B :=
  match p with
  | Ret a => f a
  | Throw e => Throw e
  | Now k => Now (fun t => bind (k t) f)
  | Fetch q k => Fetch q (fun o => bind (k o) f)
  | Render t i k => Render t i (fun s => bind (k s) f)
  end.

(** [try { p } catch (e) { h e }] *)
Fixpoint catch {A} (p : Prog A) (h : JsErr -> Prog A) : Prog A :=
  match p with
  | Ret a => Ret a
  | Throw e => h e
  | Now k => Now (fun t => catch (k t) h)
  | Fetch q k => Fetch q (fun o => catch (k o) h)
  | Render t i k => Render t i (fun s => catch (k s) h)
  end.

Definition now : Prog Z := Now Ret.

Fixpoint mapP {B} (f : Val -> Prog B) (l : list Val) : Prog (list B) :=
  match l with
  | [] => Ret []
  | x :: r =>
      bind (f x) (fun y => bind (mapP f r) (fun r' => Ret (y :: r')))
  end.

(** A template may throw, as any code inside the [try] of its method. *)
Definition render (tool : string) (inputs : list Val) : Prog string :=
  Render tool inputs lift.

Notation "x <- p ;; k" := (bind p (fun x => k))
  (at level 61, p at next level, right associativity).
Notation "x <~ r ;; k" := (bind (lift r) (fun x => k))
  (at level 61, r at next level, right associativity).

(** *** The world a call runs in

    Events (clock readings, requests, renderings) are counted; the world
    answers the i-th event.  Nothing else enters a call: the server object
    holds the SDK server only, and no method assigns a field. *)
Record World : Type := {
  clock : nat -> Z;
  upstream : nat -> Request -> Outcome;
  template : nat -> string -> list Val -> Result string
}.

Definition Exchange : Type := Request * Outcome.

Fixpoint run {A} (w : World) (p : Prog A) (i : nat)
  : Result A * list Exchange * nat :=
  match p with
  | Ret a => (Ok a, [], i)
  | Throw e => (Err e, [], i)
  | Now k => run w (k (clock w i)) (S i)
  | Fetch q k =>
      let o := upstream w i q in
      let '(r, l, j) := run w (k o) (S i) in (r, (q, o) :: l, j)
  | Render t ins k => run w (k (template w i t ins)) (S i)
  end.

Definition result_of {A} (x : Result A * list Exchange * nat) : Result A :=
  fst (fst x).
Definition exchanges {A} (x : Result A * list Exchange * nat) : list Exchange :=
  snd (fst x).
Definition requests {A} (x : Result A * list Exchange * nat) : list Request :=
  map fst (exchanges x).

(** ** The server *)

(** The two token variables of the environment the handler reads;
    [None] is an unset variable. *)
Record Config : Type := {
  TICKTICK_ACCESS_TOKEN : option string;
  TICKTICK_TOKEN : option string
}.

Module Server.
Import Js.

Section Handler.
Variable R : Runtime.
Variable cfg : Config.

Definition env (v : option string) : Val :=
  match v with Some s => VStr s | None => VUndef end.

(** [error.message].  [McpError] of the SDK builds its message from the
    code and the text it is given. *)
Definition message (e : JsErr) : string :=
  match e with
  | UserError m => m
  | McpError c m => "MCP error " ++ dec (code_number c) ++ ": " ++ m
  | EngineError f => engine_message R f
  | FetchError m => m
  end.

(** [try { body } catch (error) { throw new Error(`label: ${error.message}`) }] *)
Definition try_ {A} (label : string) (body : Prog A) : Prog A :=
  catch body (fun e => Throw (UserError (label ++ ": " ++ message e))).

Definition baseUrl : string := "https://api.ticktick.com/open/v1".

(** [`Bearer ${TICKTICK_ACCESS_TOKEN || TICKTICK_TOKEN}`] *)
Definition bearer : string :=
  "Bearer " ++
  match or_ (env (TICKTICK_ACCESS_TOKEN cfg)) (env (TICKTICK_TOKEN cfg)) with
  | VStr s => s
  | _ => "undefined"
  end.

Definition request_for (endpoint meth : string) (data : Val) : Request :=
  {| url := baseUrl ++ endpoint;
     method := meth;
     headers := [("Authorization", bearer); ("Content-Type", "application/json")];
     body := if (truthy data && negb (meth =? "GET"))%bool then stringify data
             else None |}.

Definition api_error (r : HttpResponse) : string :=
  "TickTick API error: " ++ dec (status r) ++ " " ++ statusText r ++ " - " ++ text r.

(** What [makeTickTickRequest] does with the answer of [fetch]. *)
Definition receive (o : Outcome) : Prog Val :=
  match o with
  | Rejected m => Throw (FetchError m)
  | Responded r =>
      if ok r then
        match json r with
        | Some v => Ret v
        | None => Throw (EngineError JsonSyntax)
        end
      else Throw (UserError (api_error r))
  end.

(** [makeTickTickRequest(endpoint, method = 'GET', data = null)].  The
    calls to [console.log] are left out. *)
Definition makeTickTickRequest (endpoint meth : string) (data : Val) : Prog Val :=
  Fetch (request_for endpoint meth data) receive.

Definition GET (endpoint : string) : Prog Val :=
  makeTickTickRequest endpoint "GET" VNull.

(** *** Pieces of the text templates *)

(** [${v.k}] *)
Definition show (v : Val) (k : string) : Result string :=
  let? x := get v k in to_str x.

(** [${v.k || d}] *)
Definition show_or (v : Val) (k : string) (d : Val) : Result string :=
  let? x := get v k in to_str (or_ x d).

(** [getPriorityText(priority)] *)
Definition getPriorityText (priority : Val) : Result string :=
  if strict_eq priority (VNum 0) then Ok " None"
  else if strict_eq priority (VNum 1) then Ok " Low"
  else if strict_eq priority (VNum 3) then Ok " Medium"
  else if strict_eq priority (VNum 5) then Ok " High"
  else let? s := to_str priority in Ok ("Unknown (" ++ s ++ ")").

Definition priority_text (task : Val) : Result string :=
  let? p := get task "priority" in getPriorityText p.

(** [${task.status === 2 ? ' Completed' : ' Pending'}] *)
Definition status_text (task : Val) : Result string :=
  let? st := get task "status" in
  Ok (if strict_eq st (VNum 2) then " Completed" else " Pending").

(** [${new Date(v.k).toLocaleDateString()}] *)
Definition show_date (v : Val) (k : string) : Result string :=
  let? x := get v k in
  let? d := new_Date R x in Ok (locale_date R d).

(** [${v.k ? new Date(v.k).toLocaleDateString() : d}] *)
Definition show_date_or (v : Val) (k : string) (d : string) : Result string :=
  let? x := get v k in
  if truthy x then show_date v k else Ok d.

(** [${task.dueDate ? `label${new Date(task.dueDate).toLocale...()}\n` : ''}] *)
Definition due_line (fmt : option Z -> string) (label : string) (task : Val)
  : Result string :=
  let? due := get task "dueDate" in
  if truthy due then
    let? due' := get task "dueDate" in
    let? d := new_Date R due' in Ok (label ++ fmt d ++ nl)
  else Ok "".

(** [task.tags && task.tags.length] *)
Definition has_tags (task : Val) : Result bool :=
  let? tags := get task "tags" in
  if truthy tags then
    let? tags' := get task "tags" in
    let? n := get tags' "length" in Ok (truthy n)
  else Ok false.

(** [${task.tags && task.tags.length ? `label${task.tags.join(', ')}\n` : ''}] *)
Definition tags_line (label : string) (task : Val) : Result string :=
  let? b := has_tags task in
  if b then
    let? tags := get task "tags" in
    let? j := join tags ", " in Ok (label ++ j ++ nl)
  else Ok "".

(** *** Projects and tasks *)

(** [async getProjects({ include_archived = false })] *)
Definition getProjects (args : Val) : Prog string :=
  _ <~ destructure args ;;
  let include_archived := dflt (field args "include_archived") (VBool false) in
  try_ "Failed to get projects" (
    projects <- GET "/project" ;;
    lift (
      let? filteredProjects :=
        if truthy include_archived then Ok projects
        else filter projects (fun p =>
               let? closed := get p "closed" in Ok (negb (truthy closed))) in
      let? n := show filteredProjects "length" in
      let? items := map_ filteredProjects (fun project =>
        let? name := show project "name" in
        let? id := show project "id" in
        let? color := show project "color" in
        let? isOwner := get project "isOwner" in
        let? taskCount := show_or project "taskCount" (VNum 0) in
        let? modified := show_date_or project "modifiedTime" "Unknown" in
        Ok ("**" ++ name ++ "** (ID: " ++ id ++ ")" ++ nl ++
            "- Color: " ++ color ++ nl ++
            "- Shared: " ++ (if truthy isOwner then "Owner" else "Member") ++ nl ++
            "- Task Count: " ++ taskCount ++ nl ++
            "- Modified: " ++ modified ++ nl)) in
      Ok (" **TickTick Projects** (" ++ n ++ " found):" ++ nl ++ nl ++
          concat nl items))).

(** [async createProject({ name, color = '#3498db', is_shared = false })] *)
Definition createProject (args : Val) : Prog string :=
  _ <~ destructure args ;;
  let name := field args "name" in
  let color := dflt (field args "color") (VStr "#3498db") in
  let is_shared := dflt (field args "is_shared") (VBool false) in
  try_ "Failed to create project" (
    let projectData := VObj [
      ("name", name);
      ("color", color);
      ("isOwner", VBool true);
      ("permission", VStr (if truthy is_shared then "members" else "owner"))] in
    project <- makeTickTickRequest "/project" "POST" projectData ;;
    lift (
      let? pname := show project "name" in
      let? id := show project "id" in
      let? pcolor := show project "color" in
      let? created := show_date project "modifiedTime" in
      Ok (" **Created TickTick Project**" ++ nl ++ nl ++
          " **Name**: " ++ pname ++ nl ++
          " **ID**: " ++ id ++ nl ++
          " **Color**: " ++ pcolor ++ nl ++
          " **Created**: " ++ created ++ nl ++
          " **Shared**: " ++ (if truthy is_shared then "Yes" else "No")))).

(** The query of [getTasks]: [project_id] when it is truthy, [status]
    when [completed] is given, [limit] always. *)
Definition getTasks_params (project_id completed limit : Val) : Result Params :=
  let? p1 := if truthy project_id then append [] "projectId" project_id
             else Ok [] in
  let? p2 := if negb (is_undefined completed)
             then append p1 "status" (VNum (if truthy completed then 2 else 0))
             else Ok p1 in
  append p2 "limit" limit.

Definition getTasks_endpoint (project_id completed limit : Val) : Result string :=
  let? params := getTasks_params project_id completed limit in
  Ok (if negb (params_str params =? "") then "/task" ++ "?" ++ params_str params
      else "/task").

(** The text of one task in [getTasks]. *)
Definition getTasks_item (task : Val) : Result string :=
  let? title := show task "title" in
  let? id := show task "id" in
  let? st := status_text task in
  let? prio := priority_text task in
  let? project := show task "projectId" in
  let? due := due_line (locale_date R) "- Due: " task in
  let? tags := tags_line "- Tags: " task in
  let? modified := show_date task "modifiedTime" in
  Ok ("**" ++ title ++ "** (ID: " ++ id ++ ")" ++ nl ++
      "- Status: " ++ st ++ nl ++
      "- Priority: " ++ prio ++ nl ++
      "- Project: " ++ project ++ nl ++
      due ++ tags ++
      "- Modified: " ++ modified ++ nl).

(** [async getTasks({ project_id, completed, limit = 50 })] *)
Definition getTasks (args : Val) : Prog string :=
  _ <~ destructure args ;;
  let project_id := field args "project_id" in
  let completed := field args "completed" in
  let limit := dflt (field args "limit") (VNum 50) in
  try_ "Failed to get tasks" (
    endpoint <~ getTasks_endpoint project_id completed limit ;;
    tasks <- GET endpoint ;;
    lift (
      let? n := show tasks "length" in
      let? items := map_ tasks getTasks_item in
      Ok (" **TickTick Tasks** (" ++ n ++ " found):" ++ nl ++ nl ++
          concat nl items))).

(** The body of [createTask]. *)
Definition createTask_data (title content project_id priority due_date tags : Val)
  : Result Val :=
  let d0 := [("title", title);
             ("content", or_ content (VStr ""));
             ("priority", priority);
             ("status", VNum 0)] in
  let d1 := if truthy project_id then set_prop "projectId" project_id d0 else d0 in
  let? d2 := if truthy due_date then
               let? d := new_Date R due_date in
               let? iso := toISOString d in
               Ok (set_prop "dueDate" (VStr iso) d1)
             else Ok d1 in
  let? has := if truthy tags then let? n := get tags "length" in Ok (truthy n)
              else Ok false in
  Ok (VObj (if has then set_prop "tags" tags d2 else d2)).

(** [async createTask({ title, content, project_id, priority = 0, due_date, tags })] *)
Definition createTask (args : Val) : Prog string :=
  _ <~ destructure args ;;
  let title := field args "title" in
  let content := field args "content" in
  let project_id := field args "project_id" in
  let priority := dflt (field args "priority") (VNum 0) in
  let due_date := field args "due_date" in
  let tags := field args "tags" in
  try_ "Failed to create task" (
    taskData <~ createTask_data title content project_id priority due_date tags ;;
    task <- makeTickTickRequest "/task" "POST" taskData ;;
    lift (
      let? ttitle := show task "title" in
      let? id := show task "id" in
      let? project := show_or task "projectId" (VStr "Inbox") in
      let? prio := priority_text task in
      let? due := due_line (locale_date R) " **Due**: " task in
      let? ttags := tags_line " **Tags**: " task in
      let? created := show_date task "createdTime" in
      Ok (" **Created TickTick Task**" ++ nl ++ nl ++
          " **Title**: " ++ ttitle ++ nl ++
          " **ID**: " ++ id ++ nl ++
          " **Project**: " ++ project ++ nl ++
          " **Priority**: " ++ prio ++ nl ++
          due ++ ttags ++
          " **Created**: " ++ created))).

(** The body of [updateTask]: the fields that are not undefined. *)
Definition updateTask_data (title content priority due_date completed : Val)
  : Result Val :=
  let d0 := [] in
  let d1 := if negb (is_undefined title) then set_prop "title" title d0 else d0 in
  let d2 := if negb (is_undefined content) then set_prop "content" content d1 else d1 in
  let d3 := if negb (is_undefined priority) then set_prop "priority" priority d2 else d2 in
  let? d4 := if negb (is_undefined due_date) then
               let? d := new_Date R due_date in
               let? iso := toISOString d in
               Ok (set_prop "dueDate" (VStr iso) d3)
             else Ok d3 in
  Ok (VObj (if negb (is_undefined completed)
            then set_prop "status" (VNum (if truthy completed then 2 else 0)) d4
            else d4)).

(** The text of [updateTask]. *)
Definition updateTask_text (task : Val) : Result string :=
  let? ttitle := show task "title" in
  let? tid := show task "id" in
  let? st := status_text task in
  let? prio := priority_text task in
  let? updated := show_date task "modifiedTime" in
  Ok (" **Updated TickTick Task**" ++ nl ++ nl ++
      " **Title**: " ++ ttitle ++ nl ++
      " **ID**: " ++ tid ++ nl ++
      " **Status**: " ++ st ++ nl ++
      " **Priority**: " ++ prio ++ nl ++
      " **Updated**: " ++ updated).

(** [async updateTask({ task_id, title, content, priority, due_date, completed })] *)
Definition updateTask (args : Val) : Prog string :=
  _ <~ destructure args ;;
  let task_id := field args "task_id" in
  let title := field args "title" in
  let content := field args "content" in
  let priority := field args "priority" in
  let due_date := field args "due_date" in
  let completed := field args "completed" in
  try_ "Failed to update task" (
    updateData <~ updateTask_data title content priority due_date completed ;;
    id <~ to_str task_id ;;
    task <- makeTickTickRequest ("/task/" ++ id) "POST" updateData ;;
    lift (updateTask_text task)).

(** [async deleteTask({ task_id })] *)
Definition deleteTask (args : Val) : Prog string :=
  _ <~ destructure args ;;
  let task_id := field args "task_id" in
  try_ "Failed to delete task" (
    id <~ to_str task_id ;;
    _ <- makeTickTickRequest ("/task/" ++ id) "DELETE" VNull ;;
    id' <~ to_str task_id ;;
    Ret (" **Deleted TickTick Task**" ++ nl ++ nl ++
         "Task ID: " ++ id' ++ " has been permanently deleted.")).

(** [async completeTask({ task_id })] *)
Definition completeTask (args : Val) : Prog string :=
  _ <~ destructure args ;;
  let task_id := field args "task_id" in
  try_ "Failed to complete task" (
    id <~ to_str task_id ;;
    task <- makeTickTickRequest ("/task/" ++ id) "POST" (VObj [("status", VNum 2)]) ;;
    title <~ show task "title" ;;
    tid <~ show task "id" ;;
    t <- now ;;
    Ret (" **Completed TickTick Task**" ++ nl ++ nl ++
         " **Title**: " ++ title ++ nl ++
         " **ID**: " ++ tid ++ nl ++
         " **Status**: Completed" ++ nl ++
         " **Completed**: " ++ toLocaleDateString R t)).

(** The text of [getTaskDetails]. *)
Definition getTaskDetails_text (task : Val) : Result string :=
  let? title := show task "title" in
  let? tid := show task "id" in
  let? project := show_or task "projectId" (VStr "Inbox") in
  let? st := status_text task in
  let? prio := priority_text task in
  let? content := get task "content" in
  let? description :=
    if truthy content then
      let? c := show task "content" in Ok (" **Description**: " ++ c ++ nl)
    else Ok "" in
  let? due := due_line (locale_date R) " **Due Date**: " task in
  let? tags := tags_line " **Tags**: " task in
  let? created := show_date task "createdTime" in
  let? modified := show_date task "modifiedTime" in
  Ok (" **TickTick Task Details**" ++ nl ++ nl ++
      "**" ++ title ++ "**" ++ nl ++ nl ++
      " **ID**: " ++ tid ++ nl ++
      " **Project**: " ++ project ++ nl ++
      " **Status**: " ++ st ++ nl ++
      " **Priority**: " ++ prio ++ nl ++
      description ++ due ++ tags ++
      " **Created**: " ++ created ++ nl ++
      " **Modified**: " ++ modified).

(** [async getTaskDetails({ task_id })] *)
Definition getTaskDetails (args : Val) : Prog string :=
  _ <~ destructure args ;;
  let task_id := field args "task_id" in
  try_ "Failed to get task details" (
    id <~ to_str task_id ;;
    task <- GET ("/task/" ++ id) ;;
    lift (getTaskDetails_text task)).

(** The text of one task in [filterTasks]. *)
Definition filterTasks_item (task : Val) : Result string :=
  let? title := show task "title" in
  let? id := show task "id" in
  let? st := status_text task in
  let? prio := priority_text task in
  let? due := due_line (locale_date R) "- Due: " task in
  Ok ("**" ++ title ++ "** (ID: " ++ id ++ ")" ++ nl ++
      "- Status: " ++ st ++ nl ++
      "- Priority: " ++ prio ++ nl ++
      due).

(** [async filterTasks({ keywords, tags, priority, due_before, due_after })] *)
Definition filterTasks (args : Val) : Prog string :=
  _ <~ destructure args ;;
  let keywords := field args "keywords" in
  let tags := field args "tags" in
  let priority := field args "priority" in
  let due_before := field args "due_before" in
  let due_after := field args "due_after" in
  try_ "Failed to filter tasks" (
    allTasks <- GET "/task" ;;
    lift (
      let? f1 :=
        if truthy keywords then
          let? keywordLower := lower R keywords in
          filter allTasks (fun task =>
            let? title := get task "title" in
            let? tl := lower R title in
            if str_includes tl keywordLower then Ok true
            else
              let? content := get task "content" in
              if truthy content then
                let? content' := get task "content" in
                let? cl := lower R content' in
                Ok (str_includes cl keywordLower)
              else Ok false)
        else Ok allTasks in
      let? has := if truthy tags then let? n := get tags "length" in Ok (truthy n)
                  else Ok false in
      let? f2 :=
        if has then
          filter f1 (fun task =>
            let? ttags := get task "tags" in
            if truthy ttags then
              let? l := array_of tags "some" in
              someR (fun tag => let? ttags' := get task "tags" in
                                includes ttags' tag) l
            else Ok false)
        else Ok f1 in
      let? f3 :=
        if negb (is_undefined priority) then
          filter f2 (fun task =>
            let? p := get task "priority" in Ok (strict_eq p priority))
        else Ok f2 in
      let? f4 :=
        if truthy due_before then
          let? beforeDate := new_Date R due_before in
          filter f3 (fun task =>
            let? due := get task "dueDate" in
            if truthy due then
              let? due' := get task "dueDate" in
              let? d := new_Date R due' in Ok (date_lt d beforeDate)
            else Ok false)
        else Ok f3 in
      let? filteredTasks :=
        if truthy due_after then
          let? afterDate := new_Date R due_after in
          filter f4 (fun task =>
            let? due := get task "dueDate" in
            if truthy due then
              let? due' := get task "dueDate" in
              let? d := new_Date R due' in Ok (date_lt afterDate d)
            else Ok false)
        else Ok f4 in
      let? n := show filteredTasks "length" in
      let? items := map_ filteredTasks filterTasks_item in
      Ok (" **Filtered TickTick Tasks** (" ++ n ++ " found):" ++ nl ++ nl ++
          concat nl items))).

(** [async convertDatetimeToTicktickFormat({ datetime_string, timezone = 'UTC' })] *)
Definition convertDatetimeToTicktickFormat (args : Val) : Prog string :=
  _ <~ destructure args ;;
  let datetime_string := field args "datetime_string" in
  let timezone := dflt (field args "timezone") (VStr "UTC") in
  try_ "Failed to convert datetime" (
    lift (
      let? date := new_Date R datetime_string in
      let? isoString := toISOString date in
      let? input := to_str datetime_string in
      let? tz := to_str timezone in
      let? stamp := to_str (of_number date) in
      Ok (" **DateTime Conversion**" ++ nl ++ nl ++
          "**Input**: " ++ input ++ nl ++
          "**Timezone**: " ++ tz ++ nl ++
          "**TickTick Format**: " ++ isoString ++ nl ++
          "**Timestamp**: " ++ stamp ++ nl ++ nl ++
          "Use this ISO format for TickTick API calls."))).

(** [async getTags()] *)
Definition getTags (args : Val) : Prog string :=
  try_ "Failed to get tags" (
    tags <- GET "/tag" ;;
    lift (
      let? n := show tags "length" in
      let? items := map_ tags (fun tag =>
        let? name := show tag "name" in
        let? id := show tag "id" in
        let? color := show_or tag "color" (VStr "Default") in
        let? usage := show_or tag "usageCount" (VNum 0) in
        Ok ("**" ++ name ++ "** (ID: " ++ id ++ ")" ++ nl ++
            "- Color: " ++ color ++ nl ++
            "- Usage Count: " ++ usage ++ nl)) in
      Ok (" **TickTick Tags** (" ++ n ++ " found):" ++ nl ++ nl ++
          concat nl items))).

(** [async createTag({ name, color = '#3498db' })] *)
Definition createTag (args : Val) : Prog string :=
  _ <~ destructure args ;;
  let name := field args "name" in
  let color := dflt (field args "color") (VStr "#3498db") in
  try_ "Failed to create tag" (
    let tagData := VObj [("name", name); ("color", color)] in
    tag <- makeTickTickRequest "/tag" "POST" tagData ;;
    tname <~ show tag "name" ;;
    id <~ show tag "id" ;;
    tcolor <~ show tag "color" ;;
    t <- now ;;
    Ret (" **Created TickTick Tag**" ++ nl ++ nl ++
         " **Name**: " ++ tname ++ nl ++
         " **ID**: " ++ id ++ nl ++
         " **Color**: " ++ tcolor ++ nl ++
         " **Created**: " ++ toLocaleDateString R t)).

(** The text of one task in [searchTasks]. *)
Definition searchTasks_item (task : Val) : Result string :=
  let? title := show task "title" in
  let? id := show task "id" in
  let? st := status_text task in
  let? prio := priority_text task in
  let? project := show task "projectId" in
  let? content := get task "content" in
  let? cline :=
    if truthy content then
      let? content' := get task "content" in
      let? c := substring content' 100 in
      Ok ("- Content: " ++ c ++ "..." ++ nl)
    else Ok "" in
  let? due := due_line (locale_date R) "- Due: " task in
  Ok ("**" ++ title ++ "** (ID: " ++ id ++ ")" ++ nl ++
      "- Status: " ++ st ++ nl ++
      "- Priority: " ++ prio ++ nl ++
      "- Project: " ++ project ++ nl ++
      cline ++ due).

(** [async searchTasks({ query, limit = 20 })] *)
Definition searchTasks (args : Val) : Prog string :=
  _ <~ destructure args ;;
  let query := field args "query" in
  let limit := dflt (field args "limit") (VNum 20) in
  try_ "Failed to search tasks" (
    q <~ to_str query ;;
    lim <~ to_str limit ;;
    let endpoint := "/search?q=" ++ encodeURIComponent q ++ "&limit=" ++ lim in
    results <- GET endpoint ;;
    lift (
      let? rtasks := get results "tasks" in
      let tasks := or_ (or_ rtasks results) (VArr []) in
      let? qs := to_str query in
      let? n := show tasks "length" in
      let? items := map_ tasks searchTasks_item in
      Ok (" **Search Results for " ++ dq ++ qs ++ dq ++ "** (" ++ n ++ " found):" ++
          nl ++ nl ++ concat nl items))).

Definition day_ms : Z := (24 * 60 * 60 * 1000)%Z.

(** The text of one task in [getTodayTasks]. *)
Definition getTodayTasks_item (task : Val) : Result string :=
  let? title := show task "title" in
  let? id := show task "id" in
  let? st := status_text task in
  let? prio := priority_text task in
  let? due := due_line (locale_time R) "- Due: " task in
  let? tags := tags_line "- Tags: " task in
  Ok ("**" ++ title ++ "** (ID: " ++ id ++ ")" ++ nl ++
      "- Status: " ++ st ++ nl ++
      "- Priority: " ++ prio ++ nl ++
      due ++ tags).

(** [async getTodayTasks({ include_overdue = true })] *)
Definition getTodayTasks (args : Val) : Prog string :=
  _ <~ destructure args ;;
  let include_overdue := dflt (field args "include_overdue") (VBool true) in
  try_ "Failed to get today's tasks" (
    today <- now ;;
    todayStr <~ iso_day (Some today) ;;
    endpoint <~ (if truthy include_overdue then
                   let yesterday := TimeClip (Some (today - day_ms)%Z) in
                   let? yesterdayStr := iso_day yesterday in
                   Ok ("/task?dueBefore=" ++ todayStr ++ "&dueAfter=" ++ yesterdayStr)
                 else Ok ("/task?dueDate=" ++ todayStr)) ;;
    tasks <- GET endpoint ;;
    lift (
      let? n := show tasks "length" in
      let? items := map_ tasks getTodayTasks_item in
      Ok (" **Today's Tasks** (" ++ n ++ " found):" ++ nl ++ nl ++
          concat nl items))).

(** [async getOverdueTasks({ limit = 50 })] *)
Definition getOverdueTasks (args : Val) : Prog string :=
  _ <~ destructure args ;;
  let limit := dflt (field args "limit") (VNum 50) in
  try_ "Failed to get overdue tasks" (
    t <- now ;;
    today <~ iso_day (Some t) ;;
    lim <~ to_str limit ;;
    let endpoint := "/task?dueBefore=" ++ today ++ "&status=0&limit=" ++ lim in
    tasks <- GET endpoint ;;
    n <~ show tasks "length" ;;
    l <~ array_of tasks "map" ;;
    items <- mapP (fun task =>
      due <~ get task "dueDate" ;;
      dueDate <~ new_Date R due ;;
      t' <- now ;;
      let daysOverdue :=
        of_number (option_map (fun d => (t' - d) / day_ms)%Z dueDate) in
      lift (
        let? title := show task "title" in
        let? id := show task "id" in
        let? prio := priority_text task in
        let? days := to_str daysOverdue in
        let? project := show task "projectId" in
        let? tags := tags_line "- Tags: " task in
        Ok ("**" ++ title ++ "** (ID: " ++ id ++ ")" ++ nl ++
            "- Priority: " ++ prio ++ nl ++
            "- Due: " ++ locale_date R dueDate ++ " (" ++ days ++ " days ago)" ++ nl ++
            "- Project: " ++ project ++ nl ++
            tags))) l ;;
    Ret (" **Overdue Tasks** (" ++ n ++ " found):" ++ nl ++ nl ++ concat nl items)).

(** The text of one task in [getUpcomingTasks]. *)
Definition getUpcomingTasks_item (task : Val) : Result string :=
  let? title := show task "title" in
  let? id := show task "id" in
  let? st := status_text task in
  let? prio := priority_text task in
  let? due := show_date task "dueDate" in
  let? project := show task "projectId" in
  let? tags := tags_line "- Tags: " task in
  Ok ("**" ++ title ++ "** (ID: " ++ id ++ ")" ++ nl ++
      "- Status: " ++ st ++ nl ++
      "- Priority: " ++ prio ++ nl ++
      "- Due: " ++ due ++ nl ++
      "- Project: " ++ project ++ nl ++
      tags).

(** [async getUpcomingTasks({ days_ahead = 7, limit = 30 })] *)
Definition getUpcomingTasks (args : Val) : Prog string :=
  _ <~ destructure args ;;
  let days_ahead := dflt (field args "days_ahead") (VNum 7) in
  let limit := dflt (field args "limit") (VNum 30) in
  try_ "Failed to get upcoming tasks" (
    today <- now ;;
    delta <~ times R days_ahead day_ms ;;
    let futureDate := TimeClip (option_map (fun d => today + d)%Z delta) in
    todayStr <~ iso_day (Some today) ;;
    futureStr <~ iso_day futureDate ;;
    lim <~ to_str limit ;;
    let endpoint := "/task?dueAfter=" ++ todayStr ++ "&dueBefore=" ++ futureStr ++
                    "&limit=" ++ lim in
    tasks <- GET endpoint ;;
    lift (
      let? days := to_str days_ahead in
      let? n := show tasks "length" in
      let? items := map_ tasks getUpcomingTasks_item in
      Ok (" **Upcoming Tasks** (Next " ++ days ++ " days, " ++ n ++ " found):" ++
          nl ++ nl ++ concat nl items))).

(** [async addTagToTask({ task_id, tag_name })]: reads the task, then
    writes it back with the tag added.  [currentTags] is the array of the
    task it was read from, so the pushed tag is in both. *)
Definition addTagToTask (args : Val) : Prog string :=
  _ <~ destructure args ;;
  let task_id := field args "task_id" in
  let tag_name := field args "tag_name" in
  try_ "Failed to add tag to task" (
    id <~ to_str task_id ;;
    task <- GET ("/task/" ++ id) ;;
    tags0 <~ get task "tags" ;;
    let currentTags0 := or_ tags0 (VArr []) in
    present <~ includes currentTags0 tag_name ;;
    currentTags <~ (if present then Ok currentTags0 else push currentTags0 tag_name) ;;
    id' <~ to_str task_id ;;
    _ <- makeTickTickRequest ("/task/" ++ id') "PUT"
           (VObj (set_prop "tags" currentTags (spread task))) ;;
    title <~ show task "title" ;;
    tag <~ to_str tag_name ;;
    all <~ join currentTags ", " ;;
    t <- now ;;
    Ret (" **Added Tag to Task**" ++ nl ++ nl ++
         " **Task**: " ++ title ++ nl ++
         " **Tag Added**: " ++ tag ++ nl ++
         " **All Tags**: " ++ all ++ nl ++
         " **Updated**: " ++ toLocaleString R t)).

(** [async getUserProfile()] *)
Definition getUserProfile (args : Val) : Prog string :=
  try_ "Failed to get user profile" (
    profile <- GET "/user/profile" ;;
    lift (
      let? name := show_or profile "name" (VStr "Not set") in
      let? email := show_or profile "email" (VStr "Not available") in
      let? username := show_or profile "username" (VStr "Not set") in
      let? timezone := show_or profile "timezone" (VStr "Not set") in
      let? pro := get profile "pro" in
      let? since := show_date_or profile "createdTime" "Unknown" in
      let? total := show_or profile "totalTasks" (VNum 0) in
      let? completed := show_or profile "completedTasks" (VNum 0) in
      Ok (" **TickTick User Profile**" ++ nl ++ nl ++
          "**Name**: " ++ name ++ nl ++
          "**Email**: " ++ email ++ nl ++
          "**Username**: " ++ username ++ nl ++
          "**Timezone**: " ++ timezone ++ nl ++
          "**Pro Status**: " ++ (if truthy pro then " Pro Member" else " Free Account") ++ nl ++
          "**Member Since**: " ++ since ++ nl ++
          "**Total Tasks**: " ++ total ++ nl ++
          "**Completed Tasks**: " ++ completed))).

(** The text of one task in [getTasksByTag]. *)
Definition getTasksByTag_item (task : Val) : Result string :=
  let? title := show task "title" in
  let? id := show task "id" in
  let? st := status_text task in
  let? prio := priority_text task in
  let? project := show task "projectId" in
  let? due := due_line (locale_date R) "- Due: " task in
  let? b := has_tags task in
  let? all := if b then let? tags := get task "tags" in join tags ", "
              else Ok "None" in
  Ok ("**" ++ title ++ "** (ID: " ++ id ++ ")" ++ nl ++
      "- Status: " ++ st ++ nl ++
      "- Priority: " ++ prio ++ nl ++
      "- Project: " ++ project ++ nl ++
      due ++
      "- All Tags: " ++ all ++ nl).

(** [async getTasksByTag({ tag_name, limit = 50 })] *)
Definition getTasksByTag (args : Val) : Prog string :=
  _ <~ destructure args ;;
  let tag_name := field args "tag_name" in
  let limit := dflt (field args "limit") (VNum 50) in
  try_ "Failed to get tasks by tag" (
    tag <~ to_str tag_name ;;
    lim <~ to_str limit ;;
    let endpoint := "/task?tags=" ++ encodeURIComponent tag ++ "&limit=" ++ lim in
    tasks <- GET endpoint ;;
    lift (
      let? tag' := to_str tag_name in
      let? n := show tasks "length" in
      let? items := map_ tasks getTasksByTag_item in
      let? total := show tasks "length" in
      let? done := filter tasks (fun t =>
        let? st := get t "status" in Ok (strict_eq st (VNum 2))) in
      let? ndone := show done "length" in
      let? pending := filter tasks (fun t =>
        let? st := get t "status" in Ok (negb (strict_eq st (VNum 2)))) in
      let? npending := show pending "length" in
      Ok (" **Tasks Tagged with " ++ dq ++ tag' ++ dq ++ "** (" ++ n ++ " found):" ++
          nl ++ nl ++ concat nl items ++
          nl ++ "**Summary**:" ++ nl ++
          "- Total Tasks: " ++ total ++ nl ++
          "- Completed: " ++ ndone ++ nl ++
          "- Pending: " ++ npending))).

(** *** The other tools

    Their requests are transcribed; their text is the effect [Render],
    given the arguments and the answers the template reads. *)

(** [new Date().toISOString()] *)
Definition isoNow : Prog string :=
  t <- now ;; lift (toISOString (Some t)).

(** [new Date().toISOString().split('T')[0]] *)
Definition isoToday : Prog string :=
  t <- now ;; lift (iso_day (Some t)).

(** [date || new Date().toISOString().split('T')[0]] *)
Definition or_today (date : Val) : Prog Val :=
  if truthy date then Ret date else (s <- isoToday ;; Ret (VStr s)).

(** [if (c) data.k = v] *)
Definition set_if (c : Val) (k : string) (v : Val) (l : list (string * Val))
  : list (string * Val) :=
  if truthy c then set_prop k v l else l.

(** [if (c) params.append(k, c)] *)
Definition append_if (c : Val) (k : string) (p : Params) : Result Params :=
  if truthy c then append p k c else Ok p.

(** [l.forEach(x => params.append(k, x))] *)
Fixpoint append_each (k : string) (l : list Val) (p : Params) : Result Params :=
  match l with
  | [] => Ok p
  | x :: r => let? p' := append p k x in append_each k r p'
  end.

(** [if (v?.length) v.forEach(x => params.append(k, x))] *)
Definition append_all (v : Val) (k : string) (p : Params) : Result Params :=
  let? n := get_opt v "length" in
  if truthy n then
    let? l := array_of v "forEach" in append_each k l p
  else Ok p.

(** [Object.entries(v).forEach(([key, value]) =>
      params.append(`prefix${key}`, value.toString()))] *)
Fixpoint append_entries (prefix : string) (l : list (string * Val)) (p : Params)
  : Result Params :=
  match l with
  | [] => Ok p
  | (k, v) :: r =>
      let? s := toString v in
      append_entries prefix r (p ++ [((prefix ++ k)%string, s)])%list
  end.

(** [v > 0] *)
Definition above_zero (v : Val) : Result bool :=
  let? n := to_number R v in
  Ok (match n with Some n => (0 <? n)%Z | None => false end).

(** [async getHabits({ include_archived = false })] *)
Definition getHabits (args : Val) : Prog string :=
  _ <~ destructure args ;;
  try_ "Failed to get habits" (
    habits <- GET "/habit" ;;
    render "getHabits" [args; habits]).

(** [async createHabit({ name, frequency = 'daily', goal = 1, reminder_time,
    color = '#3498db' })] *)
Definition createHabit (args : Val) : Prog string :=
  _ <~ destructure args ;;
  let name := field args "name" in
  let frequency := dflt (field args "frequency") (VStr "daily") in
  let goal := dflt (field args "goal") (VNum 1) in
  let reminder_time := field args "reminder_time" in
  let color := dflt (field args "color") (VStr "#3498db") in
  try_ "Failed to create habit" (
    createdTime <- isoNow ;;
    let habitData := set_if reminder_time "reminderTime" reminder_time
      [("name", name); ("frequency", frequency); ("goal", goal);
       ("color", color); ("createdTime", VStr createdTime)] in
    habit <- makeTickTickRequest "/habit" "POST" (VObj habitData) ;;
    render "createHabit" [args; habit]).

(** [async updateHabit({ habit_id, name, frequency, goal, reminder_time, color })] *)
Definition updateHabit (args : Val) : Prog string :=
  _ <~ destructure args ;;
  let habit_id := field args "habit_id" in
  let name := field args "name" in
  let frequency := field args "frequency" in
  let goal := field args "goal" in
  let reminder_time := field args "reminder_time" in
  let color := field args "color" in
  try_ "Failed to update habit" (
    id <~ to_str habit_id ;;
    currentHabit <- GET ("/habit/" ++ id) ;;
    let updateData :=
      set_if color "color" color
        (set_if reminder_time "reminderTime" reminder_time
           (set_if goal "goal" goal
              (set_if frequency "frequency" frequency
                 (set_if name "name" name (spread currentHabit))))) in
    id' <~ to_str habit_id ;;
    updatedHabit <- makeTickTickRequest ("/habit/" ++ id') "PUT" (VObj updateData) ;;
    render "updateHabit" [args; updatedHabit]).

(** [async deleteHabit({ habit_id })] *)
Definition deleteHabit (args : Val) : Prog string :=
  _ <~ destructure args ;;
  let habit_id := field args "habit_id" in
  try_ "Failed to delete habit" (
    id <~ to_str habit_id ;;
    r <- makeTickTickRequest ("/habit/" ++ id) "DELETE" VNull ;;
    render "deleteHabit" [args; r]).

(** [async checkinHabit({ habit_id, date, count = 1 })] *)
Definition checkinHabit (args : Val) : Prog string :=
  _ <~ destructure args ;;
  let habit_id := field args "habit_id" in
  let date := field args "date" in
  let count := dflt (field args "count") (VNum 1) in
  try_ "Failed to check in habit" (
    checkinDate <- or_today date ;;
    timestamp <- isoNow ;;
    let checkinData := VObj [("habitId", habit_id); ("date", checkinDate);
                             ("count", count); ("timestamp", VStr timestamp)] in
    checkin <- makeTickTickRequest "/habit/checkin" "POST" checkinData ;;
    render "checkinHabit" [args; checkinDate; checkin]).

(** [async getHabitHistory({ habit_id, days_back = 30 })] *)
Definition getHabitHistory (args : Val) : Prog string :=
  _ <~ destructure args ;;
  let habit_id := field args "habit_id" in
  let days_back := dflt (field args "days_back") (VNum 30) in
  try_ "Failed to get habit history" (
    endDate <- now ;;
    delta <~ times R days_back day_ms ;;
    let startDate := TimeClip (option_map (fun d => endDate - d)%Z delta) in
    id <~ to_str habit_id ;;
    start <~ iso_day startDate ;;
    end_ <~ iso_day (Some endDate) ;;
    let endpoint := "/habit/" ++ id ++ "/history?start=" ++ start ++ "&end=" ++ end_ in
    history <- GET endpoint ;;
    render "getHabitHistory" [args; of_number startDate; VNum endDate; history]).

(** [async getHabitStats({ habit_id })] *)
Definition getHabitStats (args : Val) : Prog string :=
  _ <~ destructure args ;;
  let habit_id := field args "habit_id" in
  try_ "Failed to get habit stats" (
    id <~ to_str habit_id ;;
    stats <- GET ("/habit/" ++ id ++ "/stats") ;;
    render "getHabitStats" [args; stats]).

(** [async pauseHabit({ habit_id, resume_date })] *)
Definition pauseHabit (args : Val) : Prog string :=
  _ <~ destructure args ;;
  let habit_id := field args "habit_id" in
  let resume_date := field args "resume_date" in
  try_ "Failed to pause habit" (
    pausedDate <- isoToday ;;
    let pauseData := set_if resume_date "resumeDate" resume_date
      [("paused", VBool true); ("pausedDate", VStr pausedDate)] in
    id <~ to_str habit_id ;;
    habit <- makeTickTickRequest ("/habit/" ++ id) "PUT" (VObj pauseData) ;;
    render "pauseHabit" [args; VObj pauseData; habit]).

(** [async resumeHabit({ habit_id })] *)
Definition resumeHabit (args : Val) : Prog string :=
  _ <~ destructure args ;;
  let habit_id := field args "habit_id" in
  try_ "Failed to resume habit" (
    resumedDate <- isoToday ;;
    let resumeData := VObj [("paused", VBool false); ("resumedDate", VStr resumedDate)] in
    id <~ to_str habit_id ;;
    habit <- makeTickTickRequest ("/habit/" ++ id) "PUT" resumeData ;;
    render "resumeHabit" [args; resumeData; habit]).

(** [async getHabitStreaks({ habit_id })] *)
Definition getHabitStreaks (args : Val) : Prog string :=
  _ <~ destructure args ;;
  let habit_id := field args "habit_id" in
  try_ "Failed to get habit streaks" (
    id <~ to_str habit_id ;;
    streaks <- GET ("/habit/" ++ id ++ "/streaks") ;;
    render "getHabitStreaks" [args; streaks]).

(** [async bulkCheckinHabits({ habit_ids, date })] *)
Definition bulkCheckinHabits (args : Val) : Prog string :=
  _ <~ destructure args ;;
  let habit_ids := field args "habit_ids" in
  let date := field args "date" in
  try_ "Failed to bulk check-in habits" (
    checkinDate <- or_today date ;;
    timestamp <- isoNow ;;
    let bulkData := VObj [("habitIds", habit_ids); ("date", checkinDate);
                          ("timestamp", VStr timestamp)] in
    results <- makeTickTickRequest "/habit/bulk-checkin" "POST" bulkData ;;
    render "bulkCheckinHabits" [args; checkinDate; results]).

(** [async getHabitCalendar({ habit_id, year = new Date().getFullYear(), month })]:
    the default of [year] reads the clock while the parameters are bound,
    before the [try]. *)
Definition getHabitCalendar (args : Val) : Prog string :=
  _ <~ destructure args ;;
  let habit_id := field args "habit_id" in
  year <- (if is_undefined (field args "year")
           then (t <- now ;; Ret (VNum (getFullYear R t)))
           else Ret (field args "year")) ;;
  let month := field args "month" in
  try_ "Failed to get habit calendar" (
    id <~ to_str habit_id ;;
    y <~ to_str year ;;
    m <~ (if truthy month then let? m := to_str month in Ok ("&month=" ++ m)
          else Ok "") ;;
    let endpoint := "/habit/" ++ id ++ "/calendar?year=" ++ y ++ m in
    calendar <- GET endpoint ;;
    render "getHabitCalendar" [args; year; calendar]).

(** [async setHabitGoal({ habit_id, goal_type = 'daily', target_count, target_streak })] *)
Definition setHabitGoal (args : Val) : Prog string :=
  _ <~ destructure args ;;
  let habit_id := field args "habit_id" in
  let goal_type := dflt (field args "goal_type") (VStr "daily") in
  let target_count := field args "target_count" in
  let target_streak := field args "target_streak" in
  try_ "Failed to set habit goal" (
    let goalData := set_if target_streak "targetStreak" target_streak
      [("habitId", habit_id); ("goalType", goal_type); ("targetCount", target_count)] in
    goal <- makeTickTickRequest "/habit/goal" "POST" (VObj goalData) ;;
    render "setHabitGoal" [args; goal]).

(** [async getHabitsSummary({ date })] *)
Definition getHabitsSummary (args : Val) : Prog string :=
  _ <~ destructure args ;;
  let date := field args "date" in
  try_ "Failed to get habits summary" (
    summaryDate <- or_today date ;;
    d <~ to_str summaryDate ;;
    summary <- GET ("/habit/summary?date=" ++ d) ;;
    render "getHabitsSummary" [args; summaryDate; summary]).

(** [async exportHabitData({ habit_id, start_date, end_date, format = 'json' })] *)
Definition exportHabitData (args : Val) : Prog string :=
  _ <~ destructure args ;;
  let habit_id := field args "habit_id" in
  let start_date := field args "start_date" in
  let end_date := field args "end_date" in
  let format := dflt (field args "format") (VStr "json") in
  try_ "Failed to export habit data" (
    params <~ (let? p1 := append_if habit_id "habitId" [] in
               let? p2 := append_if start_date "startDate" p1 in
               let? p3 := append_if end_date "endDate" p2 in
               append p3 "format" format) ;;
    let endpoint := if negb (params_str params =? "")
                    then "/habit/export" ++ "?" ++ params_str params
                    else "/habit/export" in
    exportData <- GET endpoint ;;
    render "exportHabitData" [args; exportData]).

(** [async updateTag({ tag_id, name, color })] *)
Definition updateTag (args : Val) : Prog string :=
  _ <~ destructure args ;;
  let tag_id := field args "tag_id" in
  let name := field args "name" in
  let color := field args "color" in
  try_ "Failed to update tag" (
    id <~ to_str tag_id ;;
    currentTag <- GET ("/tag/" ++ id) ;;
    let updateData :=
      set_if color "color" color (set_if name "name" name (spread currentTag)) in
    id' <~ to_str tag_id ;;
    updatedTag <- makeTickTickRequest ("/tag/" ++ id') "PUT" (VObj updateData) ;;
    render "updateTag" [args; updatedTag]).

(** [async deleteTag({ tag_id })] *)
Definition deleteTag (args : Val) : Prog string :=
  _ <~ destructure args ;;
  let tag_id := field args "tag_id" in
  try_ "Failed to delete tag" (
    id <~ to_str tag_id ;;
    r <- makeTickTickRequest ("/tag/" ++ id) "DELETE" VNull ;;
    render "deleteTag" [args; r]).

(** [async removeTagFromTask({ task_id, tag_name })] *)
Definition removeTagFromTask (args : Val) : Prog string :=
  _ <~ destructure args ;;
  let task_id := field args "task_id" in
  let tag_name := field args "tag_name" in
  try_ "Failed to remove tag from task" (
    id <~ to_str task_id ;;
    task <- GET ("/task/" ++ id) ;;
    tags0 <~ get task "tags" ;;
    let currentTags := or_ tags0 (VArr []) in
    updatedTags <~ filter currentTags (fun tag => Ok (negb (strict_eq tag tag_name))) ;;
    id' <~ to_str task_id ;;
    updatedTask <- makeTickTickRequest ("/task/" ++ id') "PUT"
                     (VObj (set_prop "tags" updatedTags (spread task))) ;;
    render "removeTagFromTask" [args; task; updatedTags]).

(** [async getTagUsageStats({ tag_id })] *)
Definition getTagUsageStats (args : Val) : Prog string :=
  _ <~ destructure args ;;
  let tag_id := field args "tag_id" in
  try_ "Failed to get tag usage stats" (
    id <~ to_str tag_id ;;
    stats <- GET ("/tag/" ++ id ++ "/stats") ;;
    render "getTagUsageStats" [args; stats]).

(** [async mergeTags({ source_tag_id, target_tag_id })] *)
Definition mergeTags (args : Val) : Prog string :=
  _ <~ destructure args ;;
  let source_tag_id := field args "source_tag_id" in
  let target_tag_id := field args "target_tag_id" in
  try_ "Failed to merge tags" (
    let mergeData := VObj [("sourceTagId", source_tag_id);
                           ("targetTagId", target_tag_id)] in
    result <- makeTickTickRequest "/tag/merge" "POST" mergeData ;;
    render "mergeTags" [args; result]).

(** [async bulkTagOperations({ operation, task_ids, tag_names, replace_with })] *)
Definition bulkTagOperations (args : Val) : Prog string :=
  _ <~ destructure args ;;
  let operation := field args "operation" in
  let task_ids := field args "task_ids" in
  let tag_names := field args "tag_names" in
  let replace_with := field args "replace_with" in
  try_ "Failed to perform bulk tag operations" (
    let d0 := [("operation", operation); ("taskIds", task_ids);
               ("tagNames", tag_names)] in
    let bulkData := if (strict_eq operation (VStr "replace") && truthy replace_with)%bool
                    then set_prop "replaceWith" replace_with d0 else d0 in
    result <- makeTickTickRequest "/tag/bulk" "POST" (VObj bulkData) ;;
    render "bulkTagOperations" [args; result]).

(** [async startFocusSession({ task_id, duration = 25, session_type = 'focus' })] *)
Definition startFocusSession (args : Val) : Prog string :=
  _ <~ destructure args ;;
  let task_id := field args "task_id" in
  let duration := dflt (field args "duration") (VNum 25) in
  let session_type := dflt (field args "session_type") (VStr "focus") in
  try_ "Failed to start focus session" (
    startTime <- isoNow ;;
    let sessionData := set_if task_id "taskId" task_id
      [("type", session_type); ("duration", duration); ("startTime", VStr startTime)] in
    session <- makeTickTickRequest "/focus/start" "POST" (VObj sessionData) ;;
    render "startFocusSession" [args; session]).

(** [async stopFocusSession({ session_id })] *)
Definition stopFocusSession (args : Val) : Prog string :=
  _ <~ destructure args ;;
  let session_id := field args "session_id" in
  try_ "Failed to stop focus session" (
    endTime <- isoNow ;;
    let stopData := VObj [("sessionId", session_id); ("endTime", VStr endTime)] in
    result <- makeTickTickRequest "/focus/stop" "POST" stopData ;;
    render "stopFocusSession" [args; result]).

(** [async pauseFocusSession({ session_id })] *)
Definition pauseFocusSession (args : Val) : Prog string :=
  _ <~ destructure args ;;
  let session_id := field args "session_id" in
  try_ "Failed to pause focus session" (
    pauseTime <- isoNow ;;
    let pauseData := VObj [("sessionId", session_id); ("pauseTime", VStr pauseTime)] in
    result <- makeTickTickRequest "/focus/pause" "POST" pauseData ;;
    render "pauseFocusSession" [args; result]).

(** [async resumeFocusSession({ session_id })] *)
Definition resumeFocusSession (args : Val) : Prog string :=
  _ <~ destructure args ;;
  let session_id := field args "session_id" in
  try_ "Failed to resume focus session" (
    resumeTime <- isoNow ;;
    let resumeData := VObj [("sessionId", session_id); ("resumeTime", VStr resumeTime)] in
    result <- makeTickTickRequest "/focus/resume" "POST" resumeData ;;
    render "resumeFocusSession" [args; result]).

(** [async getFocusStats({ period = 'today' })] *)
Definition getFocusStats (args : Val) : Prog string :=
  _ <~ destructure args ;;
  let period := dflt (field args "period") (VStr "today") in
  try_ "Failed to get focus stats" (
    p <~ to_str period ;;
    stats <- GET ("/focus/stats?period=" ++ p) ;;
    render "getFocusStats" [args; stats]).

(** [async setTaskEstimate({ task_id, estimated_minutes, estimate_type = 'minutes' })] *)
Definition setTaskEstimate (args : Val) : Prog string :=
  _ <~ destructure args ;;
  let task_id := field args "task_id" in
  let estimated_minutes := field args "estimated_minutes" in
  let estimate_type := dflt (field args "estimate_type") (VStr "minutes") in
  try_ "Failed to set task estimate" (
    finalEstimate <~ (if strict_eq estimate_type (VStr "pomodoros") then
                        let? n := times R estimated_minutes 25 in Ok (of_number n)
                      else if strict_eq estimate_type (VStr "hours") then
                        let? n := times R estimated_minutes 60 in Ok (of_number n)
                      else Ok estimated_minutes) ;;
    setAt <- isoNow ;;
    let estimateData := VObj [("taskId", task_id); ("estimatedMinutes", finalEstimate);
                              ("estimateType", estimate_type); ("setAt", VStr setAt)] in
    result <- makeTickTickRequest "/task/estimate" "POST" estimateData ;;
    render "setTaskEstimate" [args; finalEstimate; result]).

(** [async getDailyFocusSummary({ date })] *)
Definition getDailyFocusSummary (args : Val) : Prog string :=
  _ <~ destructure args ;;
  let date := field args "date" in
  try_ "Failed to get daily focus summary" (
    summaryDate <- or_today date ;;
    d <~ to_str summaryDate ;;
    summary <- GET ("/focus/daily?date=" ++ d) ;;
    render "getDailyFocusSummary" [args; summaryDate; summary]).

(** [async getFocusHistory({ days_back = 30, task_id })] *)
Definition getFocusHistory (args : Val) : Prog string :=
  _ <~ destructure args ;;
  let days_back := dflt (field args "days_back") (VNum 30) in
  let task_id := field args "task_id" in
  try_ "Failed to get focus history" (
    days <~ to_str days_back ;;
    t <~ (if truthy task_id then let? t := to_str task_id in Ok ("&taskId=" ++ t)
          else Ok "") ;;
    history <- GET ("/focus/history?days=" ++ days ++ t) ;;
    render "getFocusHistory" [args; history]).

(** [async setFocusGoals({ goal_type = 'daily', target_minutes, target_sessions })] *)
Definition setFocusGoals (args : Val) : Prog string :=
  _ <~ destructure args ;;
  let goal_type := dflt (field args "goal_type") (VStr "daily") in
  let target_minutes := field args "target_minutes" in
  let target_sessions := field args "target_sessions" in
  try_ "Failed to set focus goals" (
    setAt <- isoNow ;;
    let goalData := set_if target_sessions "targetSessions" target_sessions
      [("type", goal_type); ("targetMinutes", target_minutes); ("setAt", VStr setAt)] in
    goal <- makeTickTickRequest "/focus/goals" "POST" (VObj goalData) ;;
    render "setFocusGoals" [args; goal]).

(** [async getProductivityInsights({ period = 'week' })] *)
Definition getProductivityInsights (args : Val) : Prog string :=
  _ <~ destructure args ;;
  let period := dflt (field args "period") (VStr "week") in
  try_ "Failed to get productivity insights" (
    p <~ to_str period ;;
    insights <- GET ("/analytics/productivity?period=" ++ p) ;;
    render "getProductivityInsights" [args; insights]).

(** [async getProjectFolders()] *)
Definition getProjectFolders (args : Val) : Prog string :=
  try_ "Failed to get project folders" (
    folders <- GET "/project/folder" ;;
    render "getProjectFolders" [folders]).

(** [async createProjectFolder({ name, color = '#3498db', description = '' })] *)
Definition createProjectFolder (args : Val) : Prog string :=
  _ <~ destructure args ;;
  let name := field args "name" in
  let color := dflt (field args "color") (VStr "#3498db") in
  let description := dflt (field args "description") (VStr "") in
  try_ "Failed to create project folder" (
    let folderData := VObj [("name", name); ("color", color);
                            ("description", description)] in
    folder <- makeTickTickRequest "/project/folder" "POST" folderData ;;
    render "createProjectFolder" [args; folder]).

(** [async moveProjectToFolder({ project_id, folder_id = null })] *)
Definition moveProjectToFolder (args : Val) : Prog string :=
  _ <~ destructure args ;;
  let project_id := field args "project_id" in
  let folder_id := dflt (field args "folder_id") VNull in
  try_ "Failed to move project to folder" (
    let moveData := VObj [("folderId", folder_id)] in
    id <~ to_str project_id ;;
    r <- makeTickTickRequest ("/project/" ++ id ++ "/move") "PUT" moveData ;;
    render "moveProjectToFolder" [args; r]).

(** [async archiveProject({ project_id })] *)
Definition archiveProject (args : Val) : Prog string :=
  _ <~ destructure args ;;
  let project_id := field args "project_id" in
  try_ "Failed to archive project" (
    id <~ to_str project_id ;;
    r <- makeTickTickRequest ("/project/" ++ id ++ "/archive") "PUT" VNull ;;
    render "archiveProject" [args; r]).

(** [async unarchiveProject({ project_id })] *)
Definition unarchiveProject (args : Val) : Prog string :=
  _ <~ destructure args ;;
  let project_id := field args "project_id" in
  try_ "Failed to unarchive project" (
    id <~ to_str project_id ;;
    r <- makeTickTickRequest ("/project/" ++ id ++ "/unarchive") "PUT" VNull ;;
    render "unarchiveProject" [args; r]).

(** [async duplicateProject({ project_id, new_name, include_tasks = true,
    include_settings = true })] *)
Definition duplicateProject (args : Val) : Prog string :=
  _ <~ destructure args ;;
  let project_id := field args "project_id" in
  let new_name := field args "new_name" in
  let include_tasks := dflt (field args "include_tasks") (VBool true) in
  let include_settings := dflt (field args "include_settings") (VBool true) in
  try_ "Failed to duplicate project" (
    let duplicateData := VObj [("name", new_name); ("includeTasks", include_tasks);
                               ("includeSettings", include_settings)] in
    id <~ to_str project_id ;;
    newProject <- makeTickTickRequest ("/project/" ++ id ++ "/duplicate") "POST"
                    duplicateData ;;
    render "duplicateProject" [args; newProject]).

(** [async getProjectStats({ project_id })] *)
Definition getProjectStats (args : Val) : Prog string :=
  _ <~ destructure args ;;
  let project_id := field args "project_id" in
  try_ "Failed to get project stats" (
    id <~ to_str project_id ;;
    stats <- GET ("/project/" ++ id ++ "/stats") ;;
    render "getProjectStats" [args; stats]).

(** [async setProjectColor({ project_id, color })] *)
Definition setProjectColor (args : Val) : Prog string :=
  _ <~ destructure args ;;
  let project_id := field args "project_id" in
  let color := field args "color" in
  try_ "Failed to set project color" (
    let updateData := VObj [("color", color)] in
    id <~ to_str project_id ;;
    r <- makeTickTickRequest ("/project/" ++ id) "PUT" updateData ;;
    render "setProjectColor" [args; r]).

(** [async reorderProjects({ project_orders })] *)
Definition reorderProjects (args : Val) : Prog string :=
  _ <~ destructure args ;;
  let project_orders := field args "project_orders" in
  try_ "Failed to reorder projects" (
    orders <~ map_ project_orders (fun order =>
      let? project_id := get order "project_id" in
      let? position := get order "position" in
      Ok (VObj [("projectId", project_id); ("sortOrder", position)])) ;;
    let reorderData := VObj [("orders", VArr orders)] in
    r <- makeTickTickRequest "/project/reorder" "PUT" reorderData ;;
    render "reorderProjects" [args; r]).

(** [async getProjectTemplates()] *)
Definition getProjectTemplates (args : Val) : Prog string :=
  try_ "Failed to get project templates" (
    templates <- GET "/project/templates" ;;
    render "getProjectTemplates" [templates]).

(** [async createProjectFromTemplate({ template_id, project_name,
    customize_settings = {} })] *)
Definition createProjectFromTemplate (args : Val) : Prog string :=
  _ <~ destructure args ;;
  let template_id := field args "template_id" in
  let project_name := field args "project_name" in
  let customize_settings := dflt (field args "customize_settings") (VObj []) in
  try_ "Failed to create project from template" (
    let projectData := VObj [("templateId", template_id); ("name", project_name);
                             ("customizations", customize_settings)] in
    newProject <- makeTickTickRequest "/project/from-template" "POST" projectData ;;
    render "createProjectFromTemplate" [args; newProject]).

(** [async exportProject({ project_id, format = 'json', include_completed = true,
    include_attachments = false })] *)
Definition exportProject (args : Val) : Prog string :=
  _ <~ destructure args ;;
  let project_id := field args "project_id" in
  let format := dflt (field args "format") (VStr "json") in
  let include_completed := dflt (field args "include_completed") (VBool true) in
  let include_attachments := dflt (field args "include_attachments") (VBool false) in
  try_ "Failed to export project" (
    let exportData := VObj [("format", format); ("includeCompleted", include_completed);
                            ("includeAttachments", include_attachments)] in
    id <~ to_str project_id ;;
    exportResult <- makeTickTickRequest ("/project/" ++ id ++ "/export") "POST"
                      exportData ;;
    render "exportProject" [args; exportResult]).

(** [async shareProject({ project_id, emails, permission_level = 'edit',
    message = '' })] *)
Definition shareProject (args : Val) : Prog string :=
  _ <~ destructure args ;;
  let project_id := field args "project_id" in
  let emails := field args "emails" in
  let permission_level := dflt (field args "permission_level") (VStr "edit") in
  let message := dflt (field args "message") (VStr "") in
  try_ "Failed to share project" (
    let shareData := VObj [("emails", emails); ("permissionLevel", permission_level);
                           ("invitationMessage", message)] in
    id <~ to_str project_id ;;
    result <- makeTickTickRequest ("/project/" ++ id ++ "/share") "POST" shareData ;;
    render "shareProject" [args; result]).

(** [async getSharedProjects({ include_owned = true, include_received = true })] *)
Definition getSharedProjects (args : Val) : Prog string :=
  _ <~ destructure args ;;
  let include_owned := dflt (field args "include_owned") (VBool true) in
  let include_received := dflt (field args "include_received") (VBool true) in
  try_ "Failed to get shared projects" (
    owned <~ to_str include_owned ;;
    received <~ to_str include_received ;;
    sharedProjects <- GET ("/project/shared?includeOwned=" ++ owned ++
                           "&includeReceived=" ++ received) ;;
    render "getSharedProjects" [args; sharedProjects]).

(** [async inviteCollaborator({ project_id, email, role = 'member',
    personal_message = '' })] *)
Definition inviteCollaborator (args : Val) : Prog string :=
  _ <~ destructure args ;;
  let project_id := field args "project_id" in
  let email := field args "email" in
  let role := dflt (field args "role") (VStr "member") in
  let personal_message := dflt (field args "personal_message") (VStr "") in
  try_ "Failed to invite collaborator" (
    let inviteData := VObj [("email", email); ("role", role);
                            ("personalMessage", personal_message)] in
    id <~ to_str project_id ;;
    invitation <- makeTickTickRequest ("/project/" ++ id ++ "/invite") "POST"
                    inviteData ;;
    render "inviteCollaborator" [args; invitation]).

(** [async removeCollaborator({ project_id, user_id })] *)
Definition removeCollaborator (args : Val) : Prog string :=
  _ <~ destructure args ;;
  let project_id := field args "project_id" in
  let user_id := field args "user_id" in
  try_ "Failed to remove collaborator" (
    id <~ to_str project_id ;;
    user <~ to_str user_id ;;
    r <- makeTickTickRequest ("/project/" ++ id ++ "/collaborator/" ++ user)
           "DELETE" VNull ;;
    render "removeCollaborator" [args; r]).

(** [async assignTask({ task_id, assignee_id, due_date, priority,
    notification = true })] *)
Definition assignTask (args : Val) : Prog string :=
  _ <~ destructure args ;;
  let task_id := field args "task_id" in
  let assignee_id := field args "assignee_id" in
  let due_date := field args "due_date" in
  let priority := field args "priority" in
  let notification := dflt (field args "notification") (VBool true) in
  try_ "Failed to assign task" (
    let assignmentData := VObj [("assigneeId", assignee_id); ("dueDate", due_date);
                                ("priority", priority);
                                ("sendNotification", notification)] in
    id <~ to_str task_id ;;
    assignment <- makeTickTickRequest ("/task/" ++ id ++ "/assign") "PUT"
                    assignmentData ;;
    render "assignTask" [args; assignment]).

(** [async getTaskAssignees({ task_id })] *)
Definition getTaskAssignees (args : Val) : Prog string :=
  _ <~ destructure args ;;
  let task_id := field args "task_id" in
  try_ "Failed to get task assignees" (
    id <~ to_str task_id ;;
    assignees <- GET ("/task/" ++ id ++ "/assignees") ;;
    render "getTaskAssignees" [args; assignees]).

(** [async addTaskComment({ task_id, comment, mention_users = [],
    is_private = false })] *)
Definition addTaskComment (args : Val) : Prog string :=
  _ <~ destructure args ;;
  let task_id := field args "task_id" in
  let comment := field args "comment" in
  let mention_users := dflt (field args "mention_users") (VArr []) in
  let is_private := dflt (field args "is_private") (VBool false) in
  try_ "Failed to add task comment" (
    let commentData := VObj [("content", comment); ("mentions", mention_users);
                             ("isPrivate", is_private)] in
    id <~ to_str task_id ;;
    newComment <- makeTickTickRequest ("/task/" ++ id ++ "/comment") "POST"
                    commentData ;;
    render "addTaskComment" [args; newComment]).

(** [async getTeamActivity({ project_id, limit = 50, activity_types })] *)
Definition getTeamActivity (args : Val) : Prog string :=
  _ <~ destructure args ;;
  let project_id := field args "project_id" in
  let limit := dflt (field args "limit") (VNum 50) in
  let activity_types := field args "activity_types" in
  try_ "Failed to get team activity" (
    lim <~ toString limit ;;
    p0 <~ params_of [("limit", VStr lim)] ;;
    some <~ (if truthy activity_types then
               let? n := get activity_types "length" in above_zero n
             else Ok false) ;;
    params <~ (if some then
                 let? types := join activity_types "," in
                 append p0 "types" (VStr types)
               else Ok p0) ;;
    id <~ to_str project_id ;;
    activities <- GET ("/project/" ++ id ++ "/activity?" ++ params_str params) ;;
    render "getTeamActivity" [args; activities]).

(** [async setProjectPermissions({ project_id, permissions,
    apply_to_existing = false })] *)
Definition setProjectPermissions (args : Val) : Prog string :=
  _ <~ destructure args ;;
  let project_id := field args "project_id" in
  let permissions := field args "permissions" in
  let apply_to_existing := dflt (field args "apply_to_existing") (VBool false) in
  try_ "Failed to set project permissions" (
    let permissionData := VObj [("permissions", permissions);
                                ("applyToExisting", apply_to_existing)] in
    id <~ to_str project_id ;;
    r <- makeTickTickRequest ("/project/" ++ id ++ "/permissions") "PUT"
           permissionData ;;
    render "setProjectPermissions" [args; r]).

(** [async getCollaborationStats({ project_id, time_period = 'month' })] *)
Definition getCollaborationStats (args : Val) : Prog string :=
  _ <~ destructure args ;;
  let project_id := field args "project_id" in
  let time_period := dflt (field args "time_period") (VStr "month") in
  try_ "Failed to get collaboration stats" (
    id <~ to_str project_id ;;
    period <~ to_str time_period ;;
    stats <- GET ("/project/" ++ id ++ "/collaboration-stats?period=" ++ period) ;;
    render "getCollaborationStats" [args; stats]).

(** [async bulkAssignTasks({ assignments, notify_assignees = true })] *)
Definition bulkAssignTasks (args : Val) : Prog string :=
  _ <~ destructure args ;;
  let assignments := field args "assignments" in
  let notify_assignees := dflt (field args "notify_assignees") (VBool true) in
  try_ "Failed to bulk assign tasks" (
    items <~ map_ assignments (fun assignment =>
      let? task_id := get assignment "task_id" in
      let? assignee_id := get assignment "assignee_id" in
      let? due_date := get assignment "due_date" in
      Ok (VObj [("taskId", task_id); ("assigneeId", assignee_id);
                ("dueDate", due_date)])) ;;
    let assignmentData := VObj [("assignments", VArr items);
                                ("notifyAssignees", notify_assignees)] in
    result <- makeTickTickRequest "/task/bulk-assign" "POST" assignmentData ;;
    render "bulkAssignTasks" [args; result]).

(** [async exportTeamReport({ project_id, report_type = 'productivity',
    date_range, format = 'pdf' })] *)
Definition exportTeamReport (args : Val) : Prog string :=
  _ <~ destructure args ;;
  let project_id := field args "project_id" in
  let report_type := dflt (field args "report_type") (VStr "productivity") in
  let date_range := field args "date_range" in
  let format := dflt (field args "format") (VStr "pdf") in
  try_ "Failed to export team report" (
    let exportData := VObj [("reportType", report_type); ("dateRange", date_range);
                            ("format", format)] in
    id <~ to_str project_id ;;
    exportResult <- makeTickTickRequest ("/project/" ++ id ++ "/export/team-report")
                      "POST" exportData ;;
    render "exportTeamReport" [args; exportResult]).

(** [async getCalendarEvents({ start_date, end_date, calendar_id })] *)
Definition getCalendarEvents (args : Val) : Prog string :=
  _ <~ destructure args ;;
  let start_date := field args "start_date" in
  let end_date := field args "end_date" in
  let calendar_id := field args "calendar_id" in
  try_ "Failed to get calendar events" (
    params <~ (let? p1 := append_if start_date "startDate" [] in
               let? p2 := append_if end_date "endDate" p1 in
               append_if calendar_id "calendarId" p2) ;;
    events <- GET ("/calendar/events?" ++ params_str params) ;;
    render "getCalendarEvents" [args; events]).

(** [async createCalendarEvent({ title, start_time, end_time, description,
    location, reminder_minutes = 15 })] *)
Definition createCalendarEvent (args : Val) : Prog string :=
  _ <~ destructure args ;;
  let title := field args "title" in
  let start_time := field args "start_time" in
  let end_time := field args "end_time" in
  let description := field args "description" in
  let location := field args "location" in
  let reminder_minutes := dflt (field args "reminder_minutes") (VNum 15) in
  try_ "Failed to create calendar event" (
    let eventData := VObj [("title", title); ("startTime", start_time);
                           ("endTime", end_time); ("description", description);
                           ("location", location);
                           ("reminderMinutes", reminder_minutes)] in
    event <- makeTickTickRequest "/calendar/event" "POST" eventData ;;
    render "createCalendarEvent" [args; event]).

(** [async syncWithGoogleCalendar({ google_calendar_id,
    sync_direction = 'bidirectional', date_range_days = 30 })] *)
Definition syncWithGoogleCalendar (args : Val) : Prog string :=
  _ <~ destructure args ;;
  let google_calendar_id := field args "google_calendar_id" in
  let sync_direction := dflt (field args "sync_direction") (VStr "bidirectional") in
  let date_range_days := dflt (field args "date_range_days") (VNum 30) in
  try_ "Failed to sync with Google Calendar" (
    let syncData := VObj [("googleCalendarId", google_calendar_id);
                          ("syncDirection", sync_direction);
                          ("dateRangeDays", date_range_days)] in
    syncResult <- makeTickTickRequest "/calendar/sync/google" "POST" syncData ;;
    render "syncWithGoogleCalendar" [args; syncResult]).

(** [async syncWithOutlook({ outlook_calendar_id,
    sync_direction = 'bidirectional', include_meetings = true })] *)
Definition syncWithOutlook (args : Val) : Prog string :=
  _ <~ destructure args ;;
  let outlook_calendar_id := field args "outlook_calendar_id" in
  let sync_direction := dflt (field args "sync_direction") (VStr "bidirectional") in
  let include_meetings := dflt (field args "include_meetings") (VBool true) in
  try_ "Failed to sync with Outlook" (
    let syncData := VObj [("outlookCalendarId", outlook_calendar_id);
                          ("syncDirection", sync_direction);
                          ("includeMeetings", include_meetings)] in
    syncResult <- makeTickTickRequest "/calendar/sync/outlook" "POST" syncData ;;
    render "syncWithOutlook" [args; syncResult]).

(** [end_date || new Date(Date.now() + 7 * 24 * 60 * 60 * 1000)
                  .toISOString().split('T')[0]] *)
Definition or_next_week (date : Val) : Prog Val :=
  if truthy date then Ret date
  else (t <- now ;;
        s <~ iso_day (TimeClip (Some (t + 7 * day_ms)%Z)) ;;
        Ret (VStr s)).

(** [async getCalendarView({ start_date, end_date, view_type = 'week',
    include_tasks = true })] *)
Definition getCalendarView (args : Val) : Prog string :=
  _ <~ destructure args ;;
  let start_date := field args "start_date" in
  let end_date := field args "end_date" in
  let view_type := dflt (field args "view_type") (VStr "week") in
  let include_tasks := dflt (field args "include_tasks") (VBool true) in
  try_ "Failed to get calendar view" (
    startDate <- or_today start_date ;;
    endDate <- or_next_week end_date ;;
    includeTasks <~ toString include_tasks ;;
    params <~ params_of [("startDate", startDate); ("endDate", endDate);
                         ("viewType", view_type);
                         ("includeTasks", VStr includeTasks)] ;;
    calendarView <- GET ("/calendar/view?" ++ params_str params) ;;
    render "getCalendarView" [args; calendarView]).

(** [async convertTaskToEvent({ task_id, event_duration_minutes = 60, start_time,
    create_reminder = true })] *)
Definition convertTaskToEvent (args : Val) : Prog string :=
  _ <~ destructure args ;;
  let task_id := field args "task_id" in
  let event_duration_minutes := dflt (field args "event_duration_minutes") (VNum 60) in
  let start_time := field args "start_time" in
  let create_reminder := dflt (field args "create_reminder") (VBool true) in
  try_ "Failed to convert task to event" (
    let conversionData := VObj [("eventDurationMinutes", event_duration_minutes);
                                ("startTime", start_time);
                                ("createReminder", create_reminder)] in
    id <~ to_str task_id ;;
    result <- makeTickTickRequest ("/task/" ++ id ++ "/convert-to-event") "POST"
                conversionData ;;
    render "convertTaskToEvent" [args; result]).

(** [async getScheduleConflicts({ start_date, end_date, include_tasks = true,
    conflict_threshold_minutes = 15 })] *)
Definition getScheduleConflicts (args : Val) : Prog string :=
  _ <~ destructure args ;;
  let start_date := field args "start_date" in
  let end_date := field args "end_date" in
  let include_tasks := dflt (field args "include_tasks") (VBool true) in
  let conflict_threshold_minutes :=
    dflt (field args "conflict_threshold_minutes") (VNum 15) in
  try_ "Failed to get schedule conflicts" (
    startDate <- or_today start_date ;;
    endDate <- or_next_week end_date ;;
    includeTasks <~ toString include_tasks ;;
    thresholdMinutes <~ toString conflict_threshold_minutes ;;
    params <~ params_of [("startDate", startDate); ("endDate", endDate);
                         ("includeTasks", VStr includeTasks);
                         ("thresholdMinutes", VStr thresholdMinutes)] ;;
    conflicts <- GET ("/calendar/conflicts?" ++ params_str params) ;;
    render "getScheduleConflicts" [args; conflicts]).

(** [async bulkCalendarImport({ calendar_data, import_source,
    merge_duplicates = true, create_new_calendar = false })] *)
Definition bulkCalendarImport (args : Val) : Prog string :=
  _ <~ destructure args ;;
  let calendar_data := field args "calendar_data" in
  let import_source := field args "import_source" in
  let merge_duplicates := dflt (field args "merge_duplicates") (VBool true) in
  let create_new_calendar := dflt (field args "create_new_calendar") (VBool false) in
  try_ "Failed to bulk import calendar" (
    let importData := VObj [("calendarData", calendar_data);
                            ("importSource", import_source);
                            ("mergeDuplicates", merge_duplicates);
                            ("createNewCalendar", create_new_calendar)] in
    importResult <- makeTickTickRequest "/calendar/bulk-import" "POST" importData ;;
    render "bulkCalendarImport" [args; importResult]).

(** [async getTaskNotes({ task_id, include_replies = true, sort_order = 'newest' })] *)
Definition getTaskNotes (args : Val) : Prog string :=
  _ <~ destructure args ;;
  let task_id := field args "task_id" in
  let include_replies := dflt (field args "include_replies") (VBool true) in
  let sort_order := dflt (field args "sort_order") (VStr "newest") in
  try_ "Failed to get task notes" (
    includeReplies <~ toString include_replies ;;
    params <~ params_of [("includeReplies", VStr includeReplies);
                         ("sortOrder", sort_order)] ;;
    id <~ to_str task_id ;;
    notes <- GET ("/task/" ++ id ++ "/notes?" ++ params_str params) ;;
    render "getTaskNotes" [args; notes]).

(** [async addTaskNote({ task_id, note_content, note_type = 'comment',
    is_private = false })] *)
Definition addTaskNote (args : Val) : Prog string :=
  _ <~ destructure args ;;
  let task_id := field args "task_id" in
  let note_content := field args "note_content" in
  let note_type := dflt (field args "note_type") (VStr "comment") in
  let is_private := dflt (field args "is_private") (VBool false) in
  try_ "Failed to add task note" (
    let noteData := VObj [("content", note_content); ("type", note_type);
                          ("isPrivate", is_private)] in
    id <~ to_str task_id ;;
    newNote <- makeTickTickRequest ("/task/" ++ id ++ "/note") "POST" noteData ;;
    render "addTaskNote" [args; newNote]).

(** [async updateTaskNote({ task_id, note_id, new_content })] *)
Definition updateTaskNote (args : Val) : Prog string :=
  _ <~ destructure args ;;
  let task_id := field args "task_id" in
  let note_id := field args "note_id" in
  let new_content := field args "new_content" in
  try_ "Failed to update task note" (
    let updateData := VObj [("content", new_content)] in
    id <~ to_str task_id ;;
    note <~ to_str note_id ;;
    updatedNote <- makeTickTickRequest ("/task/" ++ id ++ "/note/" ++ note) "PUT"
                     updateData ;;
    render "updateTaskNote" [args; updatedNote]).

(** [async deleteTaskNote({ task_id, note_id })] *)
Definition deleteTaskNote (args : Val) : Prog string :=
  _ <~ destructure args ;;
  let task_id := field args "task_id" in
  let note_id := field args "note_id" in
  try_ "Failed to delete task note" (
    id <~ to_str task_id ;;
    note <~ to_str note_id ;;
    noteInfo <- makeTickTickRequest ("/task/" ++ id ++ "/note/" ++ note) "GET" VNull ;;
    id' <~ to_str task_id ;;
    note' <~ to_str note_id ;;
    _ <- makeTickTickRequest ("/task/" ++ id' ++ "/note/" ++ note') "DELETE" VNull ;;
    render "deleteTaskNote" [args; noteInfo]).

(** [async uploadTaskAttachment({ task_id, file_data, file_name, file_type,
    description })] *)
Definition uploadTaskAttachment (args : Val) : Prog string :=
  _ <~ destructure args ;;
  let task_id := field args "task_id" in
  let file_data := field args "file_data" in
  let file_name := field args "file_name" in
  let file_type := field args "file_type" in
  let description := field args "description" in
  try_ "Failed to upload task attachment" (
    let attachmentData := VObj [("fileData", file_data); ("fileName", file_name);
                                ("fileType", file_type);
                                ("description", description)] in
    id <~ to_str task_id ;;
    attachment <- makeTickTickRequest ("/task/" ++ id ++ "/attachment") "POST"
                    attachmentData ;;
    render "uploadTaskAttachment" [args; attachment]).

(** [async getTaskAttachments({ task_id, file_type_filter = 'all' })] *)
Definition getTaskAttachments (args : Val) : Prog string :=
  _ <~ destructure args ;;
  let task_id := field args "task_id" in
  let file_type_filter := dflt (field args "file_type_filter") (VStr "all") in
  try_ "Failed to get task attachments" (
    params <~ params_of [("filter", file_type_filter)] ;;
    id <~ to_str task_id ;;
    attachments <- GET ("/task/" ++ id ++ "/attachments?" ++ params_str params) ;;
    render "getTaskAttachments" [args; attachments]).

(** [async downloadTaskAttachment({ task_id, attachment_id,
    download_format = 'original' })] *)
Definition downloadTaskAttachment (args : Val) : Prog string :=
  _ <~ destructure args ;;
  let task_id := field args "task_id" in
  let attachment_id := field args "attachment_id" in
  let download_format := dflt (field args "download_format") (VStr "original") in
  try_ "Failed to download task attachment" (
    params <~ params_of [("format", download_format)] ;;
    id <~ to_str task_id ;;
    att <~ to_str attachment_id ;;
    downloadInfo <- GET ("/task/" ++ id ++ "/attachment/" ++ att ++ "/download?" ++
                         params_str params) ;;
    render "downloadTaskAttachment" [args; downloadInfo]).

(** [async deleteTaskAttachment({ task_id, attachment_id })] *)
Definition deleteTaskAttachment (args : Val) : Prog string :=
  _ <~ destructure args ;;
  let task_id := field args "task_id" in
  let attachment_id := field args "attachment_id" in
  try_ "Failed to delete task attachment" (
    id <~ to_str task_id ;;
    att <~ to_str attachment_id ;;
    attachmentInfo <- makeTickTickRequest ("/task/" ++ id ++ "/attachment/" ++ att)
                        "GET" VNull ;;
    id' <~ to_str task_id ;;
    att' <~ to_str attachment_id ;;
    _ <- makeTickTickRequest ("/task/" ++ id' ++ "/attachment/" ++ att') "DELETE"
           VNull ;;
    render "deleteTaskAttachment" [args; attachmentInfo]).

(** [async getTaskTemplates({ category, include_shared = true, sort_by = 'usage' })] *)
Definition getTaskTemplates (args : Val) : Prog string :=
  _ <~ destructure args ;;
  let category := field args "category" in
  let include_shared := dflt (field args "include_shared") (VBool true) in
  let sort_by := dflt (field args "sort_by") (VStr "usage") in
  try_ "Failed to get task templates" (
    includeShared <~ toString include_shared ;;
    p0 <~ params_of [("includeShared", VStr includeShared); ("sortBy", sort_by)] ;;
    params <~ append_if category "category" p0 ;;
    templates <- GET ("/task/templates?" ++ params_str params) ;;
    render "getTaskTemplates" [args; templates]).

(** [async createTaskTemplate({ template_name, template_description, task_data,
    category = 'general', is_shared = false })] *)
Definition createTaskTemplate (args : Val) : Prog string :=
  _ <~ destructure args ;;
  let template_name := field args "template_name" in
  let template_description := field args "template_description" in
  let task_data := field args "task_data" in
  let category := dflt (field args "category") (VStr "general") in
  let is_shared := dflt (field args "is_shared") (VBool false) in
  try_ "Failed to create task template" (
    let templateData := VObj [("name", template_name);
                              ("description", template_description);
                              ("taskStructure", task_data);
                              ("category", category); ("isShared", is_shared)] in
    newTemplate <- makeTickTickRequest "/task/template" "POST" templateData ;;
    render "createTaskTemplate" [args; newTemplate]).

(** [async updateTaskTemplate({ template_id, template_name, template_description,
    task_data, category })] *)
Definition updateTaskTemplate (args : Val) : Prog string :=
  _ <~ destructure args ;;
  let template_id := field args "template_id" in
  let template_name := field args "template_name" in
  let template_description := field args "template_description" in
  let task_data := field args "task_data" in
  let category := field args "category" in
  try_ "Failed to update task template" (
    let updateData :=
      set_if category "category" category
        (set_if task_data "taskStructure" task_data
           (set_if template_description "description" template_description
              (set_if template_name "name" template_name []))) in
    id <~ to_str template_id ;;
    updatedTemplate <- makeTickTickRequest ("/task/template/" ++ id) "PUT"
                         (VObj updateData) ;;
    render "updateTaskTemplate" [args; updatedTemplate]).

(** [async deleteTaskTemplate({ template_id })] *)
Definition deleteTaskTemplate (args : Val) : Prog string :=
  _ <~ destructure args ;;
  let template_id := field args "template_id" in
  try_ "Failed to delete task template" (
    id <~ to_str template_id ;;
    templateInfo <- makeTickTickRequest ("/task/template/" ++ id) "GET" VNull ;;
    id' <~ to_str template_id ;;
    _ <- makeTickTickRequest ("/task/template/" ++ id') "DELETE" VNull ;;
    render "deleteTaskTemplate" [args; templateInfo]).

(** [async createTaskFromTemplate({ template_id, project_id, customizations = {},
    create_multiple = 1 })] *)
Definition createTaskFromTemplate (args : Val) : Prog string :=
  _ <~ destructure args ;;
  let template_id := field args "template_id" in
  let project_id := field args "project_id" in
  let customizations := dflt (field args "customizations") (VObj []) in
  let create_multiple := dflt (field args "create_multiple") (VNum 1) in
  try_ "Failed to create task from template" (
    let creationData := VObj [("templateId", template_id); ("projectId", project_id);
                              ("customizations", customizations);
                              ("quantity", create_multiple)] in
    result <- makeTickTickRequest "/task/from-template" "POST" creationData ;;
    render "createTaskFromTemplate" [args; result]).

(** [async setRecurringTask({ task_id, recurrence_pattern })] *)
Definition setRecurringTask (args : Val) : Prog string :=
  _ <~ destructure args ;;
  let task_id := field args "task_id" in
  let recurrence_pattern := field args "recurrence_pattern" in
  try_ "Failed to set recurring task" (
    let recurrenceData := VObj [("pattern", recurrence_pattern)] in
    id <~ to_str task_id ;;
    recurringTask <- makeTickTickRequest ("/task/" ++ id ++ "/recurrence") "POST"
                       recurrenceData ;;
    render "setRecurringTask" [args; recurringTask]).

(** [async getRecurringTasks({ project_id, frequency_filter = 'all',
    status = 'active' })] *)
Definition getRecurringTasks (args : Val) : Prog string :=
  _ <~ destructure args ;;
  let project_id := field args "project_id" in
  let frequency_filter := dflt (field args "frequency_filter") (VStr "all") in
  let status := dflt (field args "status") (VStr "active") in
  try_ "Failed to get recurring tasks" (
    p0 <~ params_of [("frequencyFilter", frequency_filter); ("status", status)] ;;
    params <~ append_if project_id "projectId" p0 ;;
    recurringTasks <- GET ("/task/recurring?" ++ params_str params) ;;
    render "getRecurringTasks" [args; recurringTasks]).

(** [async pauseRecurringTask({ task_id, pause_reason, resume_date })] *)
Definition pauseRecurringTask (args : Val) : Prog string :=
  _ <~ destructure args ;;
  let task_id := field args "task_id" in
  let pause_reason := field args "pause_reason" in
  let resume_date := field args "resume_date" in
  try_ "Failed to pause recurring task" (
    let pauseData := VObj [("reason", pause_reason); ("resumeDate", resume_date)] in
    id <~ to_str task_id ;;
    pausedTask <- makeTickTickRequest ("/task/" ++ id ++ "/recurrence/pause") "PUT"
                    pauseData ;;
    render "pauseRecurringTask" [args; pausedTask]).

(** [async bulkCreateFromTemplate({ template_id, bulk_data,
    apply_template_defaults = true, notify_assignees = true })] *)
Definition bulkCreateFromTemplate (args : Val) : Prog string :=
  _ <~ destructure args ;;
  let template_id := field args "template_id" in
  let bulk_data := field args "bulk_data" in
  let apply_template_defaults := dflt (field args "apply_template_defaults") (VBool true) in
  let notify_assignees := dflt (field args "notify_assignees") (VBool true) in
  try_ "Failed to bulk create from template" (
    let bulkCreationData := VObj [("templateId", template_id); ("tasks", bulk_data);
                                  ("applyDefaults", apply_template_defaults);
                                  ("notifyAssignees", notify_assignees)] in
    result <- makeTickTickRequest "/task/bulk-from-template" "POST" bulkCreationData ;;
    render "bulkCreateFromTemplate" [args; result]).

(** [async getProductivityReport({ time_range = 'month', start_date, end_date,
    include_habits = true, include_focus = true, project_ids })] *)
Definition getProductivityReport (args : Val) : Prog string :=
  _ <~ destructure args ;;
  let time_range := dflt (field args "time_range") (VStr "month") in
  let start_date := field args "start_date" in
  let end_date := field args "end_date" in
  let include_habits := dflt (field args "include_habits") (VBool true) in
  let include_focus := dflt (field args "include_focus") (VBool true) in
  let project_ids := field args "project_ids" in
  try_ "Failed to get productivity report" (
    params <~ (let? p0 := params_of [("range", time_range); ("habits", include_habits);
                                     ("focus", include_focus)] in
               let? p1 := append_if start_date "start" p0 in
               let? p2 := append_if end_date "end" p1 in
               append_all project_ids "projects" p2) ;;
    result <- GET ("/analytics/productivity?" ++ params_str params) ;;
    render "getProductivityReport" [args; result]).

(** [async getCompletionTrends({ period = 'weekly', duration = 12, project_id,
    tag_filter, include_predictions = true })] *)
Definition getCompletionTrends (args : Val) : Prog string :=
  _ <~ destructure args ;;
  let period := dflt (field args "period") (VStr "weekly") in
  let duration := dflt (field args "duration") (VNum 12) in
  let project_id := field args "project_id" in
  let tag_filter := field args "tag_filter" in
  let include_predictions := dflt (field args "include_predictions") (VBool true) in
  try_ "Failed to get completion trends" (
    dur <~ toString duration ;;
    params <~ (let? p0 := params_of [("period", period); ("duration", VStr dur);
                                     ("predictions", include_predictions)] in
               let? p1 := append_if project_id "project" p0 in
               append_all tag_filter "tags" p1) ;;
    result <- GET ("/analytics/trends?" ++ params_str params) ;;
    render "getCompletionTrends" [args; result]).

(** [async getTimeTrackingReport({ time_period = 'month', breakdown_by = 'project',
    include_estimates = true, focus_sessions_only = false,
    export_format = 'detailed' })] *)
Definition getTimeTrackingReport (args : Val) : Prog string :=
  _ <~ destructure args ;;
  let time_period := dflt (field args "time_period") (VStr "month") in
  let breakdown_by := dflt (field args "breakdown_by") (VStr "project") in
  let include_estimates := dflt (field args "include_estimates") (VBool true) in
  let focus_sessions_only := dflt (field args "focus_sessions_only") (VBool false) in
  let export_format := dflt (field args "export_format") (VStr "detailed") in
  try_ "Failed to get time tracking report" (
    params <~ params_of [("period", time_period); ("breakdown", breakdown_by);
                         ("estimates", include_estimates);
                         ("focus_only", focus_sessions_only);
                         ("format", export_format)] ;;
    result <- GET ("/analytics/time-tracking?" ++ params_str params) ;;
    render "getTimeTrackingReport" [args; result]).

(** [async getGoalProgress({ goal_type, time_frame = 'monthly', target_metrics,
    include_recommendations = true })] *)
Definition getGoalProgress (args : Val) : Prog string :=
  _ <~ destructure args ;;
  let goal_type := field args "goal_type" in
  let time_frame := dflt (field args "time_frame") (VStr "monthly") in
  let target_metrics := field args "target_metrics" in
  let include_recommendations := dflt (field args "include_recommendations") (VBool true) in
  try_ "Failed to get goal progress" (
    params <~ (let? p0 := params_of [("type", goal_type); ("frame", time_frame);
                                     ("recommendations", include_recommendations)] in
               if truthy target_metrics
               then append_entries "target_" (spread target_metrics) p0
               else Ok p0) ;;
    result <- GET ("/analytics/goals?" ++ params_str params) ;;
    render "getGoalProgress" [args; result]).

(** [async exportAnalyticsData({ data_types = ['tasks', 'habits', 'focus_sessions'],
    date_range, format = 'json', include_metadata = true, privacy_filter = false })] *)
Definition exportAnalyticsData (args : Val) : Prog string :=
  _ <~ destructure args ;;
  let data_types := dflt (field args "data_types")
                         (VArr [VStr "tasks"; VStr "habits"; VStr "focus_sessions"]) in
  let date_range := field args "date_range" in
  let format := dflt (field args "format") (VStr "json") in
  let include_metadata := dflt (field args "include_metadata") (VBool true) in
  let privacy_filter := dflt (field args "privacy_filter") (VBool false) in
  try_ "Failed to export analytics data" (
    params <~ (let? types := join data_types "," in
               let? start_date := get date_range "start_date" in
               let? end_date := get date_range "end_date" in
               params_of [("types", VStr types); ("start", start_date);
                          ("end", end_date); ("format", format);
                          ("metadata", include_metadata);
                          ("privacy", privacy_filter)]) ;;
    result <- GET ("/analytics/export?" ++ params_str params) ;;
    render "exportAnalyticsData" [args; result]).

(** [async getWeeklySummary({ week_offset = 0, include_sections = ['tasks',
    'habits', 'focus', 'achievements'], compare_previous = true, personalization })] *)
Definition getWeeklySummary (args : Val) : Prog string :=
  _ <~ destructure args ;;
  let week_offset := dflt (field args "week_offset") (VNum 0) in
  let include_sections :=
    dflt (field args "include_sections")
         (VArr [VStr "tasks"; VStr "habits"; VStr "focus"; VStr "achievements"]) in
  let compare_previous := dflt (field args "compare_previous") (VBool true) in
  let personalization := field args "personalization" in
  try_ "Failed to get weekly summary" (
    params <~ (let? offset := toString week_offset in
               let? sections := join include_sections "," in
               let? p0 := params_of [("offset", VStr offset); ("sections", VStr sections);
                                     ("compare", compare_previous)] in
               let? tone := get_opt personalization "tone" in
               let? p1 := if truthy tone then
                            let? tone' := get personalization "tone" in
                            append p0 "tone" tone'
                          else Ok p0 in
               let? areas := get_opt personalization "focus_areas" in
               let? n := get_opt areas "length" in
               if truthy n then
                 let? areas' := get personalization "focus_areas" in
                 let? joined := join areas' "," in
                 append p1 "focus_areas" (VStr joined)
               else Ok p1) ;;
    result <- GET ("/analytics/weekly-summary?" ++ params_str params) ;;
    render "getWeeklySummary" [args; result]).

(** [async getMonthlyInsights({ month_offset = 0, insight_depth = 'detailed',
    focus_metrics = ['efficiency', 'consistency', 'goal_achievement'], benchmarking,
    action_planning = true })] *)
Definition getMonthlyInsights (args : Val) : Prog string :=
  _ <~ destructure args ;;
  let month_offset := dflt (field args "month_offset") (VNum 0) in
  let insight_depth := dflt (field args "insight_depth") (VStr "detailed") in
  let focus_metrics :=
    dflt (field args "focus_metrics")
         (VArr [VStr "efficiency"; VStr "consistency"; VStr "goal_achievement"]) in
  let benchmarking := field args "benchmarking" in
  let action_planning := dflt (field args "action_planning") (VBool true) in
  try_ "Failed to get monthly insights" (
    params <~ (let? offset := toString month_offset in
               let? metrics := join focus_metrics "," in
               let? p0 := params_of [("offset", VStr offset); ("depth", insight_depth);
                                     ("metrics", VStr metrics);
                                     ("planning", action_planning)] in
               if truthy benchmarking
               then append_entries "benchmark_" (spread benchmarking) p0
               else Ok p0) ;;
    result <- GET ("/analytics/monthly-insights?" ++ params_str params) ;;
    render "getMonthlyInsights" [args; result]).

(** [async updateUserSettings({ settings })] *)
Definition updateUserSettings (args : Val) : Prog string :=
  _ <~ destructure args ;;
  let settings := field args "settings" in
  try_ "Failed to update user settings" (
    result <- makeTickTickRequest "/user/settings" "PUT" settings ;;
    render "updateUserSettings" [args; result]).

(** [async getNotificationSettings({ category = 'all', include_disabled = false })] *)
Definition getNotificationSettings (args : Val) : Prog string :=
  _ <~ destructure args ;;
  let category := dflt (field args "category") (VStr "all") in
  let include_disabled := dflt (field args "include_disabled") (VBool false) in
  try_ "Failed to get notification settings" (
    params <~ params_of [("category", category); ("disabled", include_disabled)] ;;
    result <- GET ("/user/notifications?" ++ params_str params) ;;
    render "getNotificationSettings" [args; result]).

(** [async updateNotificationSettings({ notifications })] *)
Definition updateNotificationSettings (args : Val) : Prog string :=
  _ <~ destructure args ;;
  let notifications := field args "notifications" in
  try_ "Failed to update notification settings" (
    result <- makeTickTickRequest "/user/notifications" "PUT" notifications ;;
    render "updateNotificationSettings" [args; result]).

(** [async getSyncSettings({ include_device_list = true,
    include_sync_history = false })] *)
Definition getSyncSettings (args : Val) : Prog string :=
  _ <~ destructure args ;;
  let include_device_list := dflt (field args "include_device_list") (VBool true) in
  let include_sync_history := dflt (field args "include_sync_history") (VBool false) in
  try_ "Failed to get sync settings" (
    params <~ params_of [("devices", include_device_list);
                         ("history", include_sync_history)] ;;
    result <- GET ("/user/sync?" ++ params_str params) ;;
    render "getSyncSettings" [args; result]).

(** [async updateSyncSettings({ sync_settings })] *)
Definition updateSyncSettings (args : Val) : Prog string :=
  _ <~ destructure args ;;
  let sync_settings := field args "sync_settings" in
  try_ "Failed to update sync settings" (
    result <- makeTickTickRequest "/user/sync" "PUT" sync_settings ;;
    render "updateSyncSettings" [args; result]).

(** [async resetUserData({ reset_type, data_categories, backup_before_reset = true,
    confirmation_code, export_data_first = false })] *)
Definition resetUserData (args : Val) : Prog string :=
  _ <~ destructure args ;;
  let reset_type := field args "reset_type" in
  let data_categories := field args "data_categories" in
  let backup_before_reset := dflt (field args "backup_before_reset") (VBool true) in
  let confirmation_code := field args "confirmation_code" in
  let export_data_first := dflt (field args "export_data_first") (VBool false) in
  try_ "Failed to reset user data" (
    let resetData := VObj [("type", reset_type); ("categories", data_categories);
                           ("backup", backup_before_reset);
                           ("confirmation", confirmation_code);
                           ("export", export_data_first)] in
    result <- makeTickTickRequest "/user/reset" "POST" resetData ;;
    render "resetUserData" [args; result]).

(** *** Dispatch *)

(** The [switch (name)] of the handler: tool name and method. *)
Definition tools : list (string * (Val -> Prog string)) := [
  ("ticktick_get_projects", getProjects);
  ("ticktick_create_project", createProject);
  ("ticktick_get_tasks", getTasks);
  ("ticktick_create_task", createTask);
  ("ticktick_update_task", updateTask);
  ("ticktick_delete_task", deleteTask);
  ("ticktick_complete_task", completeTask);
  ("ticktick_get_task_details", getTaskDetails);
  ("ticktick_filter_tasks", filterTasks);
  ("ticktick_convert_datetime_to_ticktick_format", convertDatetimeToTicktickFormat);
  ("ticktick_get_tags", getTags);
  ("ticktick_create_tag", createTag);
  ("ticktick_search_tasks", searchTasks);
  ("ticktick_get_today_tasks", getTodayTasks);
  ("ticktick_get_overdue_tasks", getOverdueTasks);
  ("ticktick_get_upcoming_tasks", getUpcomingTasks);
  ("ticktick_add_tag_to_task", addTagToTask);
  ("ticktick_get_user_profile", getUserProfile);
  ("ticktick_get_habits", getHabits);
  ("ticktick_create_habit", createHabit);
  ("ticktick_update_habit", updateHabit);
  ("ticktick_delete_habit", deleteHabit);
  ("ticktick_checkin_habit", checkinHabit);
  ("ticktick_get_habit_history", getHabitHistory);
  ("ticktick_get_habit_stats", getHabitStats);
  ("ticktick_pause_habit", pauseHabit);
  ("ticktick_resume_habit", resumeHabit);
  ("ticktick_get_habit_streaks", getHabitStreaks);
  ("ticktick_bulk_checkin_habits", bulkCheckinHabits);
  ("ticktick_get_habit_calendar", getHabitCalendar);
  ("ticktick_set_habit_goal", setHabitGoal);
  ("ticktick_get_habits_summary", getHabitsSummary);
  ("ticktick_export_habit_data", exportHabitData);
  ("ticktick_update_tag", updateTag);
  ("ticktick_delete_tag", deleteTag);
  ("ticktick_remove_tag_from_task", removeTagFromTask);
  ("ticktick_get_tasks_by_tag", getTasksByTag);
  ("ticktick_get_tag_usage_stats", getTagUsageStats);
  ("ticktick_merge_tags", mergeTags);
  ("ticktick_bulk_tag_operations", bulkTagOperations);
  ("ticktick_start_focus_session", startFocusSession);
  ("ticktick_stop_focus_session", stopFocusSession);
  ("ticktick_pause_focus_session", pauseFocusSession);
  ("ticktick_resume_focus_session", resumeFocusSession);
  ("ticktick_get_focus_stats", getFocusStats);
  ("ticktick_set_task_estimate", setTaskEstimate);
  ("ticktick_get_daily_focus_summary", getDailyFocusSummary);
  ("ticktick_get_focus_history", getFocusHistory);
  ("ticktick_set_focus_goals", setFocusGoals);
  ("ticktick_get_productivity_insights", getProductivityInsights);
  ("ticktick_get_project_folders", getProjectFolders);
  ("ticktick_create_project_folder", createProjectFolder);
  ("ticktick_move_project_to_folder", moveProjectToFolder);
  ("ticktick_archive_project", archiveProject);
  ("ticktick_unarchive_project", unarchiveProject);
  ("ticktick_duplicate_project", duplicateProject);
  ("ticktick_get_project_stats", getProjectStats);
  ("ticktick_set_project_color", setProjectColor);
  ("ticktick_reorder_projects", reorderProjects);
  ("ticktick_get_project_templates", getProjectTemplates);
  ("ticktick_create_project_from_template", createProjectFromTemplate);
  ("ticktick_export_project", exportProject);
  ("ticktick_share_project", shareProject);
  ("ticktick_get_shared_projects", getSharedProjects);
  ("ticktick_invite_collaborator", inviteCollaborator);
  ("ticktick_remove_collaborator", removeCollaborator);
  ("ticktick_assign_task", assignTask);
  ("ticktick_get_task_assignees", getTaskAssignees);
  ("ticktick_add_task_comment", addTaskComment);
  ("ticktick_get_team_activity", getTeamActivity);
  ("ticktick_set_project_permissions", setProjectPermissions);
  ("ticktick_get_collaboration_stats", getCollaborationStats);
  ("ticktick_bulk_assign_tasks", bulkAssignTasks);
  ("ticktick_export_team_report", exportTeamReport);
  ("ticktick_get_calendar_events", getCalendarEvents);
  ("ticktick_create_calendar_event", createCalendarEvent);
  ("ticktick_sync_with_google_calendar", syncWithGoogleCalendar);
  ("ticktick_sync_with_outlook", syncWithOutlook);
  ("ticktick_get_calendar_view", getCalendarView);
  ("ticktick_convert_task_to_event", convertTaskToEvent);
  ("ticktick_get_schedule_conflicts", getScheduleConflicts);
  ("ticktick_bulk_calendar_import", bulkCalendarImport);
  ("ticktick_get_task_notes", getTaskNotes);
  ("ticktick_add_task_note", addTaskNote);
  ("ticktick_update_task_note", updateTaskNote);
  ("ticktick_delete_task_note", deleteTaskNote);
  ("ticktick_upload_task_attachment", uploadTaskAttachment);
  ("ticktick_get_task_attachments", getTaskAttachments);
  ("ticktick_download_task_attachment", downloadTaskAttachment);
  ("ticktick_delete_task_attachment", deleteTaskAttachment);
  ("ticktick_get_task_templates", getTaskTemplates);
  ("ticktick_create_task_template", createTaskTemplate);
  ("ticktick_update_task_template", updateTaskTemplate);
  ("ticktick_delete_task_template", deleteTaskTemplate);
  ("ticktick_create_task_from_template", createTaskFromTemplate);
  ("ticktick_set_recurring_task", setRecurringTask);
  ("ticktick_get_recurring_tasks", getRecurringTasks);
  ("ticktick_pause_recurring_task", pauseRecurringTask);
  ("ticktick_bulk_create_from_template", bulkCreateFromTemplate);
  ("ticktick_get_productivity_report", getProductivityReport);
  ("ticktick_get_completion_trends", getCompletionTrends);
  ("ticktick_get_time_tracking_report", getTimeTrackingReport);
  ("ticktick_get_goal_progress", getGoalProgress);
  ("ticktick_export_analytics_data", exportAnalyticsData);
  ("ticktick_get_weekly_summary", getWeeklySummary);
  ("ticktick_get_monthly_insights", getMonthlyInsights);
  ("ticktick_update_user_settings", updateUserSettings);
  ("ticktick_get_notification_settings", getNotificationSettings);
  ("ticktick_update_notification_settings", updateNotificationSettings);
  ("ticktick_get_sync_settings", getSyncSettings);
  ("ticktick_update_sync_settings", updateSyncSettings);
  ("ticktick_reset_user_data", resetUserData)].

Fixpoint find_tool (name : string) (l : list (string * (Val -> Prog string)))
  : option (Val -> Prog string) :=
  match l with
  | [] => None
  | (n, f) :: r => if n =? name then Some f else find_tool name r
  end.

(** [switch (name) { case ...: return await this.method(args);
                     default: throw new McpError(MethodNotFound, ...) }] *)
Definition dispatch (name : string) (args : Val) : Prog string :=
  match find_tool name tools with
  | Some f => f args
  | None => Throw (McpError MethodNotFound ("Unknown tool: " ++ name))
  end.

(** [!TICKTICK_ACCESS_TOKEN && !TICKTICK_TOKEN] *)
Definition no_credentials : bool :=
  (negb (truthy (env (TICKTICK_ACCESS_TOKEN cfg))) &&
   negb (truthy (env (TICKTICK_TOKEN cfg))))%bool.

(** The handler of [CallToolRequestSchema], applied to
    [request.params.name] and [request.params.arguments]. *)
Definition callTool (name : string) (args : Val) : Prog string :=
  if no_credentials then
    Throw (McpError InvalidRequest "TickTick credentials not properly configured")
  else
    catch (dispatch name args)
          (fun error => Throw (McpError InternalError ("Error: " ++ message error))).

End Handler.
End Server.

(** ** A runtime and worlds for the examples

    The engine of the examples parses the ISO date forms only, runs in UTC
    and prints dates the way the locale sv-SE does (year-month-day). *)
Module Example.
Import Js.

Definition digit (c : ascii) : option Z :=
  let n := N_of_ascii c in
  if ((48 <=? n) && (n <=? 57))%N%bool then Some (Z.of_N n - 48)%Z else None.

Fixpoint digits (acc : Z) (s : string) : option Z :=
  match s with
  | EmptyString => Some acc
  | String c r =>
      match digit c with
      | Some d => digits (acc * 10 + d) r
      | None => None
      end
  end.

Definition number (s : string) : option Z :=
  match s with
  | EmptyString => None
  | _ => digits 0 s
  end.

(** day number of a civil date *)
Definition days_of (y m d : Z) : Z :=
  let y' := (if m <=? 2 then y - 1 else y)%Z in
  let era := (y' / 400)%Z in
  let yoe := (y' - era * 400)%Z in
  let mp := (if m <=? 2 then m + 9 else m - 3)%Z in
  let doy := ((153 * mp + 2) / 5 + d - 1)%Z in
  let doe := (yoe * 365 + yoe / 4 - yoe / 100 + doy)%Z in
  (era * 146097 + doe - 719468)%Z.

Definition parse_day (s : string) : option Z :=
  if ((String.length s =? 10)%nat && (String.substring 4 1 s =? "-") &&
      (String.substring 7 1 s =? "-"))%bool then
    match number (String.substring 0 4 s), number (String.substring 5 2 s),
          number (String.substring 8 2 s) with
    | Some y, Some m, Some d =>
        if ((1 <=? m) && (m <=? 12) && (1 <=? d) && (d <=? 31))%Z%bool
        then Some (days_of y m d * 86400000)%Z else None
    | _, _, _ => None
    end
  else None.

Definition parse_clock (s : string) : option Z :=
  if ((String.length s =? 14)%nat && (String.substring 0 1 s =? "T") &&
      (String.substring 3 1 s =? ":") && (String.substring 6 1 s =? ":") &&
      (String.substring 9 1 s =? ".") && (String.substring 13 1 s =? "Z"))%bool then
    match number (String.substring 1 2 s), number (String.substring 4 2 s),
          number (String.substring 7 2 s), number (String.substring 10 3 s) with
    | Some h, Some mi, Some sec, Some ms =>
        if ((h <=? 23) && (mi <=? 59) && (sec <=? 59))%Z%bool
        then Some (((h * 60 + mi) * 60 + sec) * 1000 + ms)%Z else None
    | _, _, _, _ => None
    end
  else None.

(** [YYYY-MM-DD] and [YYYY-MM-DDTHH:mm:ss.sssZ] *)
Definition parse_iso (s : string) : option Z :=
  if (String.length s =? 10)%nat then parse_day s
  else match parse_day (String.substring 0 10 s),
             parse_clock (String.substring 10 14 s) with
       | Some d, Some t => if (String.length s =? 24)%nat then Some (d + t)%Z else None
       | _, _ => None
       end.

Definition ascii_lower (c : ascii) : ascii :=
  let n := N_of_ascii c in
  if ((65 <=? n) && (n <=? 90))%N%bool then ascii_of_N (n + 32) else c.

Fixpoint lower_ascii (s : string) : string :=
  match s with
  | EmptyString => EmptyString
  | String c r => String (ascii_lower c) (lower_ascii r)
  end.

Definition integer (s : string) : option Z :=
  match s with
  | EmptyString => Some 0%Z
  | String "-" r => option_map Z.opp (number r)
  | String "+" r => number r
  | _ => number s
  end.

Definition iso_clock (t : Z) : string :=
  let ms := (t mod 86400000)%Z in
  pad 2 (ms / 3600000) ++ ":" ++ pad 2 (ms / 60000 mod 60) ++ ":" ++
  pad 2 (ms / 1000 mod 60).

Definition runtime : Runtime := {|
  engine_message := fun f =>
    match f with
    | NullishDestructure => "Cannot destructure the argument as it is undefined."
    | NullishRead p => "Cannot read properties of undefined (reading '" ++ p ++ "')"
    | NotCallable p => p ++ " is not a function"
    | NoPrimitive => "Cannot convert object to primitive value"
    | InvalidTime => "Invalid time value"
    | JsonSyntax => "Unexpected end of JSON input"
    end;
  Date_parse := parse_iso;
  getFullYear := fun t => fst (fst (civil (t / 86400000)));
  toLocaleDateString := fun t => split_T_0 (iso_of_time t);
  toLocaleTimeString := iso_clock;
  toLocaleString := fun t => split_T_0 (iso_of_time t) ++ " " ++ iso_clock t;
  toLowerCase := lower_ascii;
  StringToNumber := integer
|}.

Definition config : Config :=
  {| TICKTICK_ACCESS_TOKEN := Some "secret"; TICKTICK_TOKEN := None |}.

Definition unconfigured : Config :=
  {| TICKTICK_ACCESS_TOKEN := None; TICKTICK_TOKEN := None |}.

Definition respond (code : Z) (reason body : string) (v : option Val) : Outcome :=
  Responded {| status := code; statusText := reason; text := body; json := v |}.

(** A world whose upstream gives the same answer to every request, at a
    fixed time; the templates that are not transcribed print their name. *)
Definition world (time : Z) (answer : Outcome) : World :=
  {| clock := fun _ => time;
     upstream := fun _ _ => answer;
     template := fun _ name _ => Ok ("<" ++ name ++ ">") |}.

Definition call (cfg : Config) (w : World) (name : string) (args : Val) :=
  run w (Server.callTool runtime cfg name args) 0.

End Example.


(** ** What the properties are stated with *)
Module Spec.
Import Js Server.

(** The [required] list of each tool's [inputSchema], as the handler of
    [ListToolsRequestSchema] declares it. *)
Definition required : list (string * list string) := [
  ("ticktick_get_projects", []);
  ("ticktick_create_project", ["name"]);
  ("ticktick_get_tasks", []);
  ("ticktick_create_task", ["title"]);
  ("ticktick_update_task", ["task_id"]);
  ("ticktick_delete_task", ["task_id"]);
  ("ticktick_complete_task", ["task_id"]);
  ("ticktick_get_task_details", ["task_id"]);
  ("ticktick_filter_tasks", []);
  ("ticktick_convert_datetime_to_ticktick_format", ["datetime_string"]);
  ("ticktick_get_tags", []);
  ("ticktick_create_tag", ["name"]);
  ("ticktick_search_tasks", ["query"]);
  ("ticktick_get_today_tasks", []);
  ("ticktick_get_overdue_tasks", []);
  ("ticktick_get_upcoming_tasks", []);
  ("ticktick_add_tag_to_task", ["task_id"; "tag_name"]);
  ("ticktick_get_user_profile", []);
  ("ticktick_get_habits", []);
  ("ticktick_create_habit", ["name"]);
  ("ticktick_update_habit", ["habit_id"]);
  ("ticktick_delete_habit", ["habit_id"]);
  ("ticktick_checkin_habit", ["habit_id"]);
  ("ticktick_get_habit_history", ["habit_id"]);
  ("ticktick_get_habit_stats", ["habit_id"]);
  ("ticktick_pause_habit", ["habit_id"]);
  ("ticktick_resume_habit", ["habit_id"]);
  ("ticktick_get_habit_streaks", ["habit_id"]);
  ("ticktick_bulk_checkin_habits", ["habit_ids"]);
  ("ticktick_get_habit_calendar", ["habit_id"]);
  ("ticktick_set_habit_goal", ["habit_id"; "target_count"]);
  ("ticktick_get_habits_summary", []);
  ("ticktick_export_habit_data", []);
  ("ticktick_update_tag", ["tag_id"]);
  ("ticktick_delete_tag", ["tag_id"]);
  ("ticktick_remove_tag_from_task", ["task_id"; "tag_name"]);
  ("ticktick_get_tasks_by_tag", ["tag_name"]);
  ("ticktick_get_tag_usage_stats", ["tag_id"]);
  ("ticktick_merge_tags", ["source_tag_id"; "target_tag_id"]);
  ("ticktick_bulk_tag_operations", ["operation"; "task_ids"; "tag_names"]);
  ("ticktick_start_focus_session", []);
  ("ticktick_stop_focus_session", ["session_id"]);
  ("ticktick_pause_focus_session", ["session_id"]);
  ("ticktick_resume_focus_session", ["session_id"]);
  ("ticktick_get_focus_stats", []);
  ("ticktick_set_task_estimate", ["task_id"; "estimated_minutes"]);
  ("ticktick_get_daily_focus_summary", []);
  ("ticktick_get_focus_history", []);
  ("ticktick_set_focus_goals", ["target_minutes"]);
  ("ticktick_get_productivity_insights", []);
  ("ticktick_get_project_folders", []);
  ("ticktick_create_project_folder", ["name"]);
  ("ticktick_move_project_to_folder", ["project_id"; "folder_id"]);
  ("ticktick_archive_project", ["project_id"]);
  ("ticktick_unarchive_project", ["project_id"]);
  ("ticktick_duplicate_project", ["project_id"; "new_name"]);
  ("ticktick_get_project_stats", ["project_id"]);
  ("ticktick_set_project_color", ["project_id"; "color"]);
  ("ticktick_reorder_projects", ["project_orders"]);
  ("ticktick_get_project_templates", []);
  ("ticktick_create_project_from_template", ["template_id"; "project_name"]);
  ("ticktick_export_project", ["project_id"]);
  ("ticktick_share_project", ["project_id"; "emails"]);
  ("ticktick_get_shared_projects", []);
  ("ticktick_invite_collaborator", ["project_id"; "email"]);
  ("ticktick_remove_collaborator", ["project_id"; "user_id"]);
  ("ticktick_assign_task", ["task_id"; "assignee_id"]);
  ("ticktick_get_task_assignees", ["task_id"]);
  ("ticktick_add_task_comment", ["task_id"; "comment"]);
  ("ticktick_get_team_activity", ["project_id"]);
  ("ticktick_set_project_permissions", ["project_id"; "permissions"]);
  ("ticktick_get_collaboration_stats", ["project_id"]);
  ("ticktick_bulk_assign_tasks", ["assignments"]);
  ("ticktick_export_team_report", ["project_id"]);
  ("ticktick_get_calendar_events", []);
  ("ticktick_create_calendar_event", ["title"; "start_time"; "end_time"]);
  ("ticktick_sync_with_google_calendar", ["google_calendar_id"]);
  ("ticktick_sync_with_outlook", ["outlook_calendar_id"]);
  ("ticktick_get_calendar_view", []);
  ("ticktick_convert_task_to_event", ["task_id"]);
  ("ticktick_get_schedule_conflicts", []);
  ("ticktick_bulk_calendar_import", ["calendar_data"]);
  ("ticktick_get_task_notes", ["task_id"]);
  ("ticktick_add_task_note", ["task_id"; "note_content"]);
  ("ticktick_update_task_note", ["task_id"; "note_id"; "new_content"]);
  ("ticktick_delete_task_note", ["task_id"; "note_id"]);
  ("ticktick_upload_task_attachment", ["task_id"; "file_data"; "file_name"]);
  ("ticktick_get_task_attachments", ["task_id"]);
  ("ticktick_download_task_attachment", ["task_id"; "attachment_id"]);
  ("ticktick_delete_task_attachment", ["task_id"; "attachment_id"]);
  ("ticktick_get_task_templates", []);
  ("ticktick_create_task_template", ["template_name"; "task_data"]);
  ("ticktick_update_task_template", ["template_id"]);
  ("ticktick_delete_task_template", ["template_id"]);
  ("ticktick_create_task_from_template", ["template_id"]);
  ("ticktick_set_recurring_task", ["task_id"; "recurrence_pattern"]);
  ("ticktick_get_recurring_tasks", []);
  ("ticktick_pause_recurring_task", ["task_id"]);
  ("ticktick_bulk_create_from_template", ["template_id"; "bulk_data"]);
  ("ticktick_get_productivity_report", []);
  ("ticktick_get_completion_trends", []);
  ("ticktick_get_time_tracking_report", []);
  ("ticktick_get_goal_progress", []);
  ("ticktick_export_analytics_data", ["date_range"]);
  ("ticktick_get_weekly_summary", []);
  ("ticktick_get_monthly_insights", []);
  ("ticktick_update_user_settings", ["settings"]);
  ("ticktick_get_notification_settings", []);
  ("ticktick_update_notification_settings", ["notifications"]);
  ("ticktick_get_sync_settings", []);
  ("ticktick_update_sync_settings", ["sync_settings"]);
  ("ticktick_reset_user_data", ["reset_type"])].

Fixpoint required_of (name : string) (l : list (string * list string)) : list string :=
  match l with
  | [] => []
  | (n, r) :: rest => if n =? name then r else required_of name rest
  end.

(** The tool is registered, and the arguments lack a field its schema
    requires. *)
Definition lacks_required (name : string) (args : Val) : bool :=
  existsb (fun k => is_undefined (field args k)) (required_of name required).

Definition registered (name : string) : bool :=
  existsb (fun p => fst p =? name) required.

(** A program that sends no request. *)
Definition quiet {A} (p : Prog A) : Prop :=
  forall w i, exchanges (run w p i) = [].

(** A program that sends at most [n] requests, and exactly [n] when it
    returns. *)
Definition calls {A} (n : nat) (p : Prog A) : Prop :=
  forall w i,
    (List.length (exchanges (run w p i)) <= n)%nat /\
    (is_ok (result_of (run w p i)) = true ->
     List.length (exchanges (run w p i)) = n).

(** The upstream did not answer with a 2xx status. *)
Definition failed (o : Outcome) : bool :=
  match o with
  | Rejected _ => true
  | Responded r => negb (ok r)
  end.

(** The error [makeTickTickRequest] throws for a failed exchange. *)
Definition upstream_error (o : Outcome) : JsErr :=
  match o with
  | Rejected m => FetchError m
  | Responded r => UserError (api_error r)
  end.

Definition upstream_message (o : Outcome) : string :=
  match o with
  | Rejected m => m
  | Responded r => api_error r
  end.

(** A failed exchange is the last one of the program, which ends with the
    error of that exchange. *)
Definition propagates {A} (p : Prog A) : Prop :=
  forall w i before q o after,
    exchanges (run w p i) = (before ++ (q, o) :: after)%list ->
    failed o = true ->
    after = [] /\ result_of (run w p i) = Err (upstream_error o).

(** The same for a tool method: its [catch] puts a label before the
    message. *)
Definition reports (p : Prog string) : Prop :=
  forall w i before q o after,
    exchanges (run w p i) = (before ++ (q, o) :: after)%list ->
    failed o = true ->
    after = [] /\
    exists label,
      result_of (run w p i) = Err (UserError (label ++ ": " ++ upstream_message o)).

(** [x] occurs in [s]. *)
Definition occurs (x s : string) : Prop :=
  exists a b, s = a ++ x ++ b.

(** The first request of a program is the same in every world. *)
Definition first_request_fixed {A} (p : Prog A) : Prop :=
  exists first, forall w i, hd_error (requests (run w p i)) = first.

(** The tools that read a record and write it back: two requests. *)
Definition read_then_write : list string := [
  "ticktick_add_tag_to_task"; "ticktick_update_habit"; "ticktick_update_tag";
  "ticktick_remove_tag_from_task"; "ticktick_delete_task_note";
  "ticktick_delete_task_attachment"; "ticktick_delete_task_template"].

Definition among (name : string) (l : list string) : bool :=
  existsb (String.eqb name) l.

(** Number of requests of a call that returns. *)
Definition expected_requests (name : string) : nat :=
  if among name read_then_write then 2
  else if name =? "ticktick_convert_datetime_to_ticktick_format" then 0
  else 1.

(** The tools that read the clock before their first request. *)
Definition reads_clock : list string := [
  "ticktick_get_today_tasks"; "ticktick_get_overdue_tasks";
  "ticktick_get_upcoming_tasks"; "ticktick_create_habit";
  "ticktick_checkin_habit"; "ticktick_get_habit_history";
  "ticktick_pause_habit"; "ticktick_resume_habit";
  "ticktick_bulk_checkin_habits"; "ticktick_get_habit_calendar";
  "ticktick_get_habits_summary"; "ticktick_start_focus_session";
  "ticktick_stop_focus_session"; "ticktick_pause_focus_session";
  "ticktick_resume_focus_session"; "ticktick_set_task_estimate";
  "ticktick_get_daily_focus_summary"; "ticktick_set_focus_goals";
  "ticktick_get_calendar_view"; "ticktick_get_schedule_conflicts"].



(** Does the tool, called with [{}], send the same first request (URL and
    body) on 2024-02-29 and on 2025-04-04? *)
Definition same_first (name : string) : bool :=
  let answer := Example.respond 200 "OK" "[]" (Some (VArr [])) in
  match hd_error (requests (Example.call Example.config
                              (Example.world 1709210096789 answer) name (VObj []))),
        hd_error (requests (Example.call Example.config
                              (Example.world 1743770096789 answer) name (VObj []))) with
  | Some a, Some b => ((url a =? url b) &&
                       match body a, body b with
                       | Some x, Some y => x =? y
                       | None, None => true
                       | _, _ => false
                       end)%bool
  | None, None => true
  | _, _ => false
  end.

(** The tools whose method, called with the empty object, throws before
    its first request: the date conversion sends none at all, the other
    three read a property of an argument that is undefined. *)
Definition stops_early : list string := [
  "ticktick_convert_datetime_to_ticktick_format"; "ticktick_reorder_projects";
  "ticktick_bulk_assign_tasks"; "ticktick_export_analytics_data"].

(** A program that sends nothing and returns. *)
Definition harmless {A} (p : Prog A) : Prop :=
  forall w i, exchanges (run w p i) = [] /\ is_ok (result_of (run w p i)) = true.

(** A program that sends a request in every world. *)
Definition reaches {A} (p : Prog A) : Prop :=
  forall w i, exchanges (run w p i) <> [].







End Spec.

(** ** What each tool method is written to do

    Three tables read off the methods: the HTTP verbs of the requests a
    method sends, in order; the label its [catch] puts before a message; the
    methods that take no parameter. *)
Module Api.
Import Js Server.

Definition verbs : list (string * list string) := [
  ("ticktick_get_projects", ["GET"]);
  ("ticktick_create_project", ["POST"]);
  ("ticktick_get_tasks", ["GET"]);
  ("ticktick_create_task", ["POST"]);
  ("ticktick_update_task", ["POST"]);
  ("ticktick_delete_task", ["DELETE"]);
  ("ticktick_complete_task", ["POST"]);
  ("ticktick_get_task_details", ["GET"]);
  ("ticktick_filter_tasks", ["GET"]);
  ("ticktick_convert_datetime_to_ticktick_format", []);
  ("ticktick_get_tags", ["GET"]);
  ("ticktick_create_tag", ["POST"]);
  ("ticktick_search_tasks", ["GET"]);
  ("ticktick_get_today_tasks", ["GET"]);
  ("ticktick_get_overdue_tasks", ["GET"]);
  ("ticktick_get_upcoming_tasks", ["GET"]);
  ("ticktick_add_tag_to_task", ["GET"; "PUT"]);
  ("ticktick_get_user_profile", ["GET"]);
  ("ticktick_get_habits", ["GET"]);
  ("ticktick_create_habit", ["POST"]);
  ("ticktick_update_habit", ["GET"; "PUT"]);
  ("ticktick_delete_habit", ["DELETE"]);
  ("ticktick_checkin_habit", ["POST"]);
  ("ticktick_get_habit_history", ["GET"]);
  ("ticktick_get_habit_stats", ["GET"]);
  ("ticktick_pause_habit", ["PUT"]);
  ("ticktick_resume_habit", ["PUT"]);
  ("ticktick_get_habit_streaks", ["GET"]);
  ("ticktick_bulk_checkin_habits", ["POST"]);
  ("ticktick_get_habit_calendar", ["GET"]);
  ("ticktick_set_habit_goal", ["POST"]);
  ("ticktick_get_habits_summary", ["GET"]);
  ("ticktick_export_habit_data", ["GET"]);
  ("ticktick_update_tag", ["GET"; "PUT"]);
  ("ticktick_delete_tag", ["DELETE"]);
  ("ticktick_remove_tag_from_task", ["GET"; "PUT"]);
  ("ticktick_get_tasks_by_tag", ["GET"]);
  ("ticktick_get_tag_usage_stats", ["GET"]);
  ("ticktick_merge_tags", ["POST"]);
  ("ticktick_bulk_tag_operations", ["POST"]);
  ("ticktick_start_focus_session", ["POST"]);
  ("ticktick_stop_focus_session", ["POST"]);
  ("ticktick_pause_focus_session", ["POST"]);
  ("ticktick_resume_focus_session", ["POST"]);
  ("ticktick_get_focus_stats", ["GET"]);
  ("ticktick_set_task_estimate", ["POST"]);
  ("ticktick_get_daily_focus_summary", ["GET"]);
  ("ticktick_get_focus_history", ["GET"]);
  ("ticktick_set_focus_goals", ["POST"]);
  ("ticktick_get_productivity_insights", ["GET"]);
  ("ticktick_get_project_folders", ["GET"]);
  ("ticktick_create_project_folder", ["POST"]);
  ("ticktick_move_project_to_folder", ["PUT"]);
  ("ticktick_archive_project", ["PUT"]);
  ("ticktick_unarchive_project", ["PUT"]);
  ("ticktick_duplicate_project", ["POST"]);
  ("ticktick_get_project_stats", ["GET"]);
  ("ticktick_set_project_color", ["PUT"]);
  ("ticktick_reorder_projects", ["PUT"]);
  ("ticktick_get_project_templates", ["GET"]);
  ("ticktick_create_project_from_template", ["POST"]);
  ("ticktick_export_project", ["POST"]);
  ("ticktick_share_project", ["POST"]);
  ("ticktick_get_shared_projects", ["GET"]);
  ("ticktick_invite_collaborator", ["POST"]);
  ("ticktick_remove_collaborator", ["DELETE"]);
  ("ticktick_assign_task", ["PUT"]);
  ("ticktick_get_task_assignees", ["GET"]);
  ("ticktick_add_task_comment", ["POST"]);
  ("ticktick_get_team_activity", ["GET"]);
  ("ticktick_set_project_permissions", ["PUT"]);
  ("ticktick_get_collaboration_stats", ["GET"]);
  ("ticktick_bulk_assign_tasks", ["POST"]);
  ("ticktick_export_team_report", ["POST"]);
  ("ticktick_get_calendar_events", ["GET"]);
  ("ticktick_create_calendar_event", ["POST"]);
  ("ticktick_sync_with_google_calendar", ["POST"]);
  ("ticktick_sync_with_outlook", ["POST"]);
  ("ticktick_get_calendar_view", ["GET"]);
  ("ticktick_convert_task_to_event", ["POST"]);
  ("ticktick_get_schedule_conflicts", ["GET"]);
  ("ticktick_bulk_calendar_import", ["POST"]);
  ("ticktick_get_task_notes", ["GET"]);
  ("ticktick_add_task_note", ["POST"]);
  ("ticktick_update_task_note", ["PUT"]);
  ("ticktick_delete_task_note", ["GET"; "DELETE"]);
  ("ticktick_upload_task_attachment", ["POST"]);
  ("ticktick_get_task_attachments", ["GET"]);
  ("ticktick_download_task_attachment", ["GET"]);
  ("ticktick_delete_task_attachment", ["GET"; "DELETE"]);
  ("ticktick_get_task_templates", ["GET"]);
  ("ticktick_create_task_template", ["POST"]);
  ("ticktick_update_task_template", ["PUT"]);
  ("ticktick_delete_task_template", ["GET"; "DELETE"]);
  ("ticktick_create_task_from_template", ["POST"]);
  ("ticktick_set_recurring_task", ["POST"]);
  ("ticktick_get_recurring_tasks", ["GET"]);
  ("ticktick_pause_recurring_task", ["PUT"]);
  ("ticktick_bulk_create_from_template", ["POST"]);
  ("ticktick_get_productivity_report", ["GET"]);
  ("ticktick_get_completion_trends", ["GET"]);
  ("ticktick_get_time_tracking_report", ["GET"]);
  ("ticktick_get_goal_progress", ["GET"]);
  ("ticktick_export_analytics_data", ["GET"]);
  ("ticktick_get_weekly_summary", ["GET"]);
  ("ticktick_get_monthly_insights", ["GET"]);
  ("ticktick_update_user_settings", ["PUT"]);
  ("ticktick_get_notification_settings", ["GET"]);
  ("ticktick_update_notification_settings", ["PUT"]);
  ("ticktick_get_sync_settings", ["GET"]);
  ("ticktick_update_sync_settings", ["PUT"]);
  ("ticktick_reset_user_data", ["POST"])].

Definition labels : list (string * string) := [
  ("ticktick_get_projects", "Failed to get projects");
  ("ticktick_create_project", "Failed to create project");
  ("ticktick_get_tasks", "Failed to get tasks");
  ("ticktick_create_task", "Failed to create task");
  ("ticktick_update_task", "Failed to update task");
  ("ticktick_delete_task", "Failed to delete task");
  ("ticktick_complete_task", "Failed to complete task");
  ("ticktick_get_task_details", "Failed to get task details");
  ("ticktick_filter_tasks", "Failed to filter tasks");
  ("ticktick_convert_datetime_to_ticktick_format", "Failed to convert datetime");
  ("ticktick_get_tags", "Failed to get tags");
  ("ticktick_create_tag", "Failed to create tag");
  ("ticktick_search_tasks", "Failed to search tasks");
  ("ticktick_get_today_tasks", "Failed to get today's tasks");
  ("ticktick_get_overdue_tasks", "Failed to get overdue tasks");
  ("ticktick_get_upcoming_tasks", "Failed to get upcoming tasks");
  ("ticktick_add_tag_to_task", "Failed to add tag to task");
  ("ticktick_get_user_profile", "Failed to get user profile");
  ("ticktick_get_habits", "Failed to get habits");
  ("ticktick_create_habit", "Failed to create habit");
  ("ticktick_update_habit", "Failed to update habit");
  ("ticktick_delete_habit", "Failed to delete habit");
  ("ticktick_checkin_habit", "Failed to check in habit");
  ("ticktick_get_habit_history", "Failed to get habit history");
  ("ticktick_get_habit_stats", "Failed to get habit stats");
  ("ticktick_pause_habit", "Failed to pause habit");
  ("ticktick_resume_habit", "Failed to resume habit");
  ("ticktick_get_habit_streaks", "Failed to get habit streaks");
  ("ticktick_bulk_checkin_habits", "Failed to bulk check-in habits");
  ("ticktick_get_habit_calendar", "Failed to get habit calendar");
  ("ticktick_set_habit_goal", "Failed to set habit goal");
  ("ticktick_get_habits_summary", "Failed to get habits summary");
  ("ticktick_export_habit_data", "Failed to export habit data");
  ("ticktick_update_tag", "Failed to update tag");
  ("ticktick_delete_tag", "Failed to delete tag");
  ("ticktick_remove_tag_from_task", "Failed to remove tag from task");
  ("ticktick_get_tasks_by_tag", "Failed to get tasks by tag");
  ("ticktick_get_tag_usage_stats", "Failed to get tag usage stats");
  ("ticktick_merge_tags", "Failed to merge tags");
  ("ticktick_bulk_tag_operations", "Failed to perform bulk tag operations");
  ("ticktick_start_focus_session", "Failed to start focus session");
  ("ticktick_stop_focus_session", "Failed to stop focus session");
  ("ticktick_pause_focus_session", "Failed to pause focus session");
  ("ticktick_resume_focus_session", "Failed to resume focus session");
  ("ticktick_get_focus_stats", "Failed to get focus stats");
  ("ticktick_set_task_estimate", "Failed to set task estimate");
  ("ticktick_get_daily_focus_summary", "Failed to get daily focus summary");
  ("ticktick_get_focus_history", "Failed to get focus history");
  ("ticktick_set_focus_goals", "Failed to set focus goals");
  ("ticktick_get_productivity_insights", "Failed to get productivity insights");
  ("ticktick_get_project_folders", "Failed to get project folders");
  ("ticktick_create_project_folder", "Failed to create project folder");
  ("ticktick_move_project_to_folder", "Failed to move project to folder");
  ("ticktick_archive_project", "Failed to archive project");
  ("ticktick_unarchive_project", "Failed to unarchive project");
  ("ticktick_duplicate_project", "Failed to duplicate project");
  ("ticktick_get_project_stats", "Failed to get project stats");
  ("ticktick_set_project_color", "Failed to set project color");
  ("ticktick_reorder_projects", "Failed to reorder projects");
  ("ticktick_get_project_templates", "Failed to get project templates");
  ("ticktick_create_project_from_template", "Failed to create project from template");
  ("ticktick_export_project", "Failed to export project");
  ("ticktick_share_project", "Failed to share project");
  ("ticktick_get_shared_projects", "Failed to get shared projects");
  ("ticktick_invite_collaborator", "Failed to invite collaborator");
  ("ticktick_remove_collaborator", "Failed to remove collaborator");
  ("ticktick_assign_task", "Failed to assign task");
  ("ticktick_get_task_assignees", "Failed to get task assignees");
  ("ticktick_add_task_comment", "Failed to add task comment");
  ("ticktick_get_team_activity", "Failed to get team activity");
  ("ticktick_set_project_permissions", "Failed to set project permissions");
  ("ticktick_get_collaboration_stats", "Failed to get collaboration stats");
  ("ticktick_bulk_assign_tasks", "Failed to bulk assign tasks");
  ("ticktick_export_team_report", "Failed to export team report");
  ("ticktick_get_calendar_events", "Failed to get calendar events");
  ("ticktick_create_calendar_event", "Failed to create calendar event");
  ("ticktick_sync_with_google_calendar", "Failed to sync with Google Calendar");
  ("ticktick_sync_with_outlook", "Failed to sync with Outlook");
  ("ticktick_get_calendar_view", "Failed to get calendar view");
  ("ticktick_convert_task_to_event", "Failed to convert task to event");
  ("ticktick_get_schedule_conflicts", "Failed to get schedule conflicts");
  ("ticktick_bulk_calendar_import", "Failed to bulk import calendar");
  ("ticktick_get_task_notes", "Failed to get task notes");
  ("ticktick_add_task_note", "Failed to add task note");
  ("ticktick_update_task_note", "Failed to update task note");
  ("ticktick_delete_task_note", "Failed to delete task note");
  ("ticktick_upload_task_attachment", "Failed to upload task attachment");
  ("ticktick_get_task_attachments", "Failed to get task attachments");
  ("ticktick_download_task_attachment", "Failed to download task attachment");
  ("ticktick_delete_task_attachment", "Failed to delete task attachment");
  ("ticktick_get_task_templates", "Failed to get task templates");
  ("ticktick_create_task_template", "Failed to create task template");
  ("ticktick_update_task_template", "Failed to update task template");
  ("ticktick_delete_task_template", "Failed to delete task template");
  ("ticktick_create_task_from_template", "Failed to create task from template");
  ("ticktick_set_recurring_task", "Failed to set recurring task");
  ("ticktick_get_recurring_tasks", "Failed to get recurring tasks");
  ("ticktick_pause_recurring_task", "Failed to pause recurring task");
  ("ticktick_bulk_create_from_template", "Failed to bulk create from template");
  ("ticktick_get_productivity_report", "Failed to get productivity report");
  ("ticktick_get_completion_trends", "Failed to get completion trends");
  ("ticktick_get_time_tracking_report", "Failed to get time tracking report");
  ("ticktick_get_goal_progress", "Failed to get goal progress");
  ("ticktick_export_analytics_data", "Failed to export analytics data");
  ("ticktick_get_weekly_summary", "Failed to get weekly summary");
  ("ticktick_get_monthly_insights", "Failed to get monthly insights");
  ("ticktick_update_user_settings", "Failed to update user settings");
  ("ticktick_get_notification_settings", "Failed to get notification settings");
  ("ticktick_update_notification_settings", "Failed to update notification settings");
  ("ticktick_get_sync_settings", "Failed to get sync settings");
  ("ticktick_update_sync_settings", "Failed to update sync settings");
  ("ticktick_reset_user_data", "Failed to reset user data")].

(** [getTags()], [getUserProfile()], [getProjectFolders()] and
    [getProjectTemplates()] bind no parameter. *)
Definition bare : list string := [
  "ticktick_get_tags"; "ticktick_get_user_profile";
  "ticktick_get_project_folders"; "ticktick_get_project_templates"].

(** The tools whose method sends a DELETE. *)
Definition deleting : list string := [
  "ticktick_delete_task"; "ticktick_delete_habit"; "ticktick_delete_tag";
  "ticktick_remove_collaborator"; "ticktick_delete_task_note";
  "ticktick_delete_task_attachment"; "ticktick_delete_task_template"].

Fixpoint assoc {B} (d : B) (name : string) (l : list (string * B)) : B :=
  match l with
  | [] => d
  | (n, b) :: r => if n =? name then b else assoc d name r
  end.

Definition verbs_of (name : string) : list string := assoc [] name verbs.
Definition label_of (name : string) : string := assoc "" name labels.

(** Every request of the program was built by [makeTickTickRequest]. *)
Definition via_api (cfg : Config) {A} (p : Prog A) : Prop :=
  forall w i q, In q (requests (run w p i)) ->
    exists endpoint meth data, q = request_for cfg endpoint meth data.

(** The verbs of the requests of the program are the first of [vs], and all
    of [vs] when the program returns. *)
Definition sends {A} (vs : list string) (p : Prog A) : Prop :=
  forall w i,
    (exists rest, vs = (map method (requests (run w p i)) ++ rest)%list) /\
    (is_ok (result_of (run w p i)) = true ->
     map method (requests (run w p i)) = vs).

(** An error of the program is an [Error] whose message starts with
    [label]. *)
Definition labelled {A} (label : string) (p : Prog A) : Prop :=
  forall w i e, result_of (run w p i) = Err e ->
    exists cause, e = UserError (label ++ ": " ++ cause).

End Api.

(** * Properties of the handler *)

Unset Implicit Arguments.
Import Js Server Spec Example.

(** ** The interpreter and the combinators *)

Lemma run_bind A B (w : World) (p : Prog A) (f : A -> Prog B) i :
  run w (bind p f) i =
  match run w p i with
  | (Ok a, l, j) => let '(r, l', j') := run w (f a) j in (r, (l ++ l')%list, j')
  | (Err e, l, j) => (Err e, l, j)
  end.
Proof.
  revert i. induction p as [a | e | k IH | q k IH | t ins k IH]; intros i; cbn.
  - destruct (run w (f a) i) as [[r l] j]. reflexivity.
  - reflexivity.
  - apply IH.
  - rewrite IH. destruct (run w (k (upstream w i q)) (S i)) as [[[a | e] l] j].
    + destruct (run w (f a) j) as [[r l'] j']. reflexivity.
    + reflexivity.
  - apply IH.
Qed.

Lemma run_catch A (w : World) (p : Prog A) (g : JsErr -> JsErr) i :
  run w (catch p (fun e => Throw (g e))) i =
  match run w p i with
  | (Ok a, l, j) => (Ok a, l, j)
  | (Err e, l, j) => (Err (g e), l, j)
  end.
Proof.
  revert i. induction p as [a | e | k IH | q k IH | t ins k IH]; intros i; cbn.
  - reflexivity.
  - reflexivity.
  - apply IH.
  - rewrite IH.
    destruct (run w (k (upstream w i q)) (S i)) as [[[a | e] l] j]; reflexivity.
  - apply IH.
Qed.

Section Combinators.
Variable R : Runtime.
Variable cfg : Config.

(** *** Programs without requests *)

Lemma quiet_ret A (a : A) : quiet (Ret a).
Proof. intros w i. reflexivity. Qed.

Lemma quiet_throw A (e : JsErr) : quiet (@Throw A e).
Proof. intros w i. reflexivity. Qed.

Lemma quiet_lift A (r : Result A) : quiet (lift r).
Proof. destruct r; [apply quiet_ret | apply quiet_throw]. Qed.

Lemma quiet_now : quiet now.
Proof. intros w i. reflexivity. Qed.

Lemma quiet_render t ins : quiet (render t ins).
Proof. intros w i. cbn. destruct (template w i t ins); reflexivity. Qed.

Lemma quiet_bind A B (m : Prog A) (k : A -> Prog B) :
  quiet m -> (forall a, quiet (k a)) -> quiet (bind m k).
Proof.
  intros Hm Hk w i. rewrite run_bind. specialize (Hm w i).
  destruct (run w m i) as [[[a | e] l] j]; cbn in Hm; subst l.
  - specialize (Hk a w j). destruct (run w (k a) j) as [[r l'] j']. exact Hk.
  - reflexivity.
Qed.

Lemma quiet_mapP B (f : Val -> Prog B) (l : list Val) :
  (forall x, quiet (f x)) -> quiet (mapP f l).
Proof.
  intros Hf. induction l as [| x r IH]; cbn.
  - apply quiet_ret.
  - apply quiet_bind; [apply Hf |]. intros y.
    apply quiet_bind; [exact IH |]. intros r'. apply quiet_ret.
Qed.

(** *** Counting requests *)

Lemma calls_quiet A (p : Prog A) : quiet p -> calls 0 p.
Proof. intros Hp w i. rewrite (Hp w i). cbn. split; [lia | reflexivity]. Qed.

Lemma calls_throw A n (e : JsErr) : calls n (@Throw A e).
Proof. intros w i. cbn. split; [lia | discriminate]. Qed.

Lemma calls_bind_quiet A B n (m : Prog A) (k : A -> Prog B) :
  quiet m -> (forall a, calls n (k a)) -> calls n (bind m k).
Proof.
  intros Hm Hk w i. rewrite run_bind. specialize (Hm w i).
  destruct (run w m i) as [[[a | e] l] j]; cbn in Hm; subst l.
  - specialize (Hk a w j). destruct (run w (k a) j) as [[r l'] j']. exact Hk.
  - cbn. split; [lia | discriminate].
Qed.

Lemma calls_request A n endpoint meth data (k : Val -> Prog A) :
  (forall v, calls n (k v)) ->
  calls (S n) (bind (makeTickTickRequest cfg endpoint meth data) k).
Proof.
  intros Hk w i. unfold makeTickTickRequest. cbn.
  destruct (upstream w i _) as [m | r]; cbn.
  - split; [lia | discriminate].
  - destruct (ok r); [destruct (json r) as [v |] |]; cbn.
    + specialize (Hk v w (S i)).
      destruct (run w (k v) (S i)) as [[res l] j]. cbn in *. destruct Hk as [H1 H2].
      split; [lia |]. intros H. f_equal. auto.
    + split; [lia | discriminate].
    + split; [lia | discriminate].
Qed.

Lemma calls_catch A n (p : Prog A) (g : JsErr -> JsErr) :
  calls n p -> calls n (catch p (fun e => Throw (g e))).
Proof.
  intros Hp w i. rewrite run_catch. specialize (Hp w i).
  destruct (run w p i) as [[[a | e] l] j]; cbn in *.
  - exact Hp.
  - split; [apply Hp | discriminate].
Qed.

(** *** A failed exchange ends the call *)

Lemma propagates_quiet A (p : Prog A) : quiet p -> propagates p.
Proof.
  intros Hp w i before q o after H. rewrite (Hp w i) in H.
  destruct before; discriminate.
Qed.

Lemma propagates_bind_quiet A B (m : Prog A) (k : A -> Prog B) :
  quiet m -> (forall a, propagates (k a)) -> propagates (bind m k).
Proof.
  intros Hm Hk w i before q o after. rewrite run_bind. specialize (Hm w i).
  destruct (run w m i) as [[[a | e] l] j]; cbn in Hm; subst l.
  - specialize (Hk a w j before q o after).
    destruct (run w (k a) j) as [[r l'] j']. exact Hk.
  - cbn. intros H. destruct before; discriminate.
Qed.

Lemma propagates_request A endpoint meth data (k : Val -> Prog A) :
  (forall v, propagates (k v)) ->
  propagates (bind (makeTickTickRequest cfg endpoint meth data) k).
Proof.
  intros Hk w i before q o after. unfold makeTickTickRequest. cbn.
  set (q0 := request_for cfg endpoint meth data).
  destruct (upstream w i q0) as [m | r] eqn:Ho; cbn.
  - intros H Hf. destruct before as [| b before]; cbn in H.
    + inversion H; subst. split; reflexivity.
    + inversion H as [[H1 H2]]. destruct before; discriminate.
  - destruct (ok r) eqn:Hok; [destruct (json r) as [v |] |]; cbn.
    + specialize (Hk v w (S i)).
      destruct (run w (k v) (S i)) as [[res l] j]. cbn in *.
      intros H Hf. destruct before as [| b before]; cbn in H.
      * inversion H; subst. cbn in Hf. rewrite Hok in Hf. discriminate.
      * inversion H as [[H1 H2]]. exact (Hk before q o after H2 Hf).
    + intros H Hf. destruct before as [| b before]; cbn in H.
      * inversion H; subst. cbn in Hf. rewrite Hok in Hf. discriminate.
      * inversion H as [[H1 H2]]. destruct before; discriminate.
    + intros H Hf. destruct before as [| b before]; cbn in H.
      * inversion H; subst. split; reflexivity.
      * inversion H as [[H1 H2]]. destruct before; discriminate.
Qed.

Lemma message_upstream_error o : message R (upstream_error o) = upstream_message o.
Proof. destruct o; reflexivity. Qed.

Lemma reports_try label (p : Prog string) :
  propagates p -> reports (try_ R label p).
Proof.
  intros Hp w i before q o after. unfold try_. rewrite run_catch.
  specialize (Hp w i before q o after).
  destruct (run w p i) as [[[a | e] l] j]; cbn in *; intros H Hf;
    destruct (Hp H Hf) as [H1 H2]; try discriminate.
  split; [exact H1 |]. exists label. inversion H2; subst.
  rewrite message_upstream_error. reflexivity.
Qed.

Lemma reports_bind_quiet A (m : Prog A) (k : A -> Prog string) :
  quiet m -> (forall a, reports (k a)) -> reports (bind m k).
Proof.
  intros Hm Hk w i before q o after. rewrite run_bind. specialize (Hm w i).
  destruct (run w m i) as [[[a | e] l] j]; cbn in Hm; subst l.
  - specialize (Hk a w j before q o after).
    destruct (run w (k a) j) as [[r l'] j']. exact Hk.
  - cbn. intros H. destruct before; discriminate.
Qed.

(** *** The first request *)

Lemma fixed_throw A (e : JsErr) : first_request_fixed (@Throw A e).
Proof. exists None. reflexivity. Qed.

Lemma fixed_ret A (a : A) : first_request_fixed (Ret a).
Proof. exists None. reflexivity. Qed.

Lemma fixed_lift A (r : Result A) : first_request_fixed (lift r).
Proof. destruct r; [apply fixed_ret | apply fixed_throw]. Qed.

Lemma fixed_bind_lift A B (r : Result A) (k : A -> Prog B) :
  (forall a, first_request_fixed (k a)) -> first_request_fixed (bind (lift r) k).
Proof. intros Hk. destruct r as [a | e]; cbn; [apply Hk | apply fixed_throw]. Qed.

Lemma fixed_request A endpoint meth data (k : Val -> Prog A) :
  first_request_fixed (bind (makeTickTickRequest cfg endpoint meth data) k).
Proof.
  exists (Some (request_for cfg endpoint meth data)). intros w i.
  unfold makeTickTickRequest, requests, exchanges. cbn.
  destruct (run w _ (S i)) as [[r l] j]. reflexivity.
Qed.

Lemma fixed_catch A (p : Prog A) (g : JsErr -> JsErr) :
  first_request_fixed p -> first_request_fixed (catch p (fun e => Throw (g e))).
Proof.
  intros [first H]. exists first. intros w i. rewrite run_catch. specialize (H w i).
  destruct (run w p i) as [[[a | e] l] j]; exact H.
Qed.

(** *** Requests and results of a call, step by step *)

Lemma requests_catch A (w : World) (p : Prog A) (g : JsErr -> JsErr) i :
  requests (run w (catch p (fun e => Throw (g e))) i) = requests (run w p i).
Proof.
  rewrite run_catch. destruct (run w p i) as [[[a | e] l] j]; reflexivity.
Qed.

Lemma requests_bind_lift A B (w : World) (r : Result A) (k : A -> Prog B) i :
  requests (run w (bind (lift r) k) i) =
  match r with Ok a => requests (run w (k a) i) | Err _ => [] end.
Proof. destruct r; reflexivity. Qed.

Lemma requests_destructure A (w : World) args (k : unit -> Prog A) i :
  requests (run w (bind (lift (destructure args)) k) i) =
  match destructure args with
  | Ok _ => requests (run w (k tt) i)
  | Err _ => []
  end.
Proof.
  rewrite requests_bind_lift. destruct (destructure args) as [[] |]; reflexivity.
Qed.

Lemma requests_request A (w : World) endpoint meth data (k : Val -> Prog A) i :
  (forall v, quiet (k v)) ->
  requests (run w (bind (makeTickTickRequest cfg endpoint meth data) k) i) =
  [request_for cfg endpoint meth data].
Proof.
  intros Hk. unfold makeTickTickRequest, requests, exchanges. cbn.
  set (q := request_for cfg endpoint meth data).
  destruct (upstream w i q) as [m | r]; cbn; [reflexivity |].
  destruct (ok r); [destruct (json r) as [v |] |]; cbn; try reflexivity.
  specialize (Hk v w (S i)). unfold exchanges in Hk.
  destruct (run w (k v) (S i)) as [[res l] j]. cbn in *. now subst l.
Qed.

Lemma result_catch A (w : World) (p : Prog A) (g : JsErr -> JsErr) i t :
  result_of (run w (catch p (fun e => Throw (g e))) i) = Ok t ->
  result_of (run w p i) = Ok t.
Proof.
  rewrite run_catch. destruct (run w p i) as [[[a | e] l] j]; cbn; congruence.
Qed.

Lemma result_bind_lift A B (w : World) (r : Result A) (k : A -> Prog B) i t :
  result_of (run w (bind (lift r) k) i) = Ok t ->
  exists a, r = Ok a /\ result_of (run w (k a) i) = Ok t.
Proof. destruct r as [a | e]; cbn; [eauto | discriminate]. Qed.

Lemma result_request_lift A (w : World) endpoint meth data (F : Val -> Result A) i t :
  result_of (run w (bind (makeTickTickRequest cfg endpoint meth data)
                         (fun v => lift (F v))) i) = Ok t ->
  exists v, F v = Ok t.
Proof.
  unfold makeTickTickRequest, result_of. cbn.
  destruct (upstream w i _) as [m | r]; cbn; [discriminate |].
  destruct (ok r); [destruct (json r) as [v |] |]; cbn; try discriminate.
  destruct (F v) as [a | e] eqn:E; cbn; [| discriminate].
  intros H. exists v. congruence.
Qed.

End Combinators.

(** ** Every tool method *)

Ltac head_of t :=
  lazymatch t with
  | ?f _ => head_of f
  | _ => t
  end.

Ltac unfold_tool :=
  lazymatch goal with
  | |- calls _ ?t => let h := head_of t in unfold h
  | |- reports ?t => let h := head_of t in unfold h
  | |- first_request_fixed ?t => let h := head_of t in unfold h
  end; unfold GET.

Ltac quiet_tac :=
  repeat first
    [ apply quiet_ret | apply quiet_throw | apply quiet_lift | apply quiet_now
    | apply quiet_render
    | apply quiet_mapP; intros
    | apply quiet_bind; [| intros]
    | match goal with |- quiet (if ?c then _ else _) => destruct c end
    | progress cbv beta zeta
    | progress unfold isoNow, isoToday, or_today, or_next_week ].

Ltac calls_tac :=
  repeat first
    [ apply calls_request; intros
    | apply calls_bind_quiet; [solve [quiet_tac] | intros]
    | apply calls_catch
    | progress unfold try_
    | apply calls_throw
    | apply calls_quiet; solve [quiet_tac]
    | progress cbv beta zeta ].

Ltac propagates_tac :=
  repeat first
    [ apply propagates_request; intros
    | apply propagates_bind_quiet; [solve [quiet_tac] | intros]
    | apply propagates_quiet; solve [quiet_tac]
    | progress cbv beta zeta ].

Ltac reports_tac :=
  repeat first
    [ apply reports_bind_quiet; [solve [quiet_tac] | intros]
    | apply reports_try; solve [propagates_tac]
    | progress cbv beta zeta ].

Ltac fixed_tac :=
  repeat first
    [ apply fixed_request
    | apply fixed_bind_lift; intros
    | apply fixed_catch
    | progress unfold try_
    | apply fixed_lift | apply fixed_throw | apply fixed_ret
    | progress cbv beta zeta ].

Ltac each_tool tac :=
  unfold tools;
  repeat (apply Forall_cons; [cbn [fst snd]; tac |]);
  apply Forall_nil.

Ltac steps H :=
  repeat match type of H with
         | rbind ?r _ = Ok _ =>
             let E := fresh "E" in
             destruct r eqn:E; cbn [rbind] in H; [| discriminate H]
         end.

Section Tools.
Variable R : Runtime.
Variable cfg : Config.

Lemma find_tool_In name l f : find_tool name l = Some f -> In (name, f) l.
Proof.
  induction l as [| [n g] r IH]; cbn; [discriminate |].
  destruct (String.eqb_spec n name) as [-> | _].
  - intros H. inversion H. left. reflexivity.
  - intros H. right. auto.
Qed.

Lemma find_tool_none name (l : list (string * (Val -> Prog string))) :
  existsb (fun n => n =? name) (map fst l) = false -> find_tool name l = None.
Proof.
  induction l as [| [n f] r IH]; cbn; [reflexivity |].
  destruct (n =? name); [discriminate | exact IH].
Qed.

(** The names of the dispatch are the names the tool list declares. *)
Lemma names_agree : map fst (tools R cfg) = map fst required.
Proof. reflexivity. Qed.

Lemma tools_count : List.length (tools R cfg) = 112%nat.
Proof. reflexivity. Qed.

Lemma unregistered_not_found name :
  registered name = false -> find_tool name (tools R cfg) = None.
Proof.
  intros H. apply find_tool_none. rewrite names_agree.
  unfold registered in H. rewrite <- H. clear H.
  induction required as [| [n r] l IH]; cbn; [reflexivity |]. now rewrite IH.
Qed.

Lemma tools_calls :
  Forall (fun nf => forall args, calls (expected_requests (fst nf)) (snd nf args))
         (tools R cfg).
Proof.
  each_tool ltac:(intros args;
    match goal with |- calls ?n _ =>
      let n' := eval vm_compute in n in change n with n' end;
    unfold_tool; solve [calls_tac]).
Qed.

Lemma tools_report :
  Forall (fun nf => forall args, reports (snd nf args)) (tools R cfg).
Proof.
  each_tool ltac:(intros args; unfold_tool; solve [reports_tac]).
Qed.

Lemma tools_first_request :
  Forall (fun nf => among (fst nf) reads_clock = false ->
                    forall args, first_request_fixed (snd nf args))
         (tools R cfg).
Proof.
  each_tool ltac:(intros H args;
    first [ discriminate H | unfold_tool; solve [fixed_tac] ]).
Qed.

(** Each tool of [reads_clock] does send another request at another time. *)
Lemma reads_clock_differ : forallb (fun n => negb (same_first n)) reads_clock = true.
Proof. vm_compute. reflexivity. Qed.

End Tools.

(** ** The handler *)

Section Handler.
Variable R : Runtime.
Variable cfg : Config.

Lemma no_credentials_unset :
  TICKTICK_ACCESS_TOKEN cfg = None -> TICKTICK_TOKEN cfg = None ->
  no_credentials cfg = true.
Proof. intros H1 H2. unfold no_credentials. rewrite H1, H2. reflexivity. Qed.

Lemma callTool_calls name args :
  calls (expected_requests name) (callTool R cfg name args).
Proof.
  unfold callTool. destruct (no_credentials cfg); [apply calls_throw |].
  apply calls_catch. unfold dispatch.
  destruct (find_tool name (tools R cfg)) as [f |] eqn:E; [| apply calls_throw].
  apply find_tool_In in E.
  exact (proj1 (Forall_forall _ _) (tools_calls R cfg) _ E args).
Qed.

Lemma dispatch_reports name args : reports (dispatch R cfg name args).
Proof.
  unfold dispatch.
  destruct (find_tool name (tools R cfg)) as [f |] eqn:E.
  - apply find_tool_In in E.
    exact (proj1 (Forall_forall _ _) (tools_report R cfg) _ E args).
  - intros w i before q o after H. destruct before; discriminate.
Qed.

Lemma callTool_fixed name args :
  among name reads_clock = false ->
  first_request_fixed (callTool R cfg name args).
Proof.
  intros Hn. unfold callTool. destruct (no_credentials cfg); [apply fixed_throw |].
  apply fixed_catch. unfold dispatch.
  destruct (find_tool name (tools R cfg)) as [f |] eqn:E; [| apply fixed_throw].
  apply find_tool_In in E.
  exact (proj1 (Forall_forall _ _) (tools_first_request R cfg) _ E Hn args).
Qed.

(** With a credential, a call returns a text or fails with [InternalError]. *)
Lemma callTool_result w i name args :
  no_credentials cfg = false ->
  (exists text, result_of (run w (callTool R cfg name args) i) = Ok text) \/
  (exists m, result_of (run w (callTool R cfg name args) i) =
             Err (McpError InternalError m)).
Proof.
  intros Hc. unfold callTool. rewrite Hc. rewrite run_catch.
  destruct (run w (dispatch R cfg name args) i) as [[[a | e] l] j]; cbn; eauto.
Qed.

End Handler.

(** ** The requests of the task tools *)

Section TaskRequests.
Variable R : Runtime.
Variable cfg : Config.
Hypothesis credentials : no_credentials cfg = false.

Lemma getTasks_requests w i args :
  requests (run w (callTool R cfg "ticktick_get_tasks" args) i) =
  match destructure args,
        getTasks_endpoint (field args "project_id") (field args "completed")
                          (dflt (field args "limit") (VNum 50)) with
  | Ok _, Ok endpoint => [request_for cfg endpoint "GET" VNull]
  | _, _ => []
  end.
Proof.
  unfold callTool. rewrite credentials, requests_catch.
  change (dispatch R cfg "ticktick_get_tasks" args) with (getTasks R cfg args).
  unfold getTasks, try_, GET. rewrite requests_destructure.
  destruct (destructure args); [| reflexivity]. cbv zeta.
  rewrite requests_catch, requests_bind_lift.
  destruct (getTasks_endpoint _ _ _); [| reflexivity].
  apply requests_request. intros v. quiet_tac.
Qed.

Lemma createTask_requests w i args :
  requests (run w (callTool R cfg "ticktick_create_task" args) i) =
  match destructure args,
        createTask_data R (field args "title") (field args "content")
                        (field args "project_id")
                        (dflt (field args "priority") (VNum 0))
                        (field args "due_date") (field args "tags") with
  | Ok _, Ok data => [request_for cfg "/task" "POST" data]
  | _, _ => []
  end.
Proof.
  unfold callTool. rewrite credentials, requests_catch.
  change (dispatch R cfg "ticktick_create_task" args) with (createTask R cfg args).
  unfold createTask, try_. rewrite requests_destructure.
  destruct (destructure args); [| reflexivity]. cbv zeta.
  rewrite requests_catch, requests_bind_lift.
  destruct (createTask_data _ _ _ _ _ _ _); [| reflexivity].
  apply requests_request. intros v. quiet_tac.
Qed.

Lemma updateTask_requests w i args :
  requests (run w (callTool R cfg "ticktick_update_task" args) i) =
  match destructure args,
        updateTask_data R (field args "title") (field args "content")
                        (field args "priority") (field args "due_date")
                        (field args "completed"),
        to_str (field args "task_id") with
  | Ok _, Ok data, Ok id => [request_for cfg ("/task/" ++ id) "POST" data]
  | _, _, _ => []
  end.
Proof.
  unfold callTool. rewrite credentials, requests_catch.
  change (dispatch R cfg "ticktick_update_task" args) with (updateTask R cfg args).
  unfold updateTask, try_. rewrite requests_destructure.
  destruct (destructure args); [| reflexivity]. cbv zeta.
  rewrite requests_catch, requests_bind_lift.
  destruct (updateTask_data _ _ _ _ _ _); [| reflexivity].
  rewrite requests_bind_lift. destruct (to_str _); [| reflexivity].
  apply requests_request. intros v. quiet_tac.
Qed.

Lemma deleteTask_requests w i args :
  requests (run w (callTool R cfg "ticktick_delete_task" args) i) =
  match destructure args, to_str (field args "task_id") with
  | Ok _, Ok id => [request_for cfg ("/task/" ++ id) "DELETE" VNull]
  | _, _ => []
  end.
Proof.
  unfold callTool. rewrite credentials, requests_catch.
  change (dispatch R cfg "ticktick_delete_task" args) with (deleteTask R cfg args).
  unfold deleteTask, try_. rewrite requests_destructure.
  destruct (destructure args); [| reflexivity]. cbv zeta.
  rewrite requests_catch, requests_bind_lift.
  destruct (to_str _); [| reflexivity].
  apply requests_request. intros v. quiet_tac.
Qed.


(** The text a call returns is the template of the answer. *)

Lemma updateTask_result w i args text :
  result_of (run w (callTool R cfg "ticktick_update_task" args) i) = Ok text ->
  exists task, updateTask_text R task = Ok text.
Proof.
  unfold callTool. rewrite credentials. intros H. apply result_catch in H.
  change (dispatch R cfg _ ?a) with (updateTask R cfg a) in H.
  unfold updateTask, try_ in H.
  apply result_bind_lift in H. destruct H as [_ [_ H]]. cbv zeta in H.
  apply result_catch in H.
  apply result_bind_lift in H. destruct H as [data [_ H]].
  apply result_bind_lift in H. destruct H as [id [_ H]].
  now apply result_request_lift in H.
Qed.

Lemma getTaskDetails_result w i args text :
  result_of (run w (callTool R cfg "ticktick_get_task_details" args) i) = Ok text ->
  exists task, getTaskDetails_text R task = Ok text.
Proof.
  unfold callTool. rewrite credentials. intros H. apply result_catch in H.
  change (dispatch R cfg _ ?a) with (getTaskDetails R cfg a) in H.
  unfold getTaskDetails, try_, GET in H.
  apply result_bind_lift in H. destruct H as [_ [_ H]]. cbv zeta in H.
  apply result_catch in H.
  apply result_bind_lift in H. destruct H as [id [_ H]].
  now apply result_request_lift in H.
Qed.

Lemma getTasks_result w i args text :
  result_of (run w (callTool R cfg "ticktick_get_tasks" args) i) = Ok text ->
  exists tasks n items,
    map_ tasks (getTasks_item R) = Ok items /\
    text = " **TickTick Tasks** (" ++ n ++ " found):" ++ nl ++ nl ++ concat nl items.
Proof.
  unfold callTool. rewrite credentials. intros H. apply result_catch in H.
  change (dispatch R cfg _ ?a) with (getTasks R cfg a) in H.
  unfold getTasks, try_, GET in H.
  apply result_bind_lift in H. destruct H as [_ [_ H]]. cbv zeta in H.
  apply result_catch in H.
  apply result_bind_lift in H. destruct H as [endpoint [_ H]].
  apply result_request_lift in H. destruct H as [tasks H].
  steps H. inversion H. eexists _, _, _. split; [eassumption | reflexivity].
Qed.

End TaskRequests.

(** ** Query and body of the task tools *)

Lemma getTasks_params_project_id project_id completed limit :
  truthy project_id = true ->
  forall params, getTasks_params project_id completed limit = Ok params ->
  exists s rest, to_str project_id = Ok s /\ params = ("projectId", s) :: rest.
Proof.
  intros Hp params. unfold getTasks_params, append. rewrite Hp.
  destruct (to_str project_id) as [s |]; cbn; [| discriminate].
  destruct (negb (is_undefined completed)); cbn;
    destruct (to_str limit); cbn; intros H; inversion H; eauto.
Qed.

Lemma getTasks_endpoint_query project_id completed limit endpoint :
  getTasks_endpoint project_id completed limit = Ok endpoint ->
  exists params, getTasks_params project_id completed limit = Ok params /\
                 endpoint = "/task?" ++ params_str params.
Proof.
  unfold getTasks_endpoint.
  destruct (getTasks_params project_id completed limit) as [params |] eqn:E;
    cbn; [| discriminate].
  assert (Hne : (params_str params =? "") = false).
  { unfold getTasks_params, append in E.
    destruct (if truthy project_id then _ else _) as [p1 |]; cbn in E; [| discriminate].
    destruct (if negb (is_undefined completed) then _ else _) as [p2 |]; cbn in E;
      [| discriminate].
    destruct (to_str limit) as [s |]; cbn in E; [| discriminate].
    inversion E; subst. unfold params_str. rewrite map_app. cbn [map fst snd].
    destruct (map _ p2) as [| x l]; cbn; [reflexivity |].
    destruct x as [| c x]; cbn.
    - destruct (l ++ _)%list eqn:El; [now destruct l | reflexivity].
    - destruct (l ++ _)%list; reflexivity. }
  rewrite Hne. cbn. intros H. inversion H. eauto.
Qed.

Lemma getTasks_params_status project_id b limit params :
  getTasks_params project_id (VBool b) limit = Ok params ->
  In ("status", if b then "2" else "0") params /\
  (forall v, In ("status", v) params -> v = if b then "2" else "0").
Proof.
  unfold getTasks_params, append. cbn [is_undefined negb].
  destruct (truthy project_id).
  - destruct (to_str project_id) as [s |]; cbn; [| discriminate].
    destruct (to_str limit) as [l |]; cbn; [| discriminate].
    intros H. inversion H. destruct b; cbn; split; auto;
      intros v [E | [E | [E | []]]]; inversion E; reflexivity.
  - cbn. destruct (to_str limit) as [l |]; cbn; [| discriminate].
    intros H. inversion H. destruct b; cbn; split; auto;
      intros v [E | [E | []]]; inversion E; reflexivity.
Qed.

Lemma createTask_data_project_id R title content project_id priority due_date tags data :
  truthy project_id = true ->
  createTask_data R title content project_id priority due_date tags = Ok data ->
  exists fields, data = VObj fields /\ lookup "projectId" fields = project_id.
Proof.
  intros Hp. unfold createTask_data. rewrite Hp.
  cbn [set_prop String.eqb Ascii.eqb Bool.eqb].
  destruct (truthy due_date).
  - destruct (new_Date R due_date) as [d |]; cbn; [| discriminate].
    destruct (toISOString d) as [iso |]; cbn; [| discriminate].
    destruct (if truthy tags then _ else _) as [[] |]; cbn; [| | discriminate];
      intros H; inversion H; eexists; split; reflexivity.
  - cbn. destruct (if truthy tags then _ else _) as [[] |]; cbn; [| | discriminate];
      intros H; inversion H; eexists; split; reflexivity.
Qed.


(** ** The status line of the templates *)













(** Two formatters next to [getTasks]: [getProjects] prints 'Unknown' for a
    project without [modifiedTime] (and 'undefined' for one without
    [color]); [searchTasks] throws when the answer is an object without
    [tasks]. *)
Lemma getProjects_defaults R :
  let project := VObj [("id", VStr "1"); ("name", VStr "Work")] in
  let w := world 0 (respond 200 "OK" "[...]" (Some (VArr [project]))) in
  result_of (run w (callTool R config "ticktick_get_projects" (VObj [])) 0) =
  Ok (" **TickTick Projects** (1 found):" ++ nl ++ nl ++
      "**Work** (ID: 1)" ++ nl ++
      "- Color: undefined" ++ nl ++
      "- Shared: Member" ++ nl ++
      "- Task Count: 0" ++ nl ++
      "- Modified: Unknown" ++ nl).
Proof. reflexivity. Qed.

Lemma searchTasks_throws_on_empty_object R :
  let w := world 0 (respond 200 "OK" "{}" (Some (VObj []))) in
  result_of (run w (callTool R config "ticktick_search_tasks"
                      (VObj [("query", VStr "milk")])) 0) =
  Err (McpError InternalError
         ("Error: Failed to search tasks: " ++ engine_message R (NotCallable "map"))).
Proof. reflexivity. Qed.

Import Api.

(** ** Programs that reach the upstream, and programs that format its answer *)

Section Reaching.
Variable R : Runtime.
Variable cfg : Config.

Lemma harmless_ret A (a : A) : harmless (Ret a).
Proof. intros w i. split; reflexivity. Qed.

Lemma harmless_now : harmless now.
Proof. intros w i. split; reflexivity. Qed.

Lemma harmless_lift A (r : Result A) a : r = Ok a -> harmless (lift r).
Proof. intros ->. apply harmless_ret. Qed.

Lemma harmless_bind A B (m : Prog A) (k : A -> Prog B) :
  harmless m -> (forall a, harmless (k a)) -> harmless (bind m k).
Proof.
  intros Hm Hk w i. unfold exchanges, result_of. rewrite run_bind.
  destruct (Hm w i) as [H1 H2]. unfold exchanges, result_of in *.
  destruct (run w m i) as [[[a | e] l] j]; cbn in *; [| discriminate]. subst l.
  specialize (Hk a w j). unfold exchanges, result_of in Hk.
  destruct (run w (k a) j) as [[r l'] j']. exact Hk.
Qed.

Lemma reaches_request A endpoint meth data (k : Val -> Prog A) :
  reaches (bind (makeTickTickRequest cfg endpoint meth data) k).
Proof.
  intros w i. unfold makeTickTickRequest, exchanges. cbn.
  destruct (run w _ (S i)) as [[r l] j]. discriminate.
Qed.

Lemma reaches_bind_harmless A B (m : Prog A) (k : A -> Prog B) :
  harmless m -> (forall a, reaches (k a)) -> reaches (bind m k).
Proof.
  intros Hm Hk w i. unfold exchanges. rewrite run_bind.
  destruct (Hm w i) as [H1 H2]. unfold exchanges, result_of in *.
  destruct (run w m i) as [[[a | e] l] j]; cbn in *; [| discriminate]. subst l.
  specialize (Hk a w j). unfold exchanges in Hk.
  destruct (run w (k a) j) as [[r l'] j']. exact Hk.
Qed.

Lemma reaches_Now A (k : Z -> Prog A) :
  (forall t, reaches (k t)) -> reaches (Now k).
Proof. intros Hk w i. exact (Hk (clock w i) w (S i)). Qed.

Lemma reaches_catch A (p : Prog A) (g : JsErr -> JsErr) :
  reaches p -> reaches (catch p (fun e => Throw (g e))).
Proof.
  intros Hp w i. unfold exchanges. rewrite run_catch. specialize (Hp w i).
  unfold exchanges in Hp. destruct (run w p i) as [[[a | e] l] j]; exact Hp.
Qed.




End Reaching.

Ltac harmless_tac :=
  repeat first
    [ apply harmless_ret | apply harmless_now
    | eapply harmless_lift; reflexivity
    | apply harmless_bind; [| intros]
    | match goal with |- harmless (if ?c then _ else _) => destruct c end
    | progress cbv beta zeta
    | progress unfold isoNow, isoToday, or_today, or_next_week ].

Ltac reaches_tac :=
  repeat first
    [ apply reaches_request
    | apply reaches_catch
    | progress unfold try_
    | apply reaches_bind_harmless; [solve [harmless_tac] | intros]
    | apply reaches_Now; intros
    | progress cbv beta zeta ].

Ltac unfold_head :=
  lazymatch goal with
  | |- _ ?t => let h := head_of t in unfold h
  end; unfold GET.

Section Unvalidated.
Variable R : Runtime.
Variable cfg : Config.

(** Called with the empty object, every method with required fields
    outside [stops_early] gets as far as its first request. *)
Lemma tools_reach :
  Forall (fun nf => required_of (fst nf) required <> [] ->
                    among (fst nf) stops_early = false ->
                    fst nf <> "ticktick_get_habit_history" ->
                    reaches (snd nf (VObj [])))
         (tools R cfg).
Proof.
  each_tool ltac:(intros H1 H2 H3;
    first [ exfalso; apply H1; reflexivity
          | discriminate H2
          | exfalso; apply H3; reflexivity
          | unfold_head; solve [reaches_tac]
          | unfold_head;
            cbn [destructure lift bind now field get lookup is_undefined];
            solve [reaches_tac] ]).
Qed.

(** [getHabitHistory] subtracts thirty days from the time, which stays a
    time value when the clock shows a time from 1970 on. *)
Lemma getHabitHistory_reaches w i :
  (0 <= clock w i <= 8640000000000000)%Z ->
  exchanges (run w (getHabitHistory R cfg (VObj [])) i) <> [].
Proof.
  intros Hc. unfold getHabitHistory, try_, GET. cbn [destructure lift bind].
  cbv zeta. unfold exchanges. rewrite run_catch.
  cbn [now bind run field get lookup dflt times to_number rbind option_map lift].
  assert (E : TimeClip (Some (clock w i - 30 * day_ms)%Z) =
              Some (clock w i - 30 * day_ms)%Z).
  { unfold TimeClip, day_ms.
    destruct (Z.leb_spec (Z.abs (clock w i - 30 * (24 * 60 * 60 * 1000)))
                         8640000000000000); [reflexivity | lia]. }
  rewrite E. cbn [to_str iso_day toISOString rbind lift bind run].
  unfold makeTickTickRequest. cbn [bind run].
  match goal with |- context [run w ?p ?j] =>
    destruct (run w p j) as [[[a | e] l] j'] end; discriminate.
Qed.

End Unvalidated.

(** ** The shape, the verbs and the labels of every tool *)

Section MoreCombinators.
Variable R : Runtime.
Variable cfg : Config.

Lemma quiet_requests A (p : Prog A) w i : quiet p -> requests (run w p i) = [].
Proof. intros H. unfold requests. now rewrite (H w i). Qed.

Lemma via_quiet A (p : Prog A) : quiet p -> via_api cfg p.
Proof. intros H w i q. rewrite (quiet_requests _ p w i H). intros []. Qed.

Lemma via_throw A (e : JsErr) : via_api cfg (@Throw A e).
Proof. intros w i q []. Qed.

Lemma via_bind_quiet A B (m : Prog A) (k : A -> Prog B) :
  quiet m -> (forall a, via_api cfg (k a)) -> via_api cfg (bind m k).
Proof.
  intros Hm Hk w i q. unfold requests, exchanges. rewrite run_bind.
  specialize (Hm w i). unfold exchanges in Hm.
  destruct (run w m i) as [[[a | e] l] j]; cbn in Hm; subst l.
  - specialize (Hk a w j q). unfold requests, exchanges in Hk.
    destruct (run w (k a) j) as [[r l'] j']. exact Hk.
  - intros [].
Qed.

Lemma via_request A endpoint meth data (k : Val -> Prog A) :
  (forall v, via_api cfg (k v)) ->
  via_api cfg (bind (makeTickTickRequest cfg endpoint meth data) k).
Proof.
  intros Hk w i q. unfold makeTickTickRequest, requests, exchanges. cbn.
  set (q0 := request_for cfg endpoint meth data).
  assert (H0 : exists e m d, q0 = request_for cfg e m d) by (now exists endpoint, meth, data).
  destruct (upstream w i q0) as [m | r]; cbn.
  - intros [<- | []]. exact H0.
  - destruct (ok r); [destruct (json r) as [v |] |]; cbn;
      try (intros [<- | []]; exact H0).
    specialize (Hk v w (S i) q). unfold requests, exchanges in Hk.
    destruct (run w (k v) (S i)) as [[res l] j]. cbn in *.
    intros [<- | H]; [exact H0 | auto].
Qed.

Lemma via_catch A (p : Prog A) (g : JsErr -> JsErr) :
  via_api cfg p -> via_api cfg (catch p (fun e => Throw (g e))).
Proof. intros Hp w i q. rewrite requests_catch. apply Hp. Qed.

Lemma sends_quiet A (p : Prog A) : quiet p -> sends [] p.
Proof.
  intros H w i. rewrite (quiet_requests _ p w i H). cbn.
  split; [now exists [] | reflexivity].
Qed.

Lemma sends_throw A vs (e : JsErr) : sends vs (@Throw A e).
Proof. intros w i. cbn. split; [now exists vs | discriminate]. Qed.

Lemma sends_bind_quiet A B vs (m : Prog A) (k : A -> Prog B) :
  quiet m -> (forall a, sends vs (k a)) -> sends vs (bind m k).
Proof.
  intros Hm Hk w i. unfold requests, exchanges, result_of. rewrite run_bind.
  specialize (Hm w i). unfold exchanges in Hm.
  destruct (run w m i) as [[[a | e] l] j]; cbn in Hm; subst l.
  - specialize (Hk a w j). unfold requests, exchanges, result_of in Hk.
    destruct (run w (k a) j) as [[r l'] j']. exact Hk.
  - cbn. split; [now exists vs | discriminate].
Qed.

Lemma sends_request A vs endpoint meth data (k : Val -> Prog A) :
  (forall v, sends vs (k v)) ->
  sends (meth :: vs) (bind (makeTickTickRequest cfg endpoint meth data) k).
Proof.
  intros Hk w i. unfold makeTickTickRequest, requests, exchanges, result_of. cbn.
  destruct (upstream w i _) as [m | r]; cbn.
  - split; [now exists vs | discriminate].
  - destruct (ok r); [destruct (json r) as [v |] |]; cbn;
      try (split; [now exists vs | discriminate]).
    specialize (Hk v w (S i)). unfold requests, exchanges, result_of in Hk.
    destruct (run w (k v) (S i)) as [[res l] j]. cbn in *.
    destruct Hk as [[rest H1] H2]. split.
    + exists rest. now rewrite H1.
    + intros H. f_equal. auto.
Qed.

Lemma sends_catch A vs (p : Prog A) (g : JsErr -> JsErr) :
  sends vs p -> sends vs (catch p (fun e => Throw (g e))).
Proof.
  intros Hp w i. rewrite requests_catch. specialize (Hp w i).
  destruct Hp as [H1 H2]. split; [exact H1 |].
  unfold result_of in *. rewrite run_catch.
  destruct (run w p i) as [[[a | e] l] j]; cbn in *; [exact H2 | discriminate].
Qed.

Lemma labelled_try A label (p : Prog A) : labelled label (try_ R label p).
Proof.
  intros w i e. unfold try_, result_of. rewrite run_catch.
  destruct (run w p i) as [[[a | e0] l] j]; cbn; [discriminate |].
  intros H. inversion H. now exists (message R e0).
Qed.

Lemma labelled_bind_harmless A B label (m : Prog A) (k : A -> Prog B) :
  harmless m -> (forall a, labelled label (k a)) -> labelled label (bind m k).
Proof.
  intros Hm Hk w i e. unfold result_of. rewrite run_bind.
  destruct (Hm w i) as [_ H2]. unfold result_of in H2.
  destruct (run w m i) as [[[a | e0] l] j]; cbn in *; [| discriminate].
  specialize (Hk a w j e). unfold result_of in Hk.
  destruct (run w (k a) j) as [[r l'] j']. exact Hk.
Qed.

End MoreCombinators.

Ltac via_tac :=
  repeat first
    [ apply via_request; intros
    | apply via_bind_quiet; [solve [quiet_tac] | intros]
    | apply via_catch
    | progress unfold try_
    | apply via_throw
    | apply via_quiet; solve [quiet_tac]
    | progress cbv beta zeta ].

Ltac sends_tac :=
  repeat first
    [ apply sends_request; intros
    | apply sends_bind_quiet; [solve [quiet_tac] | intros]
    | apply sends_catch
    | progress unfold try_
    | apply sends_throw
    | apply sends_quiet; solve [quiet_tac]
    | progress cbv beta zeta ].

Ltac labelled_tac Hd :=
  repeat first
    [ apply labelled_try
    | rewrite Hd; cbn [lift bind]
    | apply labelled_bind_harmless; [solve [harmless_tac] | intros]
    | progress cbv beta zeta ].

Section MoreTools.
Variable R : Runtime.
Variable cfg : Config.

Lemma tools_via_api :
  Forall (fun nf => forall args, via_api cfg (snd nf args)) (tools R cfg).
Proof.
  each_tool ltac:(intros args; unfold_head; solve [via_tac]).
Qed.

Lemma tools_send :
  Forall (fun nf => forall args, sends (verbs_of (fst nf)) (snd nf args)) (tools R cfg).
Proof.
  each_tool ltac:(intros args;
    match goal with |- sends ?n _ =>
      let n' := eval vm_compute in n in change n with n' end;
    unfold_head; solve [sends_tac]).
Qed.

Lemma tools_labelled :
  Forall (fun nf => forall args, destructure args = Ok tt ->
                    labelled (label_of (fst nf)) (snd nf args)) (tools R cfg).
Proof.
  each_tool ltac:(intros args Hd;
    match goal with |- labelled ?n _ =>
      let n' := eval vm_compute in n in change n with n' end;
    unfold_head; solve [labelled_tac Hd]).
Qed.


Lemma tools_bare :
  Forall (fun nf => among (fst nf) bare = true ->
                    forall args args', snd nf args = snd nf args')
         (tools R cfg).
Proof.
  each_tool ltac:(intros H args args'; first [ discriminate H | reflexivity ]).
Qed.

End MoreTools.

(** ** The handler, for every tool *)

Section MoreHandler.
Variable R : Runtime.
Variable cfg : Config.

Lemma callTool_via name args : via_api cfg (callTool R cfg name args).
Proof.
  unfold callTool. destruct (no_credentials cfg); [apply via_throw |].
  apply via_catch. unfold dispatch.
  destruct (find_tool name (tools R cfg)) as [f |] eqn:E; [| apply via_throw].
  apply find_tool_In in E.
  exact (proj1 (Forall_forall _ _) (tools_via_api R cfg) _ E args).
Qed.

Lemma callTool_sends name args : sends (verbs_of name) (callTool R cfg name args).
Proof.
  unfold callTool. destruct (no_credentials cfg); [apply sends_throw |].
  apply sends_catch. unfold dispatch.
  destruct (find_tool name (tools R cfg)) as [f |] eqn:E; [| apply sends_throw].
  apply find_tool_In in E.
  exact (proj1 (Forall_forall _ _) (tools_send R cfg) _ E args).
Qed.

Lemma registered_found name :
  registered name = true -> exists f, find_tool name (tools R cfg) = Some f.
Proof.
  intros H. destruct (find_tool name (tools R cfg)) as [f |] eqn:E; [now exists f |].
  exfalso. assert (Hn : existsb (fun n => n =? name) (map fst (tools R cfg)) = false).
  { clear H. induction (tools R cfg) as [| [n g] r IH]; cbn in *; [reflexivity |].
    destruct (n =? name); [discriminate | auto]. }
  rewrite names_agree in Hn. unfold registered in H.
  assert (He : forall l : list (string * list string),
               existsb (fun n => n =? name) (map fst l) =
               existsb (fun p => fst p =? name) l).
  { induction l as [| p r IH]; cbn; [reflexivity | now rewrite IH]. }
  rewrite He in Hn. congruence.
Qed.

Lemma sent_with_credentials w i name args q :
  In q (requests (run w (callTool R cfg name args) i)) -> no_credentials cfg = false.
Proof.
  unfold callTool. destruct (no_credentials cfg); [intros [] | reflexivity].
Qed.

End MoreHandler.

Lemma assoc_cases B (d : B) name (l : list (string * B)) :
  assoc d name l = d \/ In (name, assoc d name l) l.
Proof.
  induction l as [| [n b] r IH]; cbn; [now left |].
  destruct (String.eqb_spec n name) as [-> | _]; [right; now left |].
  destruct IH; [now left | right; now right].
Qed.

Lemma verbs_of_In name v :
  In v (verbs_of name) -> In (name, verbs_of name) verbs.
Proof.
  unfold verbs_of. destruct (assoc_cases _ [] name verbs) as [E | H]; [| auto].
  rewrite E. intros [].
Qed.

Lemma method_in_verbs R cfg w i name args q :
  In q (requests (run w (callTool R cfg name args) i)) ->
  In (method q) (verbs_of name).
Proof.
  intros H. destruct (callTool_sends R cfg name args w i) as [[rest E] _].
  rewrite E. apply in_or_app. left. now apply in_map.
Qed.

(** ** Requests of every tool *)

(** ** Objects *)

Lemma lookup_set_prop k v l : lookup k (set_prop k v l) = v.
Proof.
  induction l as [| [k' v'] r IH]; cbn; [now rewrite String.eqb_refl |].
  destruct (k' =? k) eqn:E; cbn; [now rewrite String.eqb_refl | now rewrite E].
Qed.

Lemma lookup_set_prop_other k k' v l :
  k' <> k -> lookup k' (set_prop k v l) = lookup k' l.
Proof.
  intros Hk. induction l as [| [k0 v0] r IH]; cbn.
  - destruct (String.eqb_spec k k'); [congruence | reflexivity].
  - destruct (String.eqb_spec k0 k) as [-> | H0]; cbn.
    + destruct (String.eqb_spec k k'); [congruence | reflexivity].
    + now rewrite IH.
Qed.

Lemma has_key_set_prop k k' v l :
  has_key k' (set_prop k v l) = ((k =? k') || has_key k' l)%bool.
Proof.
  unfold has_key. induction l as [| [k0 v0] r IH]; cbn.
  - reflexivity.
  - destruct (String.eqb_spec k0 k) as [-> | H0]; cbn.
    + destruct (k =? k'); reflexivity.
    + rewrite IH. destruct (k0 =? k'), (k =? k'); reflexivity.
Qed.

Lemma has_key_In k l : has_key k l = true -> In k (map fst l).
Proof.
  unfold has_key. intros H. apply existsb_exists in H.
  destruct H as [[k' v] [Hin Heq]]. apply String.eqb_eq in Heq. cbn in Heq. subst k'.
  now apply (in_map fst) in Hin.
Qed.

Lemma body_of_object cfg endpoint meth fields :
  meth <> "GET" ->
  body (request_for cfg endpoint meth (VObj fields)) = stringify (VObj fields).
Proof.
  intros H. unfold request_for. cbn [body truthy andb].
  destruct (String.eqb_spec meth "GET"); [contradiction | reflexivity].
Qed.

(** ** The body of create-task and of update-task *)

Lemma createTask_data_fields R title content project_id priority due_date tags data :
  createTask_data R title content project_id priority due_date tags = Ok data ->
  exists fields,
    data = VObj fields /\
    lookup "title" fields = title /\
    lookup "content" fields = or_ content (VStr "") /\
    lookup "priority" fields = priority /\
    lookup "status" fields = VNum 0 /\
    has_key "projectId" fields = truthy project_id /\
    has_key "dueDate" fields = truthy due_date /\
    (has_key "tags" fields = true -> lookup "tags" fields = tags /\ truthy tags = true) /\
    (forall k, has_key k fields = true ->
               In k ["title"; "content"; "priority"; "status"; "projectId";
                     "dueDate"; "tags"]).
Proof.
  unfold createTask_data.
  set (d0 := [("title", title); ("content", or_ content (VStr ""));
              ("priority", priority); ("status", VNum 0)]).
  set (d1 := if truthy project_id then set_prop "projectId" project_id d0 else d0).
  assert (K : forall (c : bool) k v l,
            (forall x, has_key x l = true ->
                       In x ["title"; "content"; "priority"; "status"; "projectId";
                             "dueDate"; "tags"]) ->
            In k ["title"; "content"; "priority"; "status"; "projectId";
                  "dueDate"; "tags"] ->
            forall x, has_key x (if c then set_prop k v l else l) = true ->
                      In x ["title"; "content"; "priority"; "status"; "projectId";
                            "dueDate"; "tags"]).
  { intros c k v l Hl Hk x. destruct c; [| apply Hl].
    rewrite has_key_set_prop. intros H. apply orb_prop in H. destruct H as [H | H].
    - apply String.eqb_eq in H. now subst x.
    - now apply Hl. }
  assert (K0 : forall x, has_key x d0 = true ->
                         In x ["title"; "content"; "priority"; "status"; "projectId";
                               "dueDate"; "tags"]).
  { intros x Hx. apply has_key_In in Hx. cbn in Hx. cbn. tauto. }
  assert (K1 := K (truthy project_id) "projectId" project_id d0 K0
                  ltac:(cbn; tauto)). fold d1 in K1.
  assert (P1 : lookup "title" d1 = title /\ lookup "content" d1 = or_ content (VStr "") /\
               lookup "priority" d1 = priority /\ lookup "status" d1 = VNum 0 /\
               has_key "projectId" d1 = truthy project_id /\
               has_key "dueDate" d1 = false /\ has_key "tags" d1 = false).
  { unfold d1. destruct (truthy project_id); cbn; repeat split; reflexivity. }
  destruct P1 as [T1 [C1 [Pr1 [S1 [J1 [D1 G1]]]]]].
  assert (E2 : forall d2,
            (if truthy due_date
             then let? d := new_Date R due_date in
                  let? iso := toISOString d in Ok (set_prop "dueDate" (VStr iso) d1)
             else Ok d1) = Ok d2 ->
            lookup "title" d2 = title /\ lookup "content" d2 = or_ content (VStr "") /\
            lookup "priority" d2 = priority /\ lookup "status" d2 = VNum 0 /\
            has_key "projectId" d2 = truthy project_id /\
            has_key "dueDate" d2 = truthy due_date /\ has_key "tags" d2 = false /\
            (forall x, has_key x d2 = true ->
                       In x ["title"; "content"; "priority"; "status"; "projectId";
                             "dueDate"; "tags"])).
  { intros d2. destruct (truthy due_date).
    - destruct (new_Date R due_date) as [d |]; cbn [rbind]; [| discriminate].
      destruct (toISOString d) as [iso |]; cbn [rbind]; [| discriminate].
      intros H. inversion H. subst d2.
      rewrite !lookup_set_prop_other by discriminate.
      rewrite !has_key_set_prop. cbn [String.eqb Ascii.eqb Bool.eqb orb].
      repeat split; auto.
      apply (K true "dueDate" (VStr iso) d1 K1). cbn; tauto.
    - intros H. inversion H. subst d2. repeat split; auto. }
  destruct (if truthy due_date then _ else _) as [d2 |]; cbn [rbind]; [| discriminate].
  destruct (E2 d2 eq_refl) as [T2 [C2 [Pr2 [S2 [J2 [D2 [G2 K2]]]]]]].
  destruct (truthy tags) eqn:Ht.
  - destruct (get tags "length") as [n |]; cbn [rbind]; [| discriminate].
    intros H. inversion H. eexists. split; [reflexivity |].
    destruct (truthy n).
    + rewrite !lookup_set_prop_other by discriminate. rewrite lookup_set_prop.
      rewrite !has_key_set_prop. cbn [String.eqb Ascii.eqb Bool.eqb orb].
      repeat split; auto.
      apply (K true "tags" tags d2 K2). cbn; tauto.
    + repeat split; auto; congruence.
  - cbn [rbind]. intros H. inversion H. eexists. split; [reflexivity |].
    repeat split; auto; congruence.
Qed.

Lemma updateTask_data_fields R title content priority due_date completed data :
  updateTask_data R title content priority due_date completed = Ok data ->
  exists fields,
    data = VObj fields /\
    has_key "title" fields = negb (is_undefined title) /\
    has_key "content" fields = negb (is_undefined content) /\
    has_key "priority" fields = negb (is_undefined priority) /\
    has_key "dueDate" fields = negb (is_undefined due_date) /\
    has_key "status" fields = negb (is_undefined completed) /\
    (is_undefined title = false -> lookup "title" fields = title) /\
    (is_undefined content = false -> lookup "content" fields = content) /\
    (is_undefined priority = false -> lookup "priority" fields = priority) /\
    (forall k, has_key k fields = true ->
               In k ["title"; "content"; "priority"; "dueDate"; "status"]).
Proof.
  unfold updateTask_data.
  destruct (is_undefined title) eqn:Ht, (is_undefined content) eqn:Hc,
           (is_undefined priority) eqn:Hp, (is_undefined due_date) eqn:Hd,
           (is_undefined completed) eqn:Hs;
    cbn [negb set_prop rbind String.eqb Ascii.eqb Bool.eqb];
    try (destruct (new_Date R due_date) as [d |]; cbn [rbind]; [| discriminate];
         destruct (toISOString d) as [iso |]; cbn [rbind]; [| discriminate]);
    intros H; inversion H; eexists; (split; [reflexivity |]);
    cbn [set_prop String.eqb Ascii.eqb Bool.eqb];
    repeat split; try reflexivity; try discriminate;
    intros k Hk; apply has_key_In in Hk; cbn in Hk; cbn; tauto.
Qed.

(** ** Due dates *)

Lemma truthy_field_destructure args k :
  field args k <> VUndef -> destructure args = Ok tt.
Proof. destruct args; cbn; congruence. Qed.

Lemma truthy_not_undefined v : truthy v = true -> v <> VUndef.
Proof. intros H ->. discriminate. Qed.

Section Steps.
Variable R : Runtime.
Variable cfg : Config.
Hypothesis credentials : no_credentials cfg = false.

Lemma run_request_ok A (w : World) endpoint meth data (k : Val -> Prog A) i r v :
  upstream w i (request_for cfg endpoint meth data) = Responded r ->
  ok r = true -> json r = Some v ->
  run w (bind (makeTickTickRequest cfg endpoint meth data) k) i =
  (let '(x, l, j) := run w (k v) (S i) in
   (x, (request_for cfg endpoint meth data, Responded r) :: l, j)).
Proof.
  intros Hu Hk Hj. unfold makeTickTickRequest. cbn [bind run]. rewrite Hu.
  cbn [receive]. rewrite Hk, Hj. reflexivity.
Qed.

Lemma requests_request_ok A (w : World) endpoint meth data (k : Val -> Prog A) i r v :
  upstream w i (request_for cfg endpoint meth data) = Responded r ->
  ok r = true -> json r = Some v ->
  requests (run w (bind (makeTickTickRequest cfg endpoint meth data) k) i) =
  request_for cfg endpoint meth data :: requests (run w (k v) (S i)).
Proof.
  intros Hu Hk Hj. rewrite (run_request_ok _ w _ _ _ k i r v Hu Hk Hj).
  destruct (run w (k v) (S i)) as [[x l] j]. reflexivity.
Qed.

Lemma result_request_ok A (w : World) endpoint meth data (k : Val -> Prog A) i r v :
  upstream w i (request_for cfg endpoint meth data) = Responded r ->
  ok r = true -> json r = Some v ->
  result_of (run w (bind (makeTickTickRequest cfg endpoint meth data) k) i) =
  result_of (run w (k v) (S i)).
Proof.
  intros Hu Hk Hj. rewrite (run_request_ok _ w _ _ _ k i r v Hu Hk Hj).
  destruct (run w (k v) (S i)) as [[x l] j]. reflexivity.
Qed.

Lemma result_catch_eq A (w : World) (p : Prog A) (g : JsErr -> JsErr) i :
  result_of (run w (catch p (fun e => Throw (g e))) i) =
  match result_of (run w p i) with Ok a => Ok a | Err e => Err (g e) end.
Proof.
  unfold result_of. rewrite run_catch.
  destruct (run w p i) as [[[a | e] l] j]; reflexivity.
Qed.

Lemma createTask_run_invalid w i args :
  truthy (field args "due_date") = true ->
  new_Date R (field args "due_date") = Ok None ->
  run w (callTool R cfg "ticktick_create_task" args) i =
  (Err (McpError InternalError
          ("Error: Failed to create task: " ++ engine_message R InvalidTime)), [], i).
Proof.
  intros Ht Hn. unfold callTool. rewrite credentials, run_catch.
  change (dispatch R cfg "ticktick_create_task" args) with (createTask R cfg args).
  unfold createTask, try_.
  rewrite (truthy_field_destructure args "due_date" (truthy_not_undefined _ Ht)).
  cbn [lift bind]. rewrite run_catch.
  unfold createTask_data. rewrite Ht, Hn. cbn [rbind toISOString lift bind run].
  reflexivity.
Qed.

Lemma updateTask_run_invalid w i args :
  field args "due_date" <> VUndef ->
  new_Date R (field args "due_date") = Ok None ->
  run w (callTool R cfg "ticktick_update_task" args) i =
  (Err (McpError InternalError
          ("Error: Failed to update task: " ++ engine_message R InvalidTime)), [], i).
Proof.
  intros Ht Hn. unfold callTool. rewrite credentials, run_catch.
  change (dispatch R cfg "ticktick_update_task" args) with (updateTask R cfg args).
  unfold updateTask, try_.
  rewrite (truthy_field_destructure args "due_date" Ht).
  cbn [lift bind]. rewrite run_catch.
  unfold updateTask_data. rewrite Hn.
  destruct (field args "due_date"); [contradiction | ..];
    cbn [is_undefined negb rbind toISOString lift bind run]; reflexivity.
Qed.

End Steps.

Lemma createTask_data_due R title content project_id priority due_date tags data t :
  truthy due_date = true -> new_Date R due_date = Ok (Some t) ->
  createTask_data R title content project_id priority due_date tags = Ok data ->
  exists fields, data = VObj fields /\ lookup "dueDate" fields = VStr (iso_of_time t).
Proof.
  intros Ht Hn. unfold createTask_data. rewrite Ht, Hn. cbn [rbind toISOString].
  destruct (truthy tags).
  - destruct (get tags "length") as [n |]; cbn [rbind]; [| discriminate].
    intros H. inversion H. eexists. split; [reflexivity |].
    destruct (truthy n).
    + rewrite lookup_set_prop_other by discriminate. apply lookup_set_prop.
    + apply lookup_set_prop.
  - cbn [rbind]. intros H. inversion H. eexists. split; [reflexivity |].
    apply lookup_set_prop.
Qed.

Lemma updateTask_data_due R title content priority due_date completed data t :
  due_date <> VUndef -> new_Date R due_date = Ok (Some t) ->
  updateTask_data R title content priority due_date completed = Ok data ->
  exists fields, data = VObj fields /\ lookup "dueDate" fields = VStr (iso_of_time t).
Proof.
  intros Ht Hn. unfold updateTask_data. rewrite Hn.
  assert (Hu : is_undefined due_date = false)
    by (destruct due_date; [contradiction | ..]; reflexivity).
  rewrite Hu. cbn [negb rbind toISOString].
  intros H. inversion H. eexists. split; [reflexivity |].
  destruct (negb (is_undefined completed)).
  - rewrite lookup_set_prop_other by discriminate. apply lookup_set_prop.
  - apply lookup_set_prop.
Qed.

(** ** Tags of a task *)

Lemma same_value_zero_str name x :
  same_value_zero (VStr name) x = true <-> x = VStr name.
Proof.
  destruct x; cbn; try (split; [discriminate | congruence]).
  rewrite String.eqb_eq. split; congruence.
Qed.


Lemma includes_str name tags :
  existsb (same_value_zero (VStr name)) tags = true <-> In (VStr name) tags.
Proof.
  rewrite existsb_exists. split.
  - intros [x [Hx E]]. apply same_value_zero_str in E. now subst.
  - intros H. exists (VStr name). split; [exact H |]. now apply same_value_zero_str.
Qed.




Lemma filter_all (f : Val -> bool) l :
  (forall x, In x l -> f x = true) -> List.filter f l = l.
Proof.
  intros H. induction l as [| x r IH]; cbn; [reflexivity |].
  rewrite (H x (or_introl eq_refl)). f_equal. apply IH. intros y Hy. apply H. now right.
Qed.




Section Tags.
Variable R : Runtime.
Variable cfg : Config.
Hypothesis credentials : no_credentials cfg = false.

(** The two requests of add-tag-to-task, for a task the upstream answers. *)
Lemma addTagToTask_requests w i args id name r fields tags :
  to_str (field args "task_id") = Ok id ->
  field args "tag_name" = VStr name ->
  upstream w i (request_for cfg ("/task/" ++ id) "GET" VNull) = Responded r ->
  ok r = true -> json r = Some (VObj fields) ->
  or_ (lookup "tags" fields) (VArr []) = VArr tags ->
  requests (run w (callTool R cfg "ticktick_add_tag_to_task" args) i) =
  [request_for cfg ("/task/" ++ id) "GET" VNull;
   request_for cfg ("/task/" ++ id) "PUT"
     (VObj (set_prop "tags"
              (VArr (if existsb (same_value_zero (VStr name)) tags then tags
                     else tags ++ [VStr name])%list)
              fields))].
Proof.
  intros Hid Hn Hu Hk Hj Ht. unfold callTool. rewrite credentials, requests_catch.
  change (dispatch R cfg "ticktick_add_tag_to_task" args)
    with (addTagToTask R cfg args).
  unfold addTagToTask, try_, GET. rewrite requests_destructure.
  rewrite (truthy_field_destructure args "tag_name") by (rewrite Hn; discriminate).
  cbv zeta. rewrite requests_catch, requests_bind_lift, Hid.
  rewrite (requests_request_ok cfg _ w _ _ _ _ i r _ Hu Hk Hj). f_equal.
  cbn [get]. rewrite requests_bind_lift, requests_bind_lift. rewrite Ht, Hn.
  cbn [includes]. rewrite requests_bind_lift.
  destruct (existsb (same_value_zero (VStr name)) tags); cbn [push];
    rewrite requests_bind_lift; cbn [spread];
    (rewrite requests_request by (intros v; quiet_tac)); reflexivity.
Qed.


End Tags.

(** ** Lists of the answer *)

Lemma filterR_filter (f : Val -> Result bool) l l' :
  filterR f l = Ok l' ->
  l' = List.filter (fun x => match f x with Ok b => b | Err _ => false end) l /\
  (forall x, In x l -> exists b, f x = Ok b).
Proof.
  revert l'. induction l as [| x r IH]; cbn; intros l' H.
  - inversion H. split; [reflexivity | intros x []].
  - destruct (f x) as [b |] eqn:E; cbn [rbind] in H; [| discriminate].
    destruct (filterR f r) as [r' |]; cbn [rbind] in H; [| discriminate].
    inversion H. destruct (IH r' eq_refl) as [-> Hall]. split; [reflexivity |].
    intros y [<- | Hy]; [now exists b | auto].
Qed.

Lemma filterR_In (f : Val -> Result bool) l l' x :
  filterR f l = Ok l' -> In x l' -> In x l /\ f x = Ok true.
Proof.
  intros H Hx. destruct (filterR_filter f l l' H) as [-> Hall].
  apply filter_In in Hx. destruct Hx as [Hin Hb]. split; [exact Hin |].
  destruct (f x) as [[] |]; congruence.
Qed.

Lemma mapR_Forall2 B (f : Val -> Result B) l l' :
  mapR f l = Ok l' -> Forall2 (fun x y => f x = Ok y) l l'.
Proof.
  revert l'. induction l as [| x r IH]; cbn; intros l' H.
  - inversion H. constructor.
  - destruct (f x) as [y |] eqn:E; cbn [rbind] in H; [| discriminate].
    destruct (mapR f r) as [r' |]; cbn [rbind] in H; [| discriminate].
    inversion H. constructor; auto.
Qed.

Lemma result_lift A (w : World) (r : Result A) i : result_of (run w (lift r) i) = r.
Proof. destruct r; reflexivity. Qed.

Lemma filter_filter (f g : Val -> bool) l :
  List.filter g (List.filter f l) = List.filter (fun x => (f x && g x)%bool) l.
Proof.
  induction l as [| x r IH]; cbn; [reflexivity |].
  destruct (f x); cbn; [destruct (g x); now rewrite IH | exact IH].
Qed.

Section Lists.
Variable R : Runtime.
Variable cfg : Config.
Hypothesis credentials : no_credentials cfg = false.

(** The text of a tool that formats the answer of one request. *)
Lemma result_of_format (w : World) label endpoint (F : Val -> Result string) i r v text :
  upstream w i (request_for cfg endpoint "GET" VNull) = Responded r ->
  ok r = true -> json r = Some v ->
  result_of (run w (catch (try_ R label
                             (bind (makeTickTickRequest cfg endpoint "GET" VNull)
                                   (fun x => lift (F x))))
                          (fun error => Throw (McpError InternalError
                                                 ("Error: " ++ message R error)))) i)
  = Ok text ->
  F v = Ok text.
Proof.
  intros Hu Hk Hj. unfold try_. rewrite !result_catch_eq.
  rewrite (result_request_ok cfg _ w _ _ _ _ i r v Hu Hk Hj), result_lift.
  destruct (F v); [tauto | discriminate].
Qed.

End Lists.

(** ** filter-tasks *)

Lemma filter_stage (c : bool) (f : Val -> Result bool) l v :
  (if c then filter (VArr l) f else Ok (VArr l)) = Ok v ->
  exists l', v = VArr l' /\
             (exists g, l' = List.filter g l) /\
             (c = true -> forall x, In x l' -> f x = Ok true).
Proof.
  destruct c.
  - unfold filter. cbn [array_of rbind].
    destruct (filterR f l) as [l' |] eqn:E; cbn [rbind]; [| discriminate].
    intros H. inversion H. exists l'. split; [reflexivity |]. split.
    + destruct (filterR_filter f l l' E) as [-> _]. eexists. reflexivity.
    + intros _ x Hx. exact (proj2 (filterR_In f l l' x E Hx)).
  - intros H. inversion H. exists l. split; [reflexivity |]. split.
    + exists (fun _ => true). symmetry. apply filter_all. reflexivity.
    + discriminate.
Qed.

Lemma someR_exists (f : Val -> Result bool) l :
  someR f l = Ok true -> exists x, In x l /\ f x = Ok true.
Proof.
  induction l as [| x r IH]; cbn; [discriminate |].
  destruct (f x) as [[] |] eqn:E; cbn [rbind]; try discriminate.
  - intros _. exists x. split; [now left | exact E].
  - intros H. destruct (IH H) as [y [Hy Hf]]. exists y. split; [now right | exact Hf].
Qed.

Lemma filter_sub (g : Val -> bool) l x : In x (List.filter g l) -> In x l.
Proof. intros H. now apply filter_In in H. Qed.

(** ** Calls that lack required fields *)

Lemma lacks_required_empty name :
  lacks_required name (VObj []) = true -> required_of name required <> [].
Proof. unfold lacks_required. intros H E. rewrite E in H. discriminate. Qed.

Lemma stringify_skips_undefined k rest :
  stringify (VObj ((k, VUndef) :: rest)) = stringify (VObj rest).
Proof. reflexivity. Qed.

Section Unchecked.
Variable R : Runtime.
Variable cfg : Config.
Hypothesis credentials : no_credentials cfg = false.

Lemma exchanges_callTool w i name args f :
  find_tool name (tools R cfg) = Some f ->
  exchanges (run w (callTool R cfg name args) i) = exchanges (run w (f args) i).
Proof.
  intros E. unfold callTool, dispatch. rewrite credentials, E.
  unfold exchanges. rewrite run_catch.
  destruct (run w (f args) i) as [[[a | e] l] j]; reflexivity.
Qed.

Lemma callTool_reaches w i name :
  registered name = true ->
  lacks_required name (VObj []) = true ->
  among name stops_early = false ->
  (forall j, (0 <= clock w j <= 8640000000000000)%Z) ->
  exchanges (run w (callTool R cfg name (VObj [])) i) <> [].
Proof.
  intros Hr Hl Hs Hc. destruct (registered_found R cfg name Hr) as [f E].
  rewrite (exchanges_callTool w i name _ f E).
  destruct (String.eqb_spec name "ticktick_get_habit_history") as [-> | Hn].
  - cbn in E. inversion E. apply getHabitHistory_reaches. apply Hc.
  - apply find_tool_In in E.
    exact (proj1 (Forall_forall _ _) (tools_reach R cfg) _ E
             (lacks_required_empty name Hl) Hs Hn w i).
Qed.

Lemma callTool_stops_early w i name :
  among name stops_early = true ->
  exchanges (run w (callTool R cfg name (VObj [])) i) = [] /\
  exists m, result_of (run w (callTool R cfg name (VObj [])) i) =
            Err (McpError InternalError m).
Proof.
  unfold among, stops_early. cbn [existsb]. intros H.
  repeat (apply orb_prop in H; destruct H as [H | H];
          [apply String.eqb_eq in H; subst name;
           unfold callTool; rewrite credentials;
           split; [reflexivity | eexists; reflexivity] |]).
  discriminate.
Qed.

Lemma createProject_requests w i args :
  requests (run w (callTool R cfg "ticktick_create_project" args) i) =
  match destructure args with
  | Ok _ =>
      [request_for cfg "/project" "POST"
         (VObj [("name", field args "name");
                ("color", dflt (field args "color") (VStr "#3498db"));
                ("isOwner", VBool true);
                ("permission",
                 VStr (if truthy (dflt (field args "is_shared") (VBool false))
                       then "members" else "owner"))])]
  | Err _ => []
  end.
Proof.
  unfold callTool. rewrite credentials, requests_catch.
  change (dispatch R cfg "ticktick_create_project" args) with (createProject R cfg args).
  unfold createProject, try_. rewrite requests_destructure.
  destruct (destructure args); [| reflexivity]. cbv zeta.
  rewrite requests_catch. apply requests_request. intros v. quiet_tac.
Qed.

End Unchecked.

(** ** The query of get-tasks and the body of create-task *)

Lemma params_str_limit (p : Params) lim :
  (params_str (p ++ [("limit", lim)])%list =? "") = false.
Proof.
  unfold params_str. rewrite map_app. cbn [map fst snd].
  destruct (map _ p) as [| x l]; cbn; [reflexivity |].
  destruct x as [| c x]; cbn.
  - destruct (l ++ _)%list eqn:El; [now destruct l | reflexivity].
  - destruct (l ++ _)%list; reflexivity.
Qed.

Lemma getTasks_endpoint_value project_id completed limit s lim :
  to_str project_id = Ok s -> to_str limit = Ok lim ->
  getTasks_endpoint project_id completed limit =
  Ok ("/task?" ++
      params_str ((if truthy project_id then [("projectId", s)] else []) ++
                  (if is_undefined completed then []
                   else [("status", if truthy completed then "2" else "0")]) ++
                  [("limit", lim)])%list).
Proof.
  intros Hs Hl. unfold getTasks_endpoint, getTasks_params, append.
  rewrite Hl. remember (truthy completed) as b eqn:Hb.
  assert (Hst : to_str (VNum (if b then 2 else 0)) = Ok (if b then "2" else "0"))
    by (destruct b; reflexivity).
  rewrite Hst. clear Hst Hb.
  destruct (truthy project_id); [rewrite Hs |]; cbn [rbind app];
    destruct (is_undefined completed); cbn [negb rbind app];
    match goal with |- context [params_str ?p =? ""] =>
      change p with ((removelast p) ++ [("limit", lim)])%list;
      rewrite params_str_limit end; reflexivity.
Qed.

Lemma createTask_data_ok R title content project_id priority due_date tags :
  (truthy due_date = true -> exists t, new_Date R due_date = Ok (Some t)) ->
  exists data,
    createTask_data R title content project_id priority due_date tags = Ok data.
Proof.
  intros Hd. unfold createTask_data.
  destruct (truthy due_date).
  - destruct (Hd eq_refl) as [t ->]. cbn [rbind toISOString].
    destruct (truthy tags) eqn:Ht.
    + destruct tags; try discriminate; cbn; eexists; reflexivity.
    + cbn. eexists; reflexivity.
  - cbn [rbind]. destruct (truthy tags) eqn:Ht.
    + destruct tags; try discriminate; cbn; eexists; reflexivity.
    + cbn. eexists; reflexivity.
Qed.


(** ** What the tools with a status line return *)



Tactic Notation "step" hyp(H) "as" ident(x) ident(E) :=
  match type of H with
  | rbind ?r _ = Ok _ =>
      destruct r as [x |] eqn:E; cbn [rbind] in H; [| discriminate H]
  end.



(** The stages of filter-tasks keep an answer as it is or keep some of the
    items of an array. *)
Local Notation kept v v' :=
  (v' = v \/ exists l l' (g : Val -> bool),
               v = VArr l /\ v' = VArr l' /\ l' = List.filter g l).




Section StatusTexts.
Variable R : Runtime.
Variable cfg : Config.
Hypothesis credentials : no_credentials cfg = false.









End StatusTexts.


(** * The claims of the specification *)


(** C1. The handler does not validate arguments against the declared
    schemas.  With a credential configured, a call of any tool with any
    argument object either returns a text or fails with [InternalError];
    it never fails with [InvalidRequest].  Called with the empty object,
    which lacks every required field, a registered tool that has required
    fields sends a request to the upstream at any time a clock shows from
    1970 on; the four tools of [stops_early] instead send nothing and fail
    with an [InternalError], the error their method throws.  A missing
    value goes where the method uses it: delete-task without [task_id]
    sends DELETE /task/undefined, create-project without [name] sends a
    body without the property. *)
Theorem C1_arguments_are_not_validated R cfg :
  no_credentials cfg = false ->
  (forall w i name args,
     (exists text, result_of (run w (callTool R cfg name args) i) = Ok text) \/
     (exists m, result_of (run w (callTool R cfg name args) i) =
                Err (McpError InternalError m))) /\
  (forall w i name,
     registered name = true ->
     lacks_required name (VObj []) = true ->
     (forall j, (0 <= clock w j <= 8640000000000000)%Z) ->
     if among name stops_early
     then exchanges (run w (callTool R cfg name (VObj [])) i) = [] /\
          exists m, result_of (run w (callTool R cfg name (VObj [])) i) =
                    Err (McpError InternalError m)
     else exchanges (run w (callTool R cfg name (VObj [])) i) <> []) /\
  (forall w i fields,
     lookup "task_id" fields = VUndef ->
     lacks_required "ticktick_delete_task" (VObj fields) = true /\
     requests (run w (callTool R cfg "ticktick_delete_task" (VObj fields)) i) =
     [request_for cfg "/task/undefined" "DELETE" VNull]) /\
  (forall w i fields,
     lookup "name" fields = VUndef ->
     lacks_required "ticktick_create_project" (VObj fields) = true /\
     exists q,
       requests (run w (callTool R cfg "ticktick_create_project" (VObj fields)) i) = [q] /\
       method q = "POST" /\
       url q = "https://api.ticktick.com/open/v1/project" /\
       body q = stringify (VObj [
         ("color", dflt (lookup "color" fields) (VStr "#3498db"));
         ("isOwner", VBool true);
         ("permission",
          VStr (if truthy (dflt (lookup "is_shared" fields) (VBool false))
                then "members" else "owner"))])).
Proof.
  intros Hc. split; [| split; [| split]].
  - intros. now apply callTool_result.
  - intros w i name Hr Hl Hclock. destruct (among name stops_early) eqn:Hs.
    + now apply callTool_stops_early.
    + now apply callTool_reaches.
  - intros w i fields H. split.
    + unfold lacks_required. cbn. now rewrite H.
    + rewrite deleteTask_requests by exact Hc. cbn [destructure field get].
      now rewrite H.
  - intros w i fields H. split.
    + unfold lacks_required. cbn. now rewrite H.
    + eexists. split; [rewrite createProject_requests by exact Hc; reflexivity |].
      cbn [destructure field get]. rewrite H.
      split; [reflexivity |]. split; reflexivity.
Qed.

Lemma C1_witness :
  let w := world 1709210096789 (respond 200 "OK" "{}" (Some (VObj []))) in
  lacks_required "ticktick_get_task_details" (VObj []) = true /\
  exchanges (run w (callTool runtime config "ticktick_get_task_details" (VObj [])) 0)
    <> [] /\
  lacks_required "ticktick_reorder_projects" (VObj []) = true /\
  exchanges (run w (callTool runtime config "ticktick_reorder_projects" (VObj [])) 0)
    = [] /\
  (exists m,
     result_of (run w (callTool runtime config "ticktick_reorder_projects" (VObj [])) 0) =
     Err (McpError InternalError m)) /\
  requests (run w (callTool runtime config "ticktick_delete_task" (VObj [])) 0) =
  [request_for config "/task/undefined" "DELETE" VNull] /\
  exists q,
    requests (run w (callTool runtime config "ticktick_create_project"
                       (VObj [("color", VStr "#ffffff")])) 0) = [q] /\
    method q = "POST" /\
    url q = "https://api.ticktick.com/open/v1/project" /\
    body q = Some ("{" ++ dq ++ "color" ++ dq ++ ":" ++ dq ++ "#ffffff" ++ dq ++ "," ++
                   dq ++ "isOwner" ++ dq ++ ":true," ++
                   dq ++ "permission" ++ dq ++ ":" ++ dq ++ "owner" ++ dq ++ "}").
Proof.
  intros w.
  destruct (C1_arguments_are_not_validated runtime config eq_refl)
    as [_ [H2 [H3 H4]]].
  assert (Hclock : forall j : nat, (0 <= clock w j <= 8640000000000000)%Z)
    by (intros j; cbn; lia).
  split; [reflexivity |].
  split; [exact (H2 w 0 "ticktick_get_task_details" eq_refl eq_refl Hclock) |].
  split; [reflexivity |].
  destruct (H2 w 0 "ticktick_reorder_projects" eq_refl eq_refl Hclock) as [He Hm].
  split; [exact He |]. split; [exact Hm |].
  split; [exact (proj2 (H3 w 0 [] eq_refl)) |].
  exact (proj2 (H4 w 0 [("color", VStr "#ffffff")] eq_refl)).
Defined.

Lemma C1_counterexample :
  lacks_required "ticktick_delete_task" (VObj []) = true /\
  call config (world 0 (respond 200 "OK" "{}" (Some (VObj []))))
       "ticktick_delete_task" (VObj []) =
  (Ok (" **Deleted TickTick Task**" ++ nl ++ nl ++
       "Task ID: undefined has been permanently deleted."),
   [({| url := "https://api.ticktick.com/open/v1/task/undefined";
        method := "DELETE";
        headers := [("Authorization", "Bearer secret");
                    ("Content-Type", "application/json")];
        body := None |},
     respond 200 "OK" "{}" (Some (VObj [])))],
   1%nat).
Proof. split; reflexivity. Qed.

(** C2. With a credential configured, a call whose tool name is not one of
    the 112 registered names sends nothing and fails with an error whose
    code is [InternalError], not [MethodNotFound]: the [MethodNotFound]
    error of the [default] branch is thrown inside the [try] of the handler,
    whose [catch] wraps every error in a new [InternalError] and keeps only
    its message. *)
Theorem C2_unknown_tool_internal_error R cfg w i name args :
  no_credentials cfg = false -> registered name = false ->
  run w (callTool R cfg name args) i =
  (Err (McpError InternalError ("Error: MCP error -32601: Unknown tool: " ++ name)),
   [], i).
Proof.
  intros Hc Hn. unfold callTool, dispatch. rewrite Hc.
  rewrite (unregistered_not_found R cfg name Hn). reflexivity.
Qed.

Lemma C2_witness :
  run (world 0 (respond 200 "OK" "[]" (Some (VArr []))))
      (callTool runtime config "ticktick_fly_to_the_moon" (VObj [])) 0 =
  (Err (McpError InternalError
          "Error: MCP error -32601: Unknown tool: ticktick_fly_to_the_moon"),
   [], 0%nat).
Proof. apply C2_unknown_tool_internal_error; reflexivity. Defined.

(** C3. A call never sends more requests than its tool is written to send,
    and a call that returns a text has sent exactly that many: two for the
    seven tools that read a task or a project before they write it, none for
    the date conversion tool, one for every other tool.  No request is sent
    again after a failure. *)
Theorem C3_request_count R cfg w i name args :
  (List.length (exchanges (run w (callTool R cfg name args) i))
   <= expected_requests name)%nat /\
  (is_ok (result_of (run w (callTool R cfg name args) i)) = true ->
   List.length (exchanges (run w (callTool R cfg name args) i)) =
   expected_requests name) /\
  (expected_requests name <= 2)%nat /\
  (forall before q o after,
     exchanges (run w (callTool R cfg name args) i) = (before ++ (q, o) :: after)%list ->
     failed o = true -> after = []).
Proof.
  destruct (callTool_calls R cfg name args w i) as [H1 H2].
  split; [exact H1 |]. split; [exact H2 |]. split.
  - unfold expected_requests. destruct (among name read_then_write); [lia |].
    destruct (name =? _); lia.
  - unfold callTool. destruct (no_credentials cfg).
    + cbn. intros before q o after H. destruct before; discriminate.
    + rewrite run_catch. intros before q o after H Hf.
      pose proof (dispatch_reports R cfg name args w i before q o after) as Hd.
      destruct (run w (dispatch R cfg name args) i) as [[[a | e] l] j]; cbn in *;
        exact (proj1 (Hd H Hf)).
Qed.

Lemma C3_counterexample :
  let found := respond 200 "OK" "{}" (Some (VObj [("title", VStr "T")])) in
  let two := call config (world 0 found) "ticktick_add_tag_to_task"
                  (VObj [("task_id", VStr "t1"); ("tag_name", VStr "home")]) in
  let none := call config (world 0 found) "ticktick_convert_datetime_to_ticktick_format"
                   (VObj [("datetime_string", VStr "2024-02-29")]) in
  (is_ok (result_of two) = true /\ List.length (exchanges two) = 2%nat) /\
  (is_ok (result_of none) = true /\ List.length (exchanges none) = 0%nat).
Proof. repeat split; reflexivity. Qed.

(** C4. When neither TICKTICK_ACCESS_TOKEN nor TICKTICK_TOKEN is set, a call
    of any tool name with any argument object fails with the [InvalidRequest]
    error of the credential guard; nothing was sent and neither the clock
    nor a template was used. *)
Theorem C4_no_credentials_fail_fast R cfg w i name args :
  TICKTICK_ACCESS_TOKEN cfg = None -> TICKTICK_TOKEN cfg = None ->
  run w (callTool R cfg name args) i =
  (Err (McpError InvalidRequest "TickTick credentials not properly configured"),
   [], i).
Proof.
  intros H1 H2. unfold callTool. rewrite (no_credentials_unset cfg H1 H2).
  reflexivity.
Qed.

Lemma C4_witness :
  run (world 0 (respond 200 "OK" "[]" (Some (VArr []))))
      (callTool runtime unconfigured "ticktick_get_tasks" (VObj [])) 0 =
  (Err (McpError InvalidRequest "TickTick credentials not properly configured"),
   [], 0%nat).
Proof. apply C4_no_credentials_fail_fast; reflexivity. Defined.

(** C5. If a request of a call is answered with a status outside 200..299,
    or the network call is rejected, then that request is the last one of
    the call (no retry, no recovery) and the call fails with one
    [InternalError] whose message ends with the upstream failure: the status
    code, the status text and the body of the answer, or the reason of the
    rejection. *)
Theorem C5_upstream_failure_surfaces R cfg w i name args before q o after :
  exchanges (run w (callTool R cfg name args) i) = (before ++ (q, o) :: after)%list ->
  failed o = true ->
  after = [] /\
  exists label,
    result_of (run w (callTool R cfg name args) i) =
    Err (McpError InternalError
           ("Error: " ++ label ++ ": " ++
            match o with
            | Responded r =>
                "TickTick API error: " ++ dec (status r) ++ " " ++ statusText r ++
                " - " ++ text r
            | Rejected reason => reason
            end)).
Proof.
  unfold callTool. destruct (no_credentials cfg).
  - cbn. intros H. destruct before; discriminate.
  - rewrite run_catch. intros H Hf.
    pose proof (dispatch_reports R cfg name args w i before q o after) as Hd.
    destruct (run w (dispatch R cfg name args) i) as [[[a | e] l] j]; cbn in *;
      destruct (Hd H Hf) as [H1 [label H2]]; try discriminate.
    split; [exact H1 |]. exists label. inversion H2; subst. cbn.
    destruct o; reflexivity.
Qed.

Lemma C5_witness :
  let o := respond 404 "Not Found" "no such habit" None in
  let x := call config (world 0 o) "ticktick_get_habit_stats"
                (VObj [("habit_id", VStr "h1")]) in
  @nil Exchange = [] /\
  exists label,
    result_of x =
    Err (McpError InternalError
           ("Error: " ++ label ++ ": " ++
            "TickTick API error: " ++ dec 404 ++ " " ++ "Not Found" ++ " - " ++
            "no such habit")).
Proof.
  exact (C5_upstream_failure_surfaces runtime config
           (world 0 (respond 404 "Not Found" "no such habit" None)) 0
           "ticktick_get_habit_stats" (VObj [("habit_id", VStr "h1")])
           [] (request_for config "/habit/h1/stats" "GET" VNull)
           (respond 404 "Not Found" "no such habit" None) []
           eq_refl eq_refl).
Defined.

(** C6. With a credential configured, create-task called with
    {title: 'Test', content: 'hello'} sends exactly one request, POST /task,
    whose body is the JSON text of the object {title: 'Test',
    content: 'hello', priority: 0, status: 0}; the object has no projectId
    key. *)
Theorem C6_create_task_request R cfg w i :
  no_credentials cfg = false ->
  requests (run w (callTool R cfg "ticktick_create_task"
                     (VObj [("title", VStr "Test"); ("content", VStr "hello")])) i) =
  [ {| url := "https://api.ticktick.com/open/v1/task";
       method := "POST";
       headers := [("Authorization", bearer cfg); ("Content-Type", "application/json")];
       body := Some ("{" ++ dq ++ "title" ++ dq ++ ":" ++ dq ++ "Test" ++ dq ++ "," ++
                     dq ++ "content" ++ dq ++ ":" ++ dq ++ "hello" ++ dq ++ "," ++
                     dq ++ "priority" ++ dq ++ ":0," ++
                     dq ++ "status" ++ dq ++ ":0}") |} ] /\
  createTask_data R (VStr "Test") (VStr "hello") VUndef (VNum 0) VUndef VUndef =
  Ok (VObj [("title", VStr "Test"); ("content", VStr "hello");
            ("priority", VNum 0); ("status", VNum 0)]) /\
  has_key "projectId" [("title", VStr "Test"); ("content", VStr "hello");
                       ("priority", VNum 0); ("status", VNum 0)] = false.
Proof.
  intros Hc. split; [| split; reflexivity].
  rewrite createTask_requests by exact Hc. reflexivity.
Qed.

Lemma C6_witness :
  requests (run (world 0 (respond 200 "OK" "{}" (Some (VObj []))))
              (callTool runtime config "ticktick_create_task"
                 (VObj [("title", VStr "Test"); ("content", VStr "hello")])) 0) =
  [ {| url := "https://api.ticktick.com/open/v1/task";
       method := "POST";
       headers := [("Authorization", bearer config); ("Content-Type", "application/json")];
       body := Some ("{" ++ dq ++ "title" ++ dq ++ ":" ++ dq ++ "Test" ++ dq ++ "," ++
                     dq ++ "content" ++ dq ++ ":" ++ dq ++ "hello" ++ dq ++ "," ++
                     dq ++ "priority" ++ dq ++ ":0," ++
                     dq ++ "status" ++ dq ++ ":0}") |} ] /\
  createTask_data runtime (VStr "Test") (VStr "hello") VUndef (VNum 0) VUndef VUndef =
  Ok (VObj [("title", VStr "Test"); ("content", VStr "hello");
            ("priority", VNum 0); ("status", VNum 0)]) /\
  has_key "projectId" [("title", VStr "Test"); ("content", VStr "hello");
                       ("priority", VNum 0); ("status", VNum 0)] = false.
Proof. apply C6_create_task_request. reflexivity. Defined.

(** C7. The template of get-tasks has no default for a missing
    [modifiedTime]: the text of a task without it ends in
    'Modified: Invalid Date' (the template of get-projects prints 'Unknown'
    in the same place).  So a call of get-tasks answered with 200 and one
    task that has only id, title, projectId, status and priority returns a
    text with that line. *)
Theorem C7_missing_modified_time_prints_invalid_date R :
  (forall task s,
     field task "modifiedTime" = VUndef ->
     getTasks_item R task = Ok s ->
     exists title id st prio project due tags,
       s = "**" ++ title ++ "** (ID: " ++ id ++ ")" ++ nl ++
           "- Status: " ++ st ++ nl ++
           "- Priority: " ++ prio ++ nl ++
           "- Project: " ++ project ++ nl ++
           due ++ tags ++
           "- Modified: Invalid Date" ++ nl) /\
  (let task := VObj [("id", VStr "1"); ("title", VStr "T"); ("projectId", VStr "p");
                     ("status", VNum 0); ("priority", VNum 0)] in
   let w := world 0 (respond 200 "OK" "[...]" (Some (VArr [task]))) in
   result_of (run w (callTool R config "ticktick_get_tasks" (VObj [])) 0) =
   Ok (" **TickTick Tasks** (1 found):" ++ nl ++ nl ++
       "**T** (ID: 1)" ++ nl ++
       "- Status:  Pending" ++ nl ++
       "- Priority:  None" ++ nl ++
       "- Project: p" ++ nl ++
       "- Modified: Invalid Date" ++ nl)).
Proof.
  split; [| reflexivity].
  intros task s Hm H. unfold getTasks_item in H. steps H.
  match goal with E : show_date _ _ _ = Ok _ |- _ => rename E into Hd end.
  unfold show_date, field in *.
  destruct (get task "modifiedTime") as [x |]; cbn [rbind] in Hd; [| discriminate].
  subst x. cbn in Hd. inversion Hd; subst. inversion H.
  eexists _, _, _, _, _, _, _. reflexivity.
Qed.

Lemma C7_witness :
  let task := VObj [("id", VStr "1"); ("title", VStr "T"); ("projectId", VStr "p");
                    ("status", VNum 0); ("priority", VNum 0)] in
  exists title id st prio project due tags,
    "**T** (ID: 1)" ++ nl ++
    "- Status:  Pending" ++ nl ++
    "- Priority:  None" ++ nl ++
    "- Project: p" ++ nl ++
    "- Modified: Invalid Date" ++ nl =
    "**" ++ title ++ "** (ID: " ++ id ++ ")" ++ nl ++
    "- Status: " ++ st ++ nl ++
    "- Priority: " ++ prio ++ nl ++
    "- Project: " ++ project ++ nl ++
    due ++ tags ++
    "- Modified: Invalid Date" ++ nl.
Proof.
  intros task.
  exact (proj1 (C7_missing_modified_time_prints_invalid_date runtime)
               task _ eq_refl eq_refl).
Defined.

(** C8. For a tool that does not read the clock before its first request,
    the first request of a call is determined by the tool name, the
    arguments and the configuration: it is the same whatever the time, the
    answers of the upstream and the calls made before.  For such a tool that
    is not one of the seven that read before they write, the whole list of
    requests is the same. *)
Theorem C8_request_independent_of_world R cfg name args w1 w2 i1 i2 :
  among name reads_clock = false ->
  hd_error (requests (run w1 (callTool R cfg name args) i1)) =
  hd_error (requests (run w2 (callTool R cfg name args) i2)) /\
  (among name read_then_write = false ->
   requests (run w1 (callTool R cfg name args) i1) =
   requests (run w2 (callTool R cfg name args) i2)).
Proof.
  intros Hn. destruct (callTool_fixed R cfg name args Hn) as [first H].
  pose proof (H w1 i1) as H1. pose proof (H w2 i2) as H2.
  split; [congruence |]. intros Hrw.
  pose proof (callTool_calls R cfg name args w1 i1) as [L1 _].
  pose proof (callTool_calls R cfg name args w2 i2) as [L2 _].
  assert (E : (expected_requests name <= 1)%nat).
  { unfold expected_requests. rewrite Hrw. destruct (name =? _); lia. }
  unfold requests in *.
  destruct (exchanges (run w1 (callTool R cfg name args) i1)) as [| a [| b l]];
    destruct (exchanges (run w2 (callTool R cfg name args) i2)) as [| a' [| b' l']];
    cbn in *; try lia; congruence.
Qed.

Lemma C8_witness :
  let answer1 := respond 200 "OK" "[]" (Some (VArr [])) in
  let answer2 := respond 500 "Internal Server Error" "" None in
  let args := VObj [("project_id", VStr "p1"); ("completed", VBool false)] in
  hd_error (requests (run (world 1709210096789 answer1)
                        (callTool runtime config "ticktick_get_tasks" args) 0)) =
  hd_error (requests (run (world 1709296496789 answer2)
                        (callTool runtime config "ticktick_get_tasks" args) 7)) /\
  (among "ticktick_get_tasks" read_then_write = false ->
   requests (run (world 1709210096789 answer1)
               (callTool runtime config "ticktick_get_tasks" args) 0) =
   requests (run (world 1709296496789 answer2)
               (callTool runtime config "ticktick_get_tasks" args) 7)).
Proof. apply C8_request_independent_of_world. reflexivity. Defined.

Lemma C8_counterexample :
  let answer := respond 200 "OK" "[]" (Some (VArr [])) in
  let first := call config (world 1709210096789 answer) "ticktick_get_today_tasks"
                    (VObj []) in
  let second := call config (world 1709296496789 answer) "ticktick_get_today_tasks"
                     (VObj []) in
  map method (requests first) = ["GET"] /\
  map method (requests second) = ["GET"] /\
  map url (requests first) =
    ["https://api.ticktick.com/open/v1/task?dueBefore=2024-02-29&dueAfter=2024-02-28"] /\
  map url (requests second) =
    ["https://api.ticktick.com/open/v1/task?dueBefore=2024-03-01&dueAfter=2024-02-29"] /\
  requests first <> requests second.
Proof. repeat split; try reflexivity. cbv. discriminate. Qed.

(** C9. get-tasks and create-task send [project_id] under the name
    projectId when it is truthy, and leave it out when it is falsy (the
    empty string, 0, false, null, undefined).  With a credential, an
    arguments object, a [limit] that has a text and a [due_date] that is a
    date when it is given: for a truthy [project_id] with the text [s],
    get-tasks sends exactly one request, a GET of /task whose query starts
    with projectId=s (form-encoded), and create-task sends exactly one
    request, a POST of /task whose body object holds the argument under
    projectId; for a falsy [project_id] both send their one request
    without it. *)
Theorem C9_project_id_is_sent_as_projectId R cfg w i args s lim :
  no_credentials cfg = false ->
  destructure args = Ok tt ->
  to_str (field args "project_id") = Ok s ->
  to_str (dflt (field args "limit") (VNum 50)) = Ok lim ->
  (truthy (field args "due_date") = true ->
   exists t, new_Date R (field args "due_date") = Ok (Some t)) ->
  let status :=
    if is_undefined (field args "completed") then []
    else [("status", if truthy (field args "completed") then "2" else "0")] in
  (truthy (field args "project_id") = true ->
   requests (run w (callTool R cfg "ticktick_get_tasks" args) i) =
   [request_for cfg
      ("/task?" ++ params_str (("projectId", s) :: status ++ [("limit", lim)])%list)
      "GET" VNull] /\
   exists fields,
     requests (run w (callTool R cfg "ticktick_create_task" args) i) =
     [request_for cfg "/task" "POST" (VObj fields)] /\
     lookup "projectId" fields = field args "project_id") /\
  (truthy (field args "project_id") = false ->
   requests (run w (callTool R cfg "ticktick_get_tasks" args) i) =
   [request_for cfg ("/task?" ++ params_str (status ++ [("limit", lim)])%list)
      "GET" VNull] /\
   exists fields,
     requests (run w (callTool R cfg "ticktick_create_task" args) i) =
     [request_for cfg "/task" "POST" (VObj fields)] /\
     has_key "projectId" fields = false).
Proof.
  intros Hc Hd Hs Hl Hdue status.
  assert (Hg : requests (run w (callTool R cfg "ticktick_get_tasks" args) i) =
               [request_for cfg
                  ("/task?" ++
                   params_str ((if truthy (field args "project_id")
                                then [("projectId", s)] else []) ++
                               status ++ [("limit", lim)])%list)
                  "GET" VNull]).
  { rewrite (getTasks_requests R cfg Hc), Hd.
    rewrite (getTasks_endpoint_value _ _ _ s lim Hs Hl). reflexivity. }
  destruct (createTask_data_ok R (field args "title") (field args "content")
              (field args "project_id") (dflt (field args "priority") (VNum 0))
              (field args "due_date") (field args "tags") Hdue) as [data Hdata].
  destruct (createTask_data_fields _ _ _ _ _ _ _ _ Hdata)
    as [fields [-> [_ [_ [_ [_ [Hk _]]]]]]].
  assert (Hcr : requests (run w (callTool R cfg "ticktick_create_task" args) i) =
                [request_for cfg "/task" "POST" (VObj fields)]).
  { rewrite (createTask_requests R cfg Hc), Hd, Hdata. reflexivity. }
  split; intros Hp; rewrite Hp in *.
  - split; [exact Hg |]. exists fields. split; [exact Hcr |].
    destruct (createTask_data_project_id _ _ _ _ _ _ _ _ Hp Hdata) as [f' [E Hl']].
    injection E as <-. exact Hl'.
  - split; [exact Hg |]. exists fields. split; [exact Hcr | exact Hk].
Qed.

Lemma C9_witness :
  let args := VObj [("title", VStr "Test"); ("project_id", VStr "inbox 7")] in
  let w := world 0 (respond 200 "OK" "[]" (Some (VArr []))) in
  requests (run w (callTool runtime config "ticktick_get_tasks" args) 0) =
  [ {| url := "https://api.ticktick.com/open/v1/task?projectId=inbox+7&limit=50";
       method := "GET";
       headers := [("Authorization", "Bearer secret");
                   ("Content-Type", "application/json")];
       body := None |} ] /\
  exists fields,
    requests (run w (callTool runtime config "ticktick_create_task" args) 0) =
    [request_for config "/task" "POST" (VObj fields)] /\
    lookup "projectId" fields = VStr "inbox 7".
Proof.
  intros args w.
  exact (proj1 (C9_project_id_is_sent_as_projectId runtime config w 0 args
                  "inbox 7" "50" eq_refl eq_refl eq_refl eq_refl
                  (fun H => match Bool.diff_false_true H with end))
               eq_refl).
Defined.

Lemma C9_counterexample :
  let args := VObj [("title", VStr "Test"); ("project_id", VStr "")] in
  let w := world 0 (respond 200 "OK" "[]" (Some (VArr []))) in
  requests (call config w "ticktick_get_tasks" args) =
    [request_for config "/task?limit=50" "GET" VNull] /\
  map body (requests (call config w "ticktick_create_task" args)) =
    [Some ("{" ++ dq ++ "title" ++ dq ++ ":" ++ dq ++ "Test" ++ dq ++ "," ++
           dq ++ "content" ++ dq ++ ":" ++ dq ++ dq ++ "," ++
           dq ++ "priority" ++ dq ++ ":0," ++
           dq ++ "status" ++ dq ++ ":0}")].
Proof. split; reflexivity. Qed.





(** * Further properties of the tools *)



(** X2. A request is only sent with a token that is set and not empty:
    TICKTICK_ACCESS_TOKEN when it is set and not empty, TICKTICK_TOKEN
    otherwise.  The header is never 'Bearer undefined'. *)
Theorem requests_carry_a_configured_token R cfg w i name args q :
  In q (requests (run w (callTool R cfg name args) i)) ->
  exists token,
    token <> "" /\
    headers q = [("Authorization", "Bearer " ++ token);
                 ("Content-Type", "application/json")] /\
    (TICKTICK_ACCESS_TOKEN cfg = Some token \/
     (TICKTICK_ACCESS_TOKEN cfg = None \/ TICKTICK_ACCESS_TOKEN cfg = Some "") /\
     TICKTICK_TOKEN cfg = Some token).
Proof.
  intros H. pose proof (sent_with_credentials R cfg w i name args q H) as Hc.
  destruct (callTool_via R cfg name args w i q H) as [e [m [d ->]]].
  unfold no_credentials in Hc. cbn [headers request_for]. unfold bearer, or_.
  destruct (TICKTICK_ACCESS_TOKEN cfg) as [a |] eqn:Ea;
    destruct (TICKTICK_TOKEN cfg) as [b |] eqn:Eb; cbn in *.
  - destruct (String.eqb_spec a "") as [Ha | Ha]; cbn in *.
    + destruct (String.eqb_spec b "") as [Hb | Hb]; [discriminate |].
      exists b. subst a. repeat split; auto.
    + exists a. repeat split; auto.
  - destruct (String.eqb_spec a "") as [Ha | Ha]; [discriminate |].
    exists a. repeat split; auto.
  - destruct (String.eqb_spec b "") as [Hb | Hb]; [discriminate |].
    exists b. repeat split; auto.
  - discriminate.
Qed.

Lemma requests_carry_a_configured_token_witness :
  let cfg := {| TICKTICK_ACCESS_TOKEN := Some ""; TICKTICK_TOKEN := Some "legacy" |} in
  let q := request_for cfg "/tag" "GET" VNull in
  exists token,
    token <> "" /\
    headers q = [("Authorization", "Bearer " ++ token);
                 ("Content-Type", "application/json")] /\
    (TICKTICK_ACCESS_TOKEN cfg = Some token \/
     (TICKTICK_ACCESS_TOKEN cfg = None \/ TICKTICK_ACCESS_TOKEN cfg = Some "") /\
     TICKTICK_TOKEN cfg = Some token).
Proof.
  intros cfg q.
  apply (requests_carry_a_configured_token runtime cfg
           (world 0 (respond 200 "OK" "[]" (Some (VArr [])))) 0
           "ticktick_get_tags" VUndef q).
  left. reflexivity.
Defined.

(** X3. The verbs of the requests of a call are the verbs its method is
    written to send, in the same order: all of them when the call returns a
    text, the first of them when it fails. *)
Theorem requests_follow_the_verbs R cfg w i name args :
  (exists rest,
     verbs_of name =
     (map method (requests (run w (callTool R cfg name args) i)) ++ rest)%list) /\
  (is_ok (result_of (run w (callTool R cfg name args) i)) = true ->
   map method (requests (run w (callTool R cfg name args) i)) = verbs_of name).
Proof. exact (callTool_sends R cfg name args w i). Qed.

(** X4. A tool whose name starts with ticktick_get_ only reads: each of its
    requests is a GET without body. *)
Theorem get_tools_only_read R cfg w i name args q :
  prefix "ticktick_get_" name = true ->
  In q (requests (run w (callTool R cfg name args) i)) ->
  method q = "GET" /\ body q = None.
Proof.
  intros Hp H. pose proof (method_in_verbs R cfg w i name args q H) as Hv.
  assert (Hm : method q = "GET").
  { pose proof (verbs_of_In name _ Hv) as Ht.
    assert (Hall : forallb (fun nv => implb (prefix "ticktick_get_" (fst nv))
                                            (forallb (String.eqb "GET") (snd nv)))
                           verbs = true) by (vm_compute; reflexivity).
    rewrite forallb_forall in Hall. specialize (Hall _ Ht). cbn [fst snd] in Hall.
    rewrite Hp in Hall. cbn [implb] in Hall. rewrite forallb_forall in Hall.
    specialize (Hall _ Hv). symmetry. now apply String.eqb_eq. }
  split; [exact Hm |].
  destruct (callTool_via R cfg name args w i q H) as [e [m [d ->]]].
  cbn in *. subst m. cbn. now rewrite andb_false_r.
Qed.

Lemma get_tools_only_read_witness :
  let q := request_for config "/habit/h1/stats" "GET" VNull in
  method q = "GET" /\ body q = None.
Proof.
  intros q.
  apply (get_tools_only_read runtime config
           (world 0 (respond 200 "OK" "{}" (Some (VObj [])))) 0
           "ticktick_get_habit_stats" (VObj [("habit_id", VStr "h1")]) q).
  - reflexivity.
  - left. reflexivity.
Defined.

(** X5. DELETE is sent by seven tools only: delete-task, delete-habit,
    delete-tag, remove-collaborator, delete-task-note,
    delete-task-attachment and delete-task-template.  No other tool, with
    whatever arguments, sends a DELETE. *)
Theorem only_delete_tools_delete R cfg w i name args q :
  In q (requests (run w (callTool R cfg name args) i)) ->
  method q = "DELETE" ->
  among name deleting = true.
Proof.
  intros H Hm. pose proof (method_in_verbs R cfg w i name args q H) as Hv.
  pose proof (verbs_of_In name _ Hv) as Ht. rewrite Hm in Hv.
  assert (Hall : forallb (fun nv => implb (existsb (String.eqb "DELETE") (snd nv))
                                          (among (fst nv) deleting))
                         verbs = true) by (vm_compute; reflexivity).
  rewrite forallb_forall in Hall. specialize (Hall _ Ht). cbn [fst snd] in Hall.
  assert (He : existsb (String.eqb "DELETE") (verbs_of name) = true).
  { apply existsb_exists. exists "DELETE". split; [exact Hv | reflexivity]. }
  rewrite He in Hall. exact Hall.
Qed.

Lemma only_delete_tools_delete_witness :
  among "ticktick_delete_tag" deleting = true.
Proof.
  apply (only_delete_tools_delete runtime config
           (world 0 (respond 200 "OK" "{}" (Some (VObj [])))) 0
           "ticktick_delete_tag" (VObj [("tag_id", VStr "g1")])
           (request_for config "/tag/g1" "DELETE" VNull)).
  - left. reflexivity.
  - reflexivity.
Defined.

(** X6. The tool list and the dispatch agree: a name is declared in the
    tool list exactly when the switch of the handler has a case for it, and
    the 112 names are pairwise different. *)
Theorem advertised_tools_are_dispatched R cfg name :
  (registered name = true <-> exists f, find_tool name (tools R cfg) = Some f) /\
  NoDup (map fst (tools R cfg)) /\
  List.length (tools R cfg) = 112%nat.
Proof.
  split; [| split; [| reflexivity]].
  - split; [apply registered_found |].
    intros [f E]. destruct (registered name) eqn:Hr; [reflexivity |].
    rewrite (unregistered_not_found R cfg name Hr) in E. discriminate.
  - rewrite names_agree.
    assert (H : forall l : list string,
               (fix nodup (l : list string) : bool :=
                  match l with
                  | [] => true
                  | x :: r => (negb (existsb (String.eqb x) r) && nodup r)%bool
                  end) l = true -> NoDup l).
    { induction l as [| x r IH]; [constructor |].
      intros Hx. apply andb_prop in Hx. destruct Hx as [H1 H2].
      constructor; [| auto].
      intros Hin. apply negb_true_iff in H1.
      assert (existsb (String.eqb x) r = true).
      { apply existsb_exists. exists x. split; [exact Hin | apply String.eqb_refl]. }
      congruence. }
    apply H. vm_compute. reflexivity.
Qed.






(** X8. With a credential configured and an arguments object, every
    failure of a registered tool is reported as an [InternalError] whose
    message is 'Error: ', the label of the tool ('Failed to ...'), ': ' and
    the message of the cause, whether the cause is the upstream, the network
    or the template. *)
Theorem tool_errors_carry_the_label R cfg w i name args e :
  no_credentials cfg = false ->
  registered name = true ->
  destructure args = Ok tt ->
  result_of (run w (callTool R cfg name args) i) = Err e ->
  exists cause,
    e = McpError InternalError ("Error: " ++ label_of name ++ ": " ++ cause).
Proof.
  intros Hc Hr Hd. unfold callTool, dispatch. rewrite Hc.
  destruct (registered_found R cfg name Hr) as [f E]. rewrite E.
  apply find_tool_In in E.
  pose proof (proj1 (Forall_forall _ _) (tools_labelled R cfg) _ E args Hd w i) as H.
  cbn [fst snd] in H. unfold result_of in *. rewrite run_catch.
  destruct (run w (f args) i) as [[[a | e0] l] j]; cbn in *; [discriminate |].
  destruct (H e0 eq_refl) as [cause ->]. intros H1. inversion H1.
  now exists cause.
Qed.

Lemma tool_errors_carry_the_label_witness :
  exists cause,
    McpError InternalError
      "Error: Failed to get tasks: TickTick API error: 503 Service Unavailable - busy" =
    McpError InternalError ("Error: " ++ label_of "ticktick_get_tasks" ++ ": " ++ cause).
Proof.
  apply (tool_errors_carry_the_label runtime config
           (world 0 (respond 503 "Service Unavailable" "busy" None)) 0
           "ticktick_get_tasks" (VObj [])); reflexivity.
Defined.

(** X9. Whatever its arguments, create-task creates an open task: each
    request is a POST of /task whose body is the JSON text of an object with
    status 0, the given title, the given priority (0 when it is undefined)
    and the content ('' when it is falsy); the object has projectId and
    dueDate exactly when the argument is truthy, and no key besides title,
    content, priority, status, projectId, dueDate and tags. *)
Theorem createTask_creates_an_open_task R cfg w i args q :
  In q (requests (run w (callTool R cfg "ticktick_create_task" args) i)) ->
  exists fields,
    method q = "POST" /\
    url q = "https://api.ticktick.com/open/v1/task" /\
    body q = stringify (VObj fields) /\
    lookup "status" fields = VNum 0 /\
    lookup "title" fields = field args "title" /\
    lookup "priority" fields = dflt (field args "priority") (VNum 0) /\
    lookup "content" fields = or_ (field args "content") (VStr "") /\
    has_key "projectId" fields = truthy (field args "project_id") /\
    has_key "dueDate" fields = truthy (field args "due_date") /\
    (forall k, has_key k fields = true ->
               In k ["title"; "content"; "priority"; "status"; "projectId";
                     "dueDate"; "tags"]).
Proof.
  intros H. pose proof (sent_with_credentials R cfg w i _ args q H) as Hc.
  rewrite (createTask_requests R cfg Hc) in H.
  destruct (destructure args); [| destruct H].
  destruct (createTask_data _ _ _ _ _ _ _) as [data |] eqn:E; [| destruct H].
  destruct H as [<- | []].
  destruct (createTask_data_fields _ _ _ _ _ _ _ _ E)
    as [fields [-> [T [C [P [S [J [D [_ K]]]]]]]]].
  exists fields. repeat split; auto.
Qed.

Lemma createTask_creates_an_open_task_witness :
  let args := VObj [("title", VStr "Buy milk"); ("status", VNum 2);
                    ("completed", VBool true); ("priority", VNum 5)] in
  let q := request_for config "/task" "POST"
             (VObj [("title", VStr "Buy milk"); ("content", VStr "");
                    ("priority", VNum 5); ("status", VNum 0)]) in
  exists fields,
    method q = "POST" /\
    url q = "https://api.ticktick.com/open/v1/task" /\
    body q = stringify (VObj fields) /\
    lookup "status" fields = VNum 0 /\
    lookup "title" fields = field args "title" /\
    lookup "priority" fields = dflt (field args "priority") (VNum 0) /\
    lookup "content" fields = or_ (field args "content") (VStr "") /\
    has_key "projectId" fields = truthy (field args "project_id") /\
    has_key "dueDate" fields = truthy (field args "due_date") /\
    (forall k, has_key k fields = true ->
               In k ["title"; "content"; "priority"; "status"; "projectId";
                     "dueDate"; "tags"]).
Proof.
  intros args q.
  apply (createTask_creates_an_open_task runtime config
           (world 0 (respond 200 "OK" "{}" (Some (VObj [])))) 0 args q).
  left. reflexivity.
Defined.

(** X10. update-task sends the fields it is given and no other: each
    request is a POST of /task/<task_id> whose body is the JSON text of an
    object that has title, content, priority, dueDate and status exactly
    when the argument title, content, priority, due_date and completed is
    not undefined, with title, content and priority as given, and no
    other key. *)
Theorem updateTask_sends_what_is_given R cfg w i args q :
  In q (requests (run w (callTool R cfg "ticktick_update_task" args) i)) ->
  exists id fields,
    to_str (field args "task_id") = Ok id /\
    method q = "POST" /\
    url q = "https://api.ticktick.com/open/v1/task/" ++ id /\
    body q = stringify (VObj fields) /\
    has_key "title" fields = negb (is_undefined (field args "title")) /\
    has_key "content" fields = negb (is_undefined (field args "content")) /\
    has_key "priority" fields = negb (is_undefined (field args "priority")) /\
    has_key "dueDate" fields = negb (is_undefined (field args "due_date")) /\
    has_key "status" fields = negb (is_undefined (field args "completed")) /\
    (is_undefined (field args "title") = false ->
     lookup "title" fields = field args "title") /\
    (is_undefined (field args "content") = false ->
     lookup "content" fields = field args "content") /\
    (is_undefined (field args "priority") = false ->
     lookup "priority" fields = field args "priority") /\
    (forall k, has_key k fields = true ->
               In k ["title"; "content"; "priority"; "dueDate"; "status"]).
Proof.
  intros H. pose proof (sent_with_credentials R cfg w i _ args q H) as Hc.
  rewrite (updateTask_requests R cfg Hc) in H.
  destruct (destructure args); [| destruct H].
  destruct (updateTask_data _ _ _ _ _ _) as [data |] eqn:E; [| destruct H].
  destruct (to_str _) as [id |] eqn:Ei; [| destruct H].
  destruct H as [<- | []].
  destruct (updateTask_data_fields _ _ _ _ _ _ _ E)
    as [fields [-> [T [C [P [D [S [T' [C' [P' K]]]]]]]]]].
  exists id, fields. repeat split; auto.
Qed.

Lemma updateTask_sends_what_is_given_witness :
  let args := VObj [("task_id", VStr "t1"); ("priority", VNum 3)] in
  let q := request_for config "/task/t1" "POST" (VObj [("priority", VNum 3)]) in
  exists id fields,
    to_str (field args "task_id") = Ok id /\
    method q = "POST" /\
    url q = "https://api.ticktick.com/open/v1/task/" ++ id /\
    body q = stringify (VObj fields) /\
    has_key "title" fields = negb (is_undefined (field args "title")) /\
    has_key "content" fields = negb (is_undefined (field args "content")) /\
    has_key "priority" fields = negb (is_undefined (field args "priority")) /\
    has_key "dueDate" fields = negb (is_undefined (field args "due_date")) /\
    has_key "status" fields = negb (is_undefined (field args "completed")) /\
    (is_undefined (field args "title") = false ->
     lookup "title" fields = field args "title") /\
    (is_undefined (field args "content") = false ->
     lookup "content" fields = field args "content") /\
    (is_undefined (field args "priority") = false ->
     lookup "priority" fields = field args "priority") /\
    (forall k, has_key k fields = true ->
               In k ["title"; "content"; "priority"; "dueDate"; "status"]).
Proof.
  intros args q.
  apply (updateTask_sends_what_is_given runtime config
           (world 0 (respond 200 "OK" "{}" (Some (VObj [])))) 0 args q).
  left. reflexivity.
Defined.


(** X11. A due date that is no date stops the call before the network:
    when create-task is given a truthy [due_date], or update-task a
    [due_date] that is not undefined, and [new Date(due_date)] is the
    Invalid Date, the call sends nothing and fails with the RangeError of
    [toISOString] under the label of the tool. *)
Theorem invalid_due_date_sends_nothing R cfg w i args :
  no_credentials cfg = false ->
  new_Date R (field args "due_date") = Ok None ->
  (truthy (field args "due_date") = true ->
   run w (callTool R cfg "ticktick_create_task" args) i =
   (Err (McpError InternalError
           ("Error: Failed to create task: " ++ engine_message R InvalidTime)),
    [], i)) /\
  (field args "due_date" <> VUndef ->
   run w (callTool R cfg "ticktick_update_task" args) i =
   (Err (McpError InternalError
           ("Error: Failed to update task: " ++ engine_message R InvalidTime)),
    [], i)).
Proof.
  intros Hc Hn. split; intros Ht.
  - now apply createTask_run_invalid.
  - now apply updateTask_run_invalid.
Qed.

Lemma invalid_due_date_sends_nothing_witness :
  let args := VObj [("task_id", VStr "t1"); ("title", VStr "Pay rent");
                    ("due_date", VStr "next friday")] in
  let w := world 0 (respond 200 "OK" "{}" (Some (VObj []))) in
  run w (callTool runtime config "ticktick_create_task" args) 0 =
  (Err (McpError InternalError "Error: Failed to create task: Invalid time value"),
   [], 0%nat) /\
  run w (callTool runtime config "ticktick_update_task" args) 0 =
  (Err (McpError InternalError "Error: Failed to update task: Invalid time value"),
   [], 0%nat).
Proof.
  intros args w.
  destruct (invalid_due_date_sends_nothing runtime config w 0 args eq_refl eq_refl)
    as [H1 H2].
  split; [apply H1; reflexivity | apply H2; discriminate].
Defined.

(** X12. A due date is sent as the ISO 8601 text of [new Date(due_date)]:
    when that date is the time value [t], every request of create-task
    (for a truthy [due_date]) and of update-task (for a [due_date] that is
    not undefined) has a body whose dueDate is [t] in the form
    YYYY-MM-DDTHH:mm:ss.sssZ.  For update-task this includes null, which
    [new Date] turns into the time value 0. *)
Theorem due_date_is_sent_as_ISO R cfg w i args t q :
  new_Date R (field args "due_date") = Ok (Some t) ->
  (truthy (field args "due_date") = true ->
   In q (requests (run w (callTool R cfg "ticktick_create_task" args) i)) ->
   exists fields, body q = stringify (VObj fields) /\
                  lookup "dueDate" fields = VStr (iso_of_time t)) /\
  (field args "due_date" <> VUndef ->
   In q (requests (run w (callTool R cfg "ticktick_update_task" args) i)) ->
   exists fields, body q = stringify (VObj fields) /\
                  lookup "dueDate" fields = VStr (iso_of_time t)).
Proof.
  intros Hn. split; intros Ht H;
    pose proof (sent_with_credentials R cfg w i _ args q H) as Hc.
  - rewrite (createTask_requests R cfg Hc) in H.
    destruct (destructure args); [| destruct H].
    destruct (createTask_data _ _ _ _ _ _ _) as [data |] eqn:E; [| destruct H].
    destruct H as [<- | []].
    destruct (createTask_data_due _ _ _ _ _ _ _ _ _ Ht Hn E) as [fields [-> Hl]].
    exists fields. split; [reflexivity | exact Hl].
  - rewrite (updateTask_requests R cfg Hc) in H.
    destruct (destructure args); [| destruct H].
    destruct (updateTask_data _ _ _ _ _ _) as [data |] eqn:E; [| destruct H].
    destruct (to_str _) as [id |]; [| destruct H].
    destruct H as [<- | []].
    destruct (updateTask_data_due _ _ _ _ _ _ _ _ Ht Hn E) as [fields [-> Hl]].
    exists fields. split; [reflexivity | exact Hl].
Qed.

Lemma due_date_is_sent_as_ISO_witness :
  let args := VObj [("task_id", VStr "t1"); ("due_date", VNull)] in
  let q := request_for config "/task/t1" "POST"
             (VObj [("dueDate", VStr "1970-01-01T00:00:00.000Z")]) in
  exists fields, body q = stringify (VObj fields) /\
                 lookup "dueDate" fields = VStr "1970-01-01T00:00:00.000Z".
Proof.
  intros args q.
  apply (proj2 (due_date_is_sent_as_ISO runtime config
                  (world 0 (respond 200 "OK" "{}" (Some (VObj [])))) 0 args 0 q
                  eq_refl)).
  - discriminate.
  - left. reflexivity.
Defined.


(** X13. add-tag-to-task reads the task and writes it back with the tag:
    when the upstream answers the GET of /task/<task_id> with a task object
    whose tags are [tags] (none when the property is missing or falsy), the
    call sends that GET and then one PUT of the same task whose tags hold
    the new tag.  A tag the task has already is not added again, a new tag
    goes to the end, and every other property of the task is written back
    as it was read. *)
Theorem addTagToTask_adds_the_tag R cfg w i args id name r fields tags :
  no_credentials cfg = false ->
  to_str (field args "task_id") = Ok id ->
  field args "tag_name" = VStr name ->
  upstream w i (request_for cfg ("/task/" ++ id) "GET" VNull) = Responded r ->
  ok r = true -> json r = Some (VObj fields) ->
  or_ (lookup "tags" fields) (VArr []) = VArr tags ->
  exists tags' written,
    requests (run w (callTool R cfg "ticktick_add_tag_to_task" args) i) =
    [request_for cfg ("/task/" ++ id) "GET" VNull;
     request_for cfg ("/task/" ++ id) "PUT" (VObj written)] /\
    lookup "tags" written = VArr tags' /\
    In (VStr name) tags' /\
    (In (VStr name) tags -> tags' = tags) /\
    (~ In (VStr name) tags -> tags' = (tags ++ [VStr name])%list) /\
    (forall k, k <> "tags" -> lookup k written = lookup k fields).
Proof.
  intros Hc Hid Hn Hu Hk Hj Ht.
  eexists _, _. split; [apply (addTagToTask_requests R cfg Hc w i args id name r fields tags);
                        assumption |].
  split; [apply lookup_set_prop |].
  destruct (existsb (same_value_zero (VStr name)) tags) eqn:E.
  - apply includes_str in E. repeat split; auto; try contradiction.
    intros k Hk'. now apply lookup_set_prop_other.
  - assert (Hn' : ~ In (VStr name) tags).
    { intros H. apply includes_str in H. congruence. }
    repeat split; auto; try contradiction.
    + apply in_or_app. right. now left.
    + intros k Hk'. now apply lookup_set_prop_other.
Qed.

Lemma addTagToTask_adds_the_tag_witness :
  let task := [("id", VStr "t1"); ("title", VStr "Pay rent");
               ("tags", VArr [VStr "home"])] in
  let r := {| status := 200; statusText := "OK"; text := "{...}";
              json := Some (VObj task) |} in
  let args := VObj [("task_id", VStr "t1"); ("tag_name", VStr "money")] in
  exists tags' written,
    requests (run (world 0 (Responded r))
                (callTool runtime config "ticktick_add_tag_to_task" args) 0) =
    [request_for config "/task/t1" "GET" VNull;
     request_for config "/task/t1" "PUT" (VObj written)] /\
    lookup "tags" written = VArr tags' /\
    In (VStr "money") tags' /\
    (In (VStr "money") [VStr "home"] -> tags' = [VStr "home"]) /\
    (~ In (VStr "money") [VStr "home"] -> tags' = [VStr "home"; VStr "money"]) /\
    (forall k, k <> "tags" -> lookup k written = lookup k task).
Proof.
  intros task r args.
  apply (addTagToTask_adds_the_tag runtime config (world 0 (Responded r)) 0 args
           "t1" "money" r task [VStr "home"]); reflexivity.
Defined.






(** X16. get-projects leaves out the closed projects unless
    [include_archived] is truthy: when the upstream answers with an array
    and the call returns a text, the number in the heading is the number of
    projects shown, these are the projects of the answer in their order
    (without those whose [closed] is truthy), and the text has one block for
    each, starting with its name and id. *)
Theorem getProjects_hides_closed_projects R cfg w i args r projects text :
  no_credentials cfg = false ->
  upstream w i (request_for cfg "/project" "GET" VNull) = Responded r ->
  ok r = true -> json r = Some (VArr projects) ->
  result_of (run w (callTool R cfg "ticktick_get_projects" args) i) = Ok text ->
  exists shown items,
    shown = (if truthy (dflt (field args "include_archived") (VBool false))
             then projects
             else List.filter (fun p => negb (truthy (field p "closed"))) projects) /\
    text = " **TickTick Projects** (" ++ dec (Z.of_nat (List.length shown)) ++
           " found):" ++ nl ++ nl ++ concat nl items /\
    Forall2 (fun project item =>
               exists name id rest,
                 show project "name" = Ok name /\ show project "id" = Ok id /\
                 item = "**" ++ name ++ "** (ID: " ++ id ++ ")" ++ nl ++ rest)
            shown items.
Proof.
  intros Hc Hu Hk Hj H. unfold callTool in H. rewrite Hc in H.
  change (dispatch R cfg "ticktick_get_projects" args) with (getProjects R cfg args) in H.
  unfold getProjects, GET in H.
  destruct (destructure args) as [[] |] eqn:Hd; [| discriminate H].
  cbn [lift bind] in H. cbv zeta in H.
  apply (result_of_format R cfg w _ _ _ i r _ text Hu Hk Hj) in H.
  cbv beta in H. steps H. inversion H. clear H.
  match goal with E : (if _ then _ else _) = Ok ?v |- _ =>
    rename E into Hf; rename v into filtered end.
  match goal with E : map_ _ _ = Ok ?v |- _ => rename E into Hm; rename v into items end.
  match goal with E : show filtered "length" = Ok ?v |- _ => rename E into Hn end.
  assert (Hs : exists shown, filtered = VArr shown /\
            shown = (if truthy (dflt (field args "include_archived") (VBool false))
                     then projects
                     else List.filter (fun p => negb (truthy (field p "closed")))
                                      projects)).
  { destruct (truthy _).
    - inversion Hf. now exists projects.
    - unfold filter in Hf. cbn [array_of rbind] in Hf.
      destruct (filterR _ projects) as [l' |] eqn:E; cbn [rbind] in Hf; [| discriminate].
      inversion Hf. exists l'. split; [reflexivity |].
      destruct (filterR_filter _ _ _ E) as [-> Hall].
      apply filter_ext_in. intros p Hp. destruct (Hall p Hp) as [b Hb].
      unfold field. destruct (get p "closed") as [c |]; cbn [rbind] in *;
        [reflexivity | discriminate]. }
  destruct Hs as [shown [-> Hs]]. exists shown, items. split; [exact Hs |].
  cbn in Hn. inversion Hn. split; [reflexivity |].
  unfold map_ in Hm. cbn [array_of rbind] in Hm. apply mapR_Forall2 in Hm.
  eapply Forall2_impl; [| exact Hm]. cbn beta. intros p item Hi.
  steps Hi. inversion Hi. eexists _, _, _. repeat split; eauto.
Qed.

Lemma getProjects_hides_closed_projects_witness :
  let open := VObj [("id", VStr "p1"); ("name", VStr "Home")] in
  let closed := VObj [("id", VStr "p2"); ("name", VStr "Old"); ("closed", VBool true)] in
  let r := {| status := 200; statusText := "OK"; text := "[...]";
              json := Some (VArr [open; closed]) |} in
  let text := " **TickTick Projects** (1 found):" ++ nl ++ nl ++
              "**Home** (ID: p1)" ++ nl ++
              "- Color: undefined" ++ nl ++
              "- Shared: Member" ++ nl ++
              "- Task Count: 0" ++ nl ++
              "- Modified: Unknown" ++ nl in
  exists shown items,
    shown = [open] /\
    text = " **TickTick Projects** (" ++ dec (Z.of_nat (List.length shown)) ++
           " found):" ++ nl ++ nl ++ concat nl items /\
    Forall2 (fun project item =>
               exists name id rest,
                 show project "name" = Ok name /\ show project "id" = Ok id /\
                 item = "**" ++ name ++ "** (ID: " ++ id ++ ")" ++ nl ++ rest)
            shown items.
Proof.
  intros open closed r text.
  apply (getProjects_hides_closed_projects runtime config (world 0 (Responded r)) 0
           (VObj []) r [open; closed] text); reflexivity.
Defined.


(** X17. filter-tasks filters the tasks of the answer on the client: when
    the upstream answers GET /task with an array and the call returns a
    text, the tasks shown are tasks of the answer in their order, the
    heading counts them, and each of them passes every filter that is
    given: its priority is strictly equal to [priority], it has a due date
    before [due_before] and after [due_after], its title or its content
    contains the keywords in lower case, and its tags hold one of the
    [tags]. *)
Theorem filterTasks_shows_matching_tasks R cfg w i args r tasks text :
  no_credentials cfg = false ->
  upstream w i (request_for cfg "/task" "GET" VNull) = Responded r ->
  ok r = true -> json r = Some (VArr tasks) ->
  result_of (run w (callTool R cfg "ticktick_filter_tasks" args) i) = Ok text ->
  exists keep shown items,
    shown = List.filter keep tasks /\
    text = " **Filtered TickTick Tasks** (" ++ dec (Z.of_nat (List.length shown)) ++
           " found):" ++ nl ++ nl ++ concat nl items /\
    Forall2 (fun task item => filterTasks_item R task = Ok item) shown items /\
    forall task, In task shown ->
      (field args "priority" <> VUndef ->
       strict_eq (field task "priority") (field args "priority") = true) /\
      (truthy (field args "due_before") = true ->
       exists before due,
         new_Date R (field args "due_before") = Ok before /\
         truthy (field task "dueDate") = true /\
         new_Date R (field task "dueDate") = Ok due /\
         date_lt due before = true) /\
      (truthy (field args "due_after") = true ->
       exists after due,
         new_Date R (field args "due_after") = Ok after /\
         truthy (field task "dueDate") = true /\
         new_Date R (field task "dueDate") = Ok due /\
         date_lt after due = true) /\
      (truthy (field args "keywords") = true ->
       exists keywords title,
         lower R (field args "keywords") = Ok keywords /\
         lower R (field task "title") = Ok title /\
         (str_includes title keywords = true \/
          exists content,
            truthy (field task "content") = true /\
            lower R (field task "content") = Ok content /\
            str_includes content keywords = true)) /\
      (truthy (field args "tags") = true ->
       truthy (field (field args "tags") "length") = true ->
       truthy (field task "tags") = true /\
       exists wanted tag,
         field args "tags" = VArr wanted /\ In tag wanted /\
         includes (field task "tags") tag = Ok true).
Proof.
  intros Hc Hu Hk Hj H. unfold callTool in H. rewrite Hc in H.
  change (dispatch R cfg "ticktick_filter_tasks" args) with (filterTasks R cfg args) in H.
  unfold filterTasks, GET in H.
  destruct (destructure args) as [[] |] eqn:Hd; [| discriminate H].
  cbn [lift bind] in H. cbv zeta in H.
  apply (result_of_format R cfg w _ _ _ i r _ text Hu Hk Hj) in H.
  cbv beta in H.
  (* keywords *)
  destruct (if truthy (field args "keywords") then _ else _) as [v1 |] eqn:E1;
    cbn [rbind] in H; [| discriminate H].
  assert (S1 : exists l1, v1 = VArr l1 /\ (exists g, l1 = List.filter g tasks) /\
            (truthy (field args "keywords") = true ->
             forall task, In task l1 ->
               exists keywords title,
                 lower R (field args "keywords") = Ok keywords /\
                 lower R (field task "title") = Ok title /\
                 (str_includes title keywords = true \/
                  exists content,
                    truthy (field task "content") = true /\
                    lower R (field task "content") = Ok content /\
                    str_includes content keywords = true))).
  { destruct (truthy (field args "keywords")) eqn:Tk.
    - destruct (lower R (field args "keywords")) as [kw |]; cbn [rbind] in E1;
        [| discriminate E1].
      destruct (filter_stage true _ _ _ E1) as [l1 [-> [G P]]].
      exists l1. split; [reflexivity |]. split; [exact G |]. intros _ task Ht.
      specialize (P eq_refl task Ht). cbv beta in P. exists kw.
      unfold field.
      destruct (get task "title") as [title |]; cbn [rbind] in P; [| discriminate P].
      destruct (lower R title) as [tl |]; cbn [rbind] in P; [| discriminate P].
      exists tl. split; [reflexivity |]. split; [reflexivity |].
      destruct (str_includes tl kw); [now left |]. right.
      destruct (get task "content") as [content |]; cbn [rbind] in P; [| discriminate P].
      destruct (truthy content); [| discriminate P].
      destruct (lower R content) as [cl |]; cbn [rbind] in P; [| discriminate P].
      exists cl. injection P as P'. repeat split; reflexivity || assumption.
    - destruct (filter_stage false (fun _ => Ok true) _ _ E1) as [l1 [-> [G _]]].
      exists l1. split; [reflexivity |]. split; [exact G | discriminate]. }
  destruct S1 as [l1 [-> [[g1 G1] P1]]].
  (* tags *)
  destruct (if truthy (field args "tags") then _ else _) as [has |] eqn:Eh;
    cbn [rbind] in H; [| discriminate H].
  destruct (if has then _ else _) as [v2 |] eqn:E2; cbn [rbind] in H; [| discriminate H].
  destruct (filter_stage has _ _ _ E2) as [l2 [-> [[g2 G2] P2]]].
  assert (Hhas : truthy (field args "tags") = true ->
                 truthy (field (field args "tags") "length") = true -> has = true).
  { intros T1 T2. rewrite T1 in Eh. clear - Eh T2.
    remember (field args "tags") as wanted. unfold field in T2.
    destruct (get wanted "length") as [n |]; cbn [rbind] in Eh; [| discriminate Eh].
    inversion Eh. exact T2. }
  (* priority *)
  destruct (if negb (is_undefined (field args "priority")) then _ else _)
    as [v3 |] eqn:E3; cbn [rbind] in H; [| discriminate H].
  destruct (filter_stage _ _ _ _ E3) as [l3 [-> [[g3 G3] P3]]].
  (* due_before *)
  destruct (if truthy (field args "due_before") then _ else _) as [v4 |] eqn:E4;
    cbn [rbind] in H; [| discriminate H].
  assert (S4 : exists l4, v4 = VArr l4 /\ (exists g, l4 = List.filter g l3) /\
            (truthy (field args "due_before") = true ->
             forall task, In task l4 ->
               exists before due,
                 new_Date R (field args "due_before") = Ok before /\
                 truthy (field task "dueDate") = true /\
                 new_Date R (field task "dueDate") = Ok due /\
                 date_lt due before = true)).
  { destruct (truthy (field args "due_before")) eqn:Tb.
    - destruct (new_Date R (field args "due_before")) as [before |]; cbn [rbind] in E4;
        [| discriminate E4].
      destruct (filter_stage true _ _ _ E4) as [l4 [-> [G P]]].
      exists l4. split; [reflexivity |]. split; [exact G |]. intros _ task Ht.
      specialize (P eq_refl task Ht). cbv beta in P. exists before.
      unfold field.
      destruct (get task "dueDate") as [due |]; cbn [rbind] in P; [| discriminate P].
      destruct (truthy due) eqn:Td; [| discriminate P].
      destruct (new_Date R due) as [d |]; cbn [rbind] in P; [| discriminate P].
      exists d. injection P as P'. repeat split; reflexivity || assumption.
    - destruct (filter_stage false (fun _ => Ok true) _ _ E4) as [l4 [-> [G _]]].
      exists l4. split; [reflexivity |]. split; [exact G | discriminate]. }
  destruct S4 as [l4 [-> [[g4 G4] P4]]].
  (* due_after *)
  destruct (if truthy (field args "due_after") then _ else _) as [v5 |] eqn:E5;
    cbn [rbind] in H; [| discriminate H].
  assert (S5 : exists l5, v5 = VArr l5 /\ (exists g, l5 = List.filter g l4) /\
            (truthy (field args "due_after") = true ->
             forall task, In task l5 ->
               exists after due,
                 new_Date R (field args "due_after") = Ok after /\
                 truthy (field task "dueDate") = true /\
                 new_Date R (field task "dueDate") = Ok due /\
                 date_lt after due = true)).
  { destruct (truthy (field args "due_after")) eqn:Ta.
    - destruct (new_Date R (field args "due_after")) as [after |]; cbn [rbind] in E5;
        [| discriminate E5].
      destruct (filter_stage true _ _ _ E5) as [l5 [-> [G P]]].
      exists l5. split; [reflexivity |]. split; [exact G |]. intros _ task Ht.
      specialize (P eq_refl task Ht). cbv beta in P. exists after.
      unfold field.
      destruct (get task "dueDate") as [due |]; cbn [rbind] in P; [| discriminate P].
      destruct (truthy due) eqn:Td; [| discriminate P].
      destruct (new_Date R due) as [d |]; cbn [rbind] in P; [| discriminate P].
      exists d. injection P as P'. repeat split; reflexivity || assumption.
    - destruct (filter_stage false (fun _ => Ok true) _ _ E5) as [l5 [-> [G _]]].
      exists l5. split; [reflexivity |]. split; [exact G | discriminate]. }
  destruct S5 as [l5 [-> [[g5 G5] P5]]].
  (* the text *)
  steps H. inversion H. clear H.
  match goal with E : show (VArr l5) "length" = Ok _ |- _ => cbn in E; inversion E end.
  match goal with E : map_ (VArr l5) _ = Ok ?v |- _ =>
    unfold map_ in E; cbn [array_of rbind] in E; apply mapR_Forall2 in E;
    rename E into Hm; rename v into items end.
  exists (fun x => (g1 x && (g2 x && (g3 x && (g4 x && g5 x))))%bool), l5, items.
  split.
  { rewrite G5, G4, G3, G2, G1. rewrite !filter_filter. reflexivity. }
  split; [reflexivity |]. split; [exact Hm |].
  intros task Ht.
  assert (I4 : In task l4) by (rewrite G5 in Ht; now apply filter_sub in Ht).
  assert (I3 : In task l3) by (rewrite G4 in I4; now apply filter_sub in I4).
  assert (I2 : In task l2) by (rewrite G3 in I3; now apply filter_sub in I3).
  assert (I1 : In task l1) by (rewrite G2 in I2; now apply filter_sub in I2).
  split; [| split; [| split; [| split]]].
  - intros Hp.
    assert (Hu' : negb (is_undefined (field args "priority")) = true)
      by (destruct (field args "priority"); [contradiction | ..]; reflexivity).
    specialize (P3 Hu' task I3). cbv beta in P3. unfold field at 1.
    destruct (get task "priority") as [p |]; cbn [rbind] in P3; [| discriminate P3].
    injection P3 as P3'. exact P3'.
  - intros T. exact (P4 T task I4).
  - intros T. exact (P5 T task Ht).
  - intros T. exact (P1 T task I1).
  - intros T1 T2. specialize (P2 (Hhas T1 T2) task I2). cbv beta in P2.
    assert (Hg : exists ttags, get task "tags" = Ok ttags /\ field task "tags" = ttags).
    { unfold field. destruct (get task "tags") as [ttags |]; cbn [rbind] in P2;
        [| discriminate P2]. now exists ttags. }
    destruct Hg as [ttags [Eg Ef]]. rewrite Ef. rewrite Eg in P2. cbn [rbind] in P2.
    destruct (truthy ttags) eqn:Tt; [| discriminate P2]. split; [reflexivity |].
    destruct (array_of (field args "tags") "some") as [wanted |] eqn:Ew;
      cbn [rbind] in P2; [| discriminate P2].
    apply someR_exists in P2. destruct P2 as [tag [Hin Hinc]].
    assert (Hw : field args "tags" = VArr wanted).
    { destruct (field args "tags"); cbn in Ew; try discriminate Ew.
      injection Ew as ->. reflexivity. }
    exists wanted, tag. split; [exact Hw |]. split; [exact Hin |].
    cbv beta in Hinc. cbn [rbind] in Hinc. exact Hinc.
Qed.

Lemma filterTasks_shows_matching_tasks_witness :
  let t1 := VObj [("id", VStr "t1"); ("title", VStr "Pay rent");
                  ("priority", VNum 5); ("status", VNum 0)] in
  let t2 := VObj [("id", VStr "t2"); ("title", VStr "Call mum");
                  ("priority", VNum 1); ("status", VNum 2)] in
  let r := {| status := 200; statusText := "OK"; text := "[...]";
              json := Some (VArr [t1; t2]) |} in
  let args := VObj [("priority", VNum 5)] in
  let text := " **Filtered TickTick Tasks** (1 found):" ++ nl ++ nl ++
              "**Pay rent** (ID: t1)" ++ nl ++
              "- Status:  Pending" ++ nl ++
              "- Priority:  High" ++ nl in
  exists keep shown items,
    shown = List.filter keep [t1; t2] /\
    text = " **Filtered TickTick Tasks** (" ++ dec (Z.of_nat (List.length shown)) ++
           " found):" ++ nl ++ nl ++ concat nl items /\
    Forall2 (fun task item => filterTasks_item runtime task = Ok item) shown items /\
    forall task, In task shown ->
      (field args "priority" <> VUndef ->
       strict_eq (field task "priority") (field args "priority") = true) /\
      (truthy (field args "due_before") = true ->
       exists before due,
         new_Date runtime (field args "due_before") = Ok before /\
         truthy (field task "dueDate") = true /\
         new_Date runtime (field task "dueDate") = Ok due /\
         date_lt due before = true) /\
      (truthy (field args "due_after") = true ->
       exists after due,
         new_Date runtime (field args "due_after") = Ok after /\
         truthy (field task "dueDate") = true /\
         new_Date runtime (field task "dueDate") = Ok due /\
         date_lt after due = true) /\
      (truthy (field args "keywords") = true ->
       exists keywords title,
         lower runtime (field args "keywords") = Ok keywords /\
         lower runtime (field task "title") = Ok title /\
         (str_includes title keywords = true \/
          exists content,
            truthy (field task "content") = true /\
            lower runtime (field task "content") = Ok content /\
            str_includes content keywords = true)) /\
      (truthy (field args "tags") = true ->
       truthy (field (field args "tags") "length") = true ->
       truthy (field task "tags") = true /\
       exists wanted tag,
         field args "tags" = VArr wanted /\ In tag wanted /\
         includes (field task "tags") tag = Ok true).
Proof.
  intros t1 t2 r args text.
  apply (filterTasks_shows_matching_tasks runtime config (world 0 (Responded r)) 0
           args r [t1; t2] text); reflexivity.
Defined.


(** X18. The summary of get-tasks-by-tag adds up: when the upstream
    answers with an array and the call returns a text, the text ends with
    the number of tasks of the answer, the number of those whose status is
    2 and the number of the others, and the last two sum to the first; the
    text has one block for each task. *)
Theorem getTasksByTag_summary_adds_up R cfg w i args tag limit r tasks text :
  no_credentials cfg = false ->
  to_str (field args "tag_name") = Ok tag ->
  to_str (dflt (field args "limit") (VNum 50)) = Ok limit ->
  upstream w i (request_for cfg ("/task?tags=" ++ encodeURIComponent tag ++
                                 "&limit=" ++ limit) "GET" VNull) = Responded r ->
  ok r = true -> json r = Some (VArr tasks) ->
  result_of (run w (callTool R cfg "ticktick_get_tasks_by_tag" args) i) = Ok text ->
  exists items completed pending,
    text = " **Tasks Tagged with " ++ dq ++ tag ++ dq ++ "** (" ++
           dec (Z.of_nat (List.length tasks)) ++ " found):" ++ nl ++ nl ++
           concat nl items ++ nl ++
           "**Summary**:" ++ nl ++
           "- Total Tasks: " ++ dec (Z.of_nat (List.length tasks)) ++ nl ++
           "- Completed: " ++ dec (Z.of_nat completed) ++ nl ++
           "- Pending: " ++ dec (Z.of_nat pending) /\
    completed =
      List.length (List.filter (fun t => strict_eq (field t "status") (VNum 2)) tasks) /\
    (completed + pending = List.length tasks)%nat /\
    Forall2 (fun task item => getTasksByTag_item R task = Ok item) tasks items.
Proof.
  intros Hc Htag Hlim Hu Hk Hj H. unfold callTool in H. rewrite Hc in H.
  change (dispatch R cfg "ticktick_get_tasks_by_tag" args)
    with (getTasksByTag R cfg args) in H.
  unfold getTasksByTag, GET in H.
  destruct (destructure args) as [[] |] eqn:Hd; [| discriminate H].
  cbn [lift bind] in H. cbv zeta in H. rewrite Htag, Hlim in H. cbn [lift bind] in H.
  apply (result_of_format R cfg w _ _ _ i r _ text Hu Hk Hj) in H.
  cbv beta in H. cbn [rbind] in H. cbn [show get rbind to_str] in H.
  destruct (map_ (VArr tasks) _) as [items |] eqn:Hm; cbn [rbind] in H; [| discriminate H].
  unfold filter in H. cbn [array_of rbind] in H.
  destruct (filterR _ tasks) as [done |] eqn:E1; cbn [rbind] in H; [| discriminate H].
  cbn [get rbind to_str] in H.
  destruct (filterR _ tasks) as [rest |] eqn:E2 in H; cbn [rbind] in H; [| discriminate H].
  cbn [get rbind to_str] in H. injection H as H.
  unfold map_ in Hm. cbn [array_of rbind] in Hm. apply mapR_Forall2 in Hm.
  destruct (filterR_filter _ _ _ E1) as [D1 A1].
  destruct (filterR_filter _ _ _ E2) as [D2 _].
  assert (Hs : forall t, In t tasks ->
            (match (let? st := get t "status" in Ok (strict_eq st (VNum 2))) with
             | Ok b => b | Err _ => false end) = strict_eq (field t "status") (VNum 2) /\
            (match (let? st := get t "status" in Ok (negb (strict_eq st (VNum 2)))) with
             | Ok b => b | Err _ => false end) =
            negb (strict_eq (field t "status") (VNum 2))).
  { intros t Ht. destruct (A1 t Ht) as [b Hb]. unfold field.
    destruct (get t "status"); cbn [rbind] in *; [split; reflexivity | discriminate]. }
  exists items, (List.length done), (List.length rest).
  split; [symmetry; exact H |]. split; [| split; [| exact Hm]].
  - rewrite D1. f_equal. apply filter_ext_in. intros t Ht. apply (Hs t Ht).
  - rewrite D1, D2. clear - Hs.
    induction tasks as [| t l IH]; cbn [List.filter]; [reflexivity |].
    destruct (Hs t (or_introl eq_refl)) as [-> ->].
    assert (IH' := IH (fun x Hx => Hs x (or_intror Hx))).
    destruct (strict_eq (field t "status") (VNum 2)); cbn [negb List.length]; lia.
Qed.

Lemma getTasksByTag_summary_adds_up_witness :
  let t1 := VObj [("id", VStr "t1"); ("title", VStr "Pay rent");
                  ("priority", VNum 5); ("status", VNum 0)] in
  let t2 := VObj [("id", VStr "t2"); ("title", VStr "Call mum");
                  ("priority", VNum 1); ("status", VNum 2)] in
  let r := {| status := 200; statusText := "OK"; text := "[...]";
              json := Some (VArr [t1; t2]) |} in
  let text := " **Tasks Tagged with " ++ dq ++ "home & garden" ++ dq ++
              "** (2 found):" ++ nl ++ nl ++
              "**Pay rent** (ID: t1)" ++ nl ++
              "- Status:  Pending" ++ nl ++
              "- Priority:  High" ++ nl ++
              "- Project: undefined" ++ nl ++
              "- All Tags: None" ++ nl ++ nl ++
              "**Call mum** (ID: t2)" ++ nl ++
              "- Status:  Completed" ++ nl ++
              "- Priority:  Low" ++ nl ++
              "- Project: undefined" ++ nl ++
              "- All Tags: None" ++ nl ++ nl ++
              "**Summary**:" ++ nl ++
              "- Total Tasks: 2" ++ nl ++
              "- Completed: 1" ++ nl ++
              "- Pending: 1" in
  exists items completed pending,
    text = " **Tasks Tagged with " ++ dq ++ "home & garden" ++ dq ++ "** (" ++
           dec (Z.of_nat (List.length [t1; t2])) ++ " found):" ++ nl ++ nl ++
           concat nl items ++ nl ++
           "**Summary**:" ++ nl ++
           "- Total Tasks: " ++ dec (Z.of_nat (List.length [t1; t2])) ++ nl ++
           "- Completed: " ++ dec (Z.of_nat completed) ++ nl ++
           "- Pending: " ++ dec (Z.of_nat pending) /\
    completed =
      List.length (List.filter (fun t => strict_eq (field t "status") (VNum 2)) [t1; t2]) /\
    (completed + pending = List.length [t1; t2])%nat /\
    Forall2 (fun task item => getTasksByTag_item runtime task = Ok item) [t1; t2] items.
Proof.
  intros t1 t2 r text.
  apply (getTasksByTag_summary_adds_up runtime config (world 0 (Responded r)) 0
           (VObj [("tag_name", VStr "home & garden")]) "home & garden" "50" r
           [t1; t2] text); reflexivity.
Defined.
